(** * Claims resolver, access gate and free-listing quota gate

    A shallow embedding of
      - [server/middleware/auth.ts]      (module [Auth]),
      - the free-ad settings routes      (module [FreeAds]),
      - [createProperty] of [server/routes/properties.ts] (module [Properties]),
    followed by the properties established about them.

    Conventions.
      - A JavaScript string is a Rocq [string] whose characters are code
        units below 256 (the range Node gives to header values); case
        mapping and white space follow ECMAScript on that range.
      - A JavaScript number is written as an integer [Z] and stands for
        the double nearest to it ([roundDouble]); [Infinity] has its own
        constructor.  A [Date] is written as its time value in ms.
      - An expression that may throw has an [Outcome]; a handler's
        [try]/[catch] turns [Throws] into the answer of its [catch].
      - A handler is a function of the request (and of the store); what it
        does with [res] and [next] is the [Effect] it returns. *)

From Stdlib Require Import String Ascii ZArith List Bool Lia DecimalString.
From Stdlib Require Import DecimalZ DecimalPos.
Import ListNotations.
Set Warnings "-register-all".
Local Open Scope string_scope.
Local Open Scope Z_scope.

(* ===================================================================== *)
(** ** JavaScript values                                                  *)
(* ===================================================================== *)

Module JS.

(** [String.prototype.toLowerCase] on one code unit. *)
Definition lowerChar (c : ascii) : ascii :=
  let n := N_of_ascii c in
  if ((65 <=? n) && (n <=? 90) ||
      (192 <=? n) && (n <=? 214) ||
      (216 <=? n) && (n <=? 222))%N
  then ascii_of_N (n + 32) else c.

Fixpoint toLowerCase (s : string) : string :=
  match s with
  | EmptyString => EmptyString
  | String c s' => String (lowerChar c) (toLowerCase s')
  end.

(** WhiteSpace and LineTerminator code units below 256. *)
Definition isWhite (c : ascii) : bool :=
  let n := N_of_ascii c in
  ((9 <=? n) && (n <=? 13) || (n =? 32) || (n =? 160))%N.

Fixpoint trimStart (s : string) : string :=
  match s with
  | EmptyString => EmptyString
  | String c s' => if isWhite c then trimStart s' else s
  end.

Definition reverse (s : string) : string :=
  string_of_list_ascii (rev (list_ascii_of_string s)).

Definition trimEnd (s : string) : string := reverse (trimStart (reverse s)).

Definition trim (s : string) : string := trimEnd (trimStart s).

Definition startsWith (s p : string) : bool := prefix p s.

(** [s.slice(n)] for [0 <= n]. *)
Fixpoint slice (n : nat) (s : string) : string :=
  match n, s with
  | O, _ => s
  | S n', String _ s' => slice n' s'
  | S _, EmptyString => EmptyString
  end.

Definition nonEmpty (s : string) : bool :=
  match s with EmptyString => false | _ => true end.

(** Decimal text of an integer. *)
Definition showZ (n : Z) : string := NilZero.string_of_int (Z.to_int n).

(** The Number value the integer [n] denotes: the nearest double, ties to
    even, as an integer; [None] when that is infinite. *)
Definition roundDouble (n : Z) : option Z :=
  let a := Z.abs n in
  let bits := if a =? 0 then 0 else Z.log2 a + 1 in
  let m :=
    if bits <=? 53 then a
    else
      let sh := bits - 53 in
      let q := Z.shiftr a sh in
      let r := a - Z.shiftl q sh in
      let half := Z.shiftl 1 (sh - 1) in
      let q' :=
        if (half <? r) || ((r =? half) && Z.odd q) then q + 1 else q in
      Z.shiftl q' sh in
  if 2 ^ 1024 <=? m then None else Some (Z.sgn n * m).

Definition digits (x : Z) : Z := Z.of_nat (String.length (showZ x)).

Definition roundsTo (v x : Z) : bool :=
  match roundDouble v with Some y => y =? x | None => false end.

(** The integer of fewest significant digits that denotes the double [x]
    (for [0 < x] of [d] digits), trying [k] significant digits and more;
    among two of the same length the one nearer to [x]. *)
Fixpoint shortest (fuel : nat) (x d k : Z) : Z :=
  match fuel with
  | O => x
  | S fuel' =>
      if d <=? k then x
      else
        let p := 10 ^ (d - k) in
        let lo := (x / p) * p in
        let hi := lo + p in
        match roundsTo lo x, roundsTo hi x with
        | true, true =>
            if x - lo <? hi - x then lo
            else if hi - x <? x - lo then hi
            else if Z.even (x / p) then lo else hi
        | true, false => lo
        | false, true => hi
        | false, false => shortest fuel' x d (k + 1)
        end
  end.

Fixpoint stripZeros (fuel : nat) (v : Z) : Z :=
  match fuel with
  | O => v
  | S fuel' =>
      if (v mod 10 =? 0) && negb (v =? 0) then stripZeros fuel' (v / 10)
      else v
  end.

(** [Number::toString] for a positive integral double: the shortest digits
    that denote it, padded with zeros up to 21 digits and in exponent
    form beyond. *)
Definition positiveToString (x : Z) : string :=
  let d := digits x in
  let v := shortest (Z.to_nat d) x d 1 in
  if v <? 10 ^ 21 then showZ v
  else
    let n := digits v in
    match showZ (stripZeros (Z.to_nat n) v) with
    | String c "" => String c "" ++ "e+" ++ showZ (n - 1)
    | String c rest => String c ("." ++ rest) ++ "e+" ++ showZ (n - 1)
    | "" => ""
    end.

(** [String(n)] for a number: the decimal text of [n] up to 2^53, e.g.
    "1152921504606847000" for 2^60 and "1e+21" for 10^21. *)
Definition numberToString (n : Z) : string :=
  match roundDouble n with
  | None => if n <? 0 then "-Infinity" else "Infinity"
  | Some x =>
      if x =? 0 then "0"
      else if x <? 0 then "-" ++ positiveToString (- x)
      else positiveToString x
  end.

Fixpoint join (sep : string) (l : list string) : string :=
  match l with
  | [] => ""
  | [x] => x
  | x :: tl => x ++ sep ++ join sep tl
  end.

Inductive jsval : Type :=
| JUndefined
| JNull
| JBool (b : bool)
| JNum (n : Z)
| JInfinity
| JStr (s : string)
| JArr (l : list jsval)
| JObj (fields : list (string * jsval)).

Definition object : Type := list (string * jsval).

(** [ToBoolean]. *)
Definition truthy (v : jsval) : bool :=
  match v with
  | JUndefined | JNull => false
  | JBool b => b
  | JNum n => negb (n =? 0)
  | JInfinity => true
  | JStr s => nonEmpty s
  | JArr _ | JObj _ => true
  end.

Definition nullish (v : jsval) : bool :=
  match v with JUndefined | JNull => true | _ => false end.

(** [a || b] and [a ?? b]. *)
Definition or_ (a b : jsval) : jsval := if truthy a then a else b.
Definition coalesce (a b : jsval) : jsval := if nullish a then b else a.

Fixpoint assoc {A : Type} (k : string) (l : list (string * A)) : option A :=
  match l with
  | [] => None
  | (k', v) :: tl => if String.eqb k k' then Some v else assoc k tl
  end.

(** Own-property read [o.k] of a plain data object. *)
Definition prop (o : object) (k : string) : jsval :=
  match assoc k o with Some v => v | None => JUndefined end.

(** [v?.k], for the property names read in this code base (none of them
    names a member of a primitive wrapper or of [Array.prototype]). *)
Definition get (v : jsval) (k : string) : jsval :=
  match v with
  | JObj o => prop o k
  | _ => JUndefined
  end.

(** The string [String(v)] returns, for a [v] on which it returns (see
    [ToString] for the values on which it throws). *)
Fixpoint String_ (v : jsval) : string :=
  match v with
  | JUndefined => "undefined"
  | JNull => "null"
  | JBool true => "true"
  | JBool false => "false"
  | JNum n => numberToString n
  | JInfinity => "Infinity"
  | JStr s => s
  | JArr l =>
      join "," (map (fun x => if nullish x then "" else String_ x) l)
  | JObj _ => "[object Object]"
  end.

(** The outcome of an expression that may throw a TypeError. *)
Inductive Outcome (A : Type) : Type :=
| Throws
| Returns (a : A).
Arguments Throws {A}.
Arguments Returns {A} a.

Definition mapOutcome {A B : Type} (f : A -> B) (o : Outcome A) : Outcome B :=
  match o with Throws => Throws | Returns a => Returns (f a) end.

Definition throws {A : Type} (o : Outcome A) : bool :=
  match o with Throws => true | Returns _ => false end.

(** A value of a parsed payload or body whose conversion to a primitive
    throws: an object with an own key "toString" (its value is data, not
    a function, and neither it nor [valueOf] yields a primitive), or an
    array that holds such a value. *)
Fixpoint unconvertible (v : jsval) : bool :=
  match v with
  | JObj o => match assoc "toString" o with Some _ => true | None => false end
  | JArr l => existsb unconvertible l
  | _ => false
  end.

(** [String(v)]. *)
Definition ToString (v : jsval) : Outcome string :=
  if unconvertible v then Throws else Returns (String_ v).

(** [Number(v)] throws on the same values ([ToPrimitive] fails). *)
Definition numberThrows (v : jsval) : bool := unconvertible v.

(** [a === b] against a boolean literal. *)
Definition strictEqBool (v : jsval) (b : bool) : bool :=
  match v with JBool b' => Bool.eqb b' b | _ => false end.

Definition includes (l : list string) (x : string) : bool :=
  existsb (String.eqb x) l.

End JS.

(* ===================================================================== *)
(** ** server/middleware/auth.ts                                          *)
(* ===================================================================== *)

Module Auth.
Import JS.

(** The part of an Express request this code reads and writes.  Header
    names are lower-cased by Node; [cookies] is absent when no cookie
    parser ran; [body] is the parsed request body.  The last five fields
    are the ones [verifyAndAttach] assigns. *)
Record Request : Type := mkRequest {
  headers  : list (string * string);
  cookies  : option (list (string * string));
  body     : object;
  userId   : option string;
  userType : option string;
  role     : option string;
  email    : jsval;
  isAdmin  : option bool
}.

Record Response : Type := mkResponse { status : Z; json : jsval }.

(** What a guard does besides assigning request fields. *)
Inductive Effect : Type :=
| Sent (r : Response)      (* res.status(..).json(..); next is not called *)
| CalledNext               (* next() *)
| ThrewTypeError.          (* the guard threw before answering *)

(** The guard let the request through to the route handler. *)
Definition allows (e : Effect) : bool :=
  match e with CalledNext => true | _ => false end.

Definition failure (code : Z) (msg : string) : Response :=
  mkResponse code (JObj [("success", JBool false); ("error", JStr msg)]).

(** [(req.headers[k] as string) || ""]. *)
Definition header (r : Request) (k : string) : string :=
  match assoc k (headers r) with Some v => v | None => "" end.

(** [req?.cookies?.[k]], with the empty string standing for a falsy value. *)
Definition cookie (r : Request) (k : string) : string :=
  match cookies r with
  | Some cs => match assoc k cs with Some v => v | None => "" end
  | None => ""
  end.

Definition orStr (a b : string) : string := if nonEmpty a then a else b.

Definition pickToken (r : Request) : option string :=
  let auth := header r "authorization" in
  if startsWith (toLowerCase auth) "bearer " then Some (trim (slice 7 auth))
  else
    let xAuth := header r "x-auth-token" in
    let xAdmin := header r "x-admin-token" in
    if nonEmpty xAuth then Some (trim xAuth)
    else if nonEmpty xAdmin then Some (trim xAdmin)
    else
      let cookieTok :=
        orStr (cookie r "token")
              (orStr (cookie r "authToken") (cookie r "adminToken")) in
      if nonEmpty cookieTok then Some (trim cookieTok) else None.

(** [id ? String(id) : null]; the conversion may throw. *)
Definition idFromPayload (p : object) : Outcome (option string) :=
  let id :=
    coalesce (prop p "userId")
    (coalesce (prop p "id")
    (coalesce (prop p "_id")
    (coalesce (get (prop p "user") "id")
    (coalesce (get (prop p "user") "_id")
    (coalesce (prop p "sub") JNull))))) in
  if truthy id then mapOutcome Some (ToString id) else Returns None.

Definition getUserTypeFromPayload (p : object) : Outcome (option string) :=
  let t :=
    coalesce (prop p "userType")
    (coalesce (prop p "type")
    (coalesce (prop p "accountType")
    (coalesce (get (prop p "user") "userType")
    (coalesce (get (prop p "user") "type")
              (get (prop p "user") "accountType"))))) in
  if truthy t then mapOutcome (fun s => Some (toLowerCase s)) (ToString t)
  else Returns None.

Definition getRoleFromPayload (p : object) : Outcome (option string) :=
  let r :=
    coalesce (prop p "role")
    (coalesce (prop p "staffRole")
    (coalesce (prop p "permissionRole")
              (get (prop p "user") "role"))) in
  if truthy r then mapOutcome (fun s => Some (toLowerCase s)) (ToString r)
  else Returns None.

(** [x || ""] for an optional string. *)
Definition orEmpty (o : option string) : string :=
  match o with Some s => s | None => "" end.

(** The operands of [||] are evaluated left to right: the account type is
    read only when the three flags are falsy. *)
Definition getIsAdminBool (p : object) : Outcome bool :=
  if truthy (prop p "isAdmin")
     || strictEqBool (prop p "admin") true
     || strictEqBool (get (prop p "user") "isAdmin") true
  then Returns true
  else mapOutcome
         (fun t => includes ["admin"; "staff"] (toLowerCase (orEmpty t)))
         (getUserTypeFromPayload p).

(** The assignments [req.userId = ..], [req.userType = ..], ... *)
Definition setUserId (r : Request) (v : string) : Request :=
  {| headers := headers r; cookies := cookies r; body := body r;
     userId := Some v; userType := userType r; role := role r;
     email := email r; isAdmin := isAdmin r |}.

Definition setUserType (r : Request) (v : option string) : Request :=
  {| headers := headers r; cookies := cookies r; body := body r;
     userId := userId r; userType := v; role := role r;
     email := email r; isAdmin := isAdmin r |}.

Definition setRole (r : Request) (v : option string) : Request :=
  {| headers := headers r; cookies := cookies r; body := body r;
     userId := userId r; userType := userType r; role := v;
     email := email r; isAdmin := isAdmin r |}.

Definition setEmail (r : Request) (v : jsval) : Request :=
  {| headers := headers r; cookies := cookies r; body := body r;
     userId := userId r; userType := userType r; role := role r;
     email := v; isAdmin := isAdmin r |}.

Definition setIsAdmin (r : Request) (v : bool) : Request :=
  {| headers := headers r; cookies := cookies r; body := body r;
     userId := userId r; userType := userType r; role := role r;
     email := email r; isAdmin := Some v |}.

(** The request a run on a decoded payload attaches when nothing throws. *)
Definition attached (r : Request) (decoded : object) (uid : string)
  (t ro : option string) (b : bool) : Request :=
  {| headers := headers r; cookies := cookies r; body := body r;
     userId := Some uid; userType := t; role := ro;
     email := or_ (prop decoded "email") (get (prop decoded "user") "email");
     isAdmin := Some b |}.

Section Verifier.

(** [process.env] and [jwt.verify(token, secret)]: the decoded claims, or
    [None] when the library throws (bad signature, malformed, expired). *)
Variable env : string -> option string.
Variable jwt_verify : string -> string -> option object.

Definition JWT_SECRET : string :=
  orStr (orEmpty (env "JWT_SECRET"))
        (orStr (orEmpty (env "JWT_PRIVATE_KEY")) "your-secret-key").

(** The request after the call, and the response written when the result is
    [{ ok: false }]; [None] is [{ ok: true }].  Whatever throws inside the
    [try] block is answered by its [catch]; the assignments made before
    the throw stay on the request. *)
Definition verifyAndAttach (r : Request) : Request * option Response :=
  let required := failure 401 "Access token required" in
  let invalid := failure 401 "Invalid or expired token" in
  let noUserId := failure 401 "Invalid token (no user id)" in
  match pickToken r with
  | None => (r, Some required)
  | Some token =>
      if negb (nonEmpty token) then (r, Some required)
      else
        match jwt_verify token JWT_SECRET with
        | None => (r, Some invalid)
        | Some decoded =>
            match idFromPayload decoded with
            | Throws => (r, Some invalid)
            | Returns None => (r, Some noUserId)
            | Returns (Some uid) =>
                if negb (nonEmpty uid) then (r, Some noUserId)
                else
                  let r1 := setUserId r uid in
                  match getUserTypeFromPayload decoded with
                  | Throws => (r1, Some invalid)
                  | Returns t =>
                      let r2 := setUserType r1 t in
                      match getRoleFromPayload decoded with
                      | Throws => (r2, Some invalid)
                      | Returns ro =>
                          let r3 := setRole r2 ro in
                          let r4 :=
                            setEmail r3
                              (or_ (prop decoded "email")
                                   (get (prop decoded "user") "email")) in
                          match getIsAdminBool decoded with
                          | Throws => (r4, Some invalid)
                          | Returns b => (setIsAdmin r4 b, None)
                          end
                      end
                  end
            end
        end
  end.

Definition authenticateToken (r : Request) : Request * Effect :=
  match verifyAndAttach r with
  | (r', None) => (r', CalledNext)
  | (r', Some resp) => (r', Sent resp)
  end.

Definition requireAuthAny := authenticateToken.

Definition requireAdmin (r : Request) : Request * Effect :=
  match verifyAndAttach r with
  | (r', Some resp) => (r', Sent resp)
  | (r', None) =>
      let userType := toLowerCase (orEmpty (userType r')) in
      let role := toLowerCase (orEmpty (role r')) in
      let isAdmin := match isAdmin r' with Some b => b | None => false end in
      let isAdminType :=
        String.eqb userType "admin" || String.eqb userType "staff" in
      let isPrivRole := includes ["super_admin"; "admin"] role in
      if negb isAdminType && negb isPrivRole && negb isAdmin
      then (r', Sent (failure 403 "Admin access required"))
      else (r', CalledNext)
  end.

Definition requireSellerOrAgent (r : Request) : Request * Effect :=
  match verifyAndAttach r with
  | (r', Some resp) => (r', Sent resp)
  | (r', None) =>
      let userType := toLowerCase (orEmpty (userType r')) in
      if negb (includes ["seller"; "agent"; "admin"; "staff"] userType)
      then (r', Sent (failure 403 "Seller or agent access required"))
      else (r', CalledNext)
  end.

Definition requireBuyer (r : Request) : Request * Effect :=
  match verifyAndAttach r with
  | (r', Some resp) => (r', Sent resp)
  | (r', None) =>
      let userType := toLowerCase (orEmpty (userType r')) in
      if negb (includes
                 ["seller"; "user"; "agent"; "customer"; "admin"; "staff"]
                 userType)
      then (r', Sent (failure 401 "Login with a user/seller account"))
      else (r', CalledNext)
  end.

(** The object literal [rolePermissions]: its own properties. *)
Definition rolePermissions : list (string * list string) :=
  [ ("super_admin", ["*"]);
    ("content_manager",
       ["content.view"; "content.create"; "content.manage";
        "blog.manage"; "blog.view"]);
    ("sales_manager",
       ["users.view"; "sellers.manage"; "sellers.verify"; "sellers.view";
        "payments.view"; "packages.manage"; "ads.view"; "analytics.view"]);
    ("support_executive",
       ["users.view"; "support.view"; "reports.view"; "content.view"]);
    ("admin", ["content.view"; "users.view"; "ads.view"; "analytics.view"]) ].

(** Names every object literal inherits from [Object.prototype]; each is
    bound to a function or an object, so it is truthy and has no
    [includes] method. *)
Definition objectPrototypeKeys : list string :=
  [ "constructor"; "__defineGetter__"; "__defineSetter__"; "hasOwnProperty";
    "__lookupGetter__"; "__lookupSetter__"; "isPrototypeOf";
    "propertyIsEnumerable"; "toString"; "valueOf"; "__proto__";
    "toLocaleString" ].

(** [rolePermissions[role] || []]: an array of the table, the empty array,
    or (third case) an inherited member that is not an array. *)
Inductive Perms : Type :=
| PermList (l : list string)
| Inherited.

Definition lookupPerms (role : string) : Perms :=
  match assoc role rolePermissions with
  | Some l => PermList l
  | None => if includes objectPrototypeKeys role then Inherited
            else PermList []
  end.

Definition requirePermission (permission : string) (r : Request)
  : Request * Effect :=
  match verifyAndAttach r with
  | (r', Some resp) => (r', Sent resp)
  | (r', None) =>
      let userType := toLowerCase (orEmpty (userType r')) in
      let role := toLowerCase (orEmpty (role r')) in
      let deny :=
        (r', Sent (failure 403 ("Permission required: " ++ permission))) in
      if String.eqb userType "admin" then (r', CalledNext)
      else if String.eqb userType "staff" then
        match lookupPerms role with
        | Inherited => (r', ThrewTypeError)
        | PermList perms =>
            if includes perms "*" || includes perms permission
            then (r', CalledNext)
            else deny
        end
      else deny
  end.

End Verifier.

End Auth.

(* ===================================================================== *)
(** ** The document store                                                 *)
(* ===================================================================== *)

Module Mongo.
Import JS.

(** A field of a stored document: absent, [null], or a value. *)
Inductive field (A : Type) : Type :=
| Missing
| Null
| Val (a : A).
Arguments Missing {A}.
Arguments Null {A}.
Arguments Val {A} a.

(** [{ k: { $exists: true } }]. *)
Definition exists_ {A : Type} (f : field A) : bool :=
  match f with Missing => false | _ => true end.

(** [{ k: null }] matches a field that is absent or [null]. *)
Definition eqNull {A : Type} (f : field A) : bool :=
  match f with Val _ => false | _ => true end.

Definition isNull {A : Type} (f : field A) : bool :=
  match f with Null => true | _ => false end.

(** [{ k: b }] for a boolean literal [b]; [{ k: { $ne: b } }] is its
    negation. *)
Definition eqBool (b : bool) (f : field bool) : bool :=
  match f with Val b' => Bool.eqb b' b | _ => false end.

(** The document of collection [free_ad_settings] with [_id] "default". *)
Record Settings : Type := mkSettings {
  maxFreeAdsPerMonth : Z;
  numberOfDays : Z;
  isActive : bool
}.

(** A document of collection [properties]: the fields the moderation and
    quota logic writes or queries, and three of the descriptive fields
    copied from the form (the others are carried the same way and are read
    by nothing here). *)
Record Property : Type := mkProperty {
  title : jsval;
  description : jsval;
  priceType : jsval;
  ownerId : string;
  ownerType : string;
  status : string;
  approvalStatus : string;
  isApproved : bool;
  featured : bool;
  premium : bool;
  contactVisible : bool;
  isPaid : field bool;
  paymentStatus : string;
  views : Z;
  inquiries : Z;
  createdAt : Z;
  updatedAt : Z;
  packageId : field string
}.

Record Db : Type := mkDb {
  free_ad_settings : option Settings;
  properties : list Property;
  nextId : Z                     (* the next ObjectId, as a counter *)
}.

(** The store operations a handler issued, oldest first. *)
Inductive Op : Type :=
| FindSettings
| InsertSettings (s : Settings)
| CountProperties (filter : Property -> bool)
| InsertProperty (p : Property).

Record World : Type := mkWorld {
  db : Db;
  clock : Z;                     (* Date.now(), one instant per request *)
  trace : list Op
}.

(** Handlers run in a state monad over the world. *)
Definition M (A : Type) : Type := World -> A * World.

Definition ret {A : Type} (a : A) : M A := fun w => (a, w).

Definition bind {A B : Type} (m : M A) (k : A -> M B) : M B :=
  fun w => let (a, w') := m w in k a w'.

Definition log (o : Op) (w : World) : World :=
  mkWorld (db w) (clock w) (trace w ++ [o]).

Definition findSettings : M (option Settings) :=
  fun w => (free_ad_settings (db w), log FindSettings w).

Definition insertSettings (s : Settings) : M unit :=
  fun w =>
    let w' := log (InsertSettings s) w in
    (tt, mkWorld (mkDb (Some s) (properties (db w)) (nextId (db w)))
                 (clock w') (trace w')).

Definition countDocuments (filter : Property -> bool) : M Z :=
  fun w =>
    (Z.of_nat (length (List.filter filter (properties (db w)))),
     log (CountProperties filter) w).

(** [insertOne] appends the document and yields [insertedId]. *)
Definition insertProperty (p : Property) : M Z :=
  fun w =>
    let w' := log (InsertProperty p) w in
    (nextId (db w),
     mkWorld (mkDb (free_ad_settings (db w)) (properties (db w) ++ [p])
                   (nextId (db w) + 1))
             (clock w') (trace w')).

Definition now : M Z := fun w => (clock w, w).

Definition isCount (o : Op) : bool :=
  match o with CountProperties _ => true | _ => false end.

Definition isSettingsWrite (o : Op) : bool :=
  match o with InsertSettings _ => true | _ => false end.

Definition isPropertyInsert (o : Op) : bool :=
  match o with InsertProperty _ => true | _ => false end.

(** The operations issued between world [w] and a later world [w']. *)
Definition issued (w w' : World) : list Op :=
  skipn (length (trace w)) (trace w').

(** The number a count query with [filter] yields on the store of [w]. *)
Definition countOf (filter : Property -> bool) (w : World) : Z :=
  Z.of_nat (length (List.filter filter (properties (db w)))).

(** No stored listing has a package field that is present and null. *)
Definition noNullPackage (w : World) : bool :=
  forallb (fun p => negb (isNull (packageId p))) (properties (db w)).

(** The world whose settings singleton is [s]. *)
Definition withSettings (s : Settings) (w : World) : World :=
  mkWorld (mkDb (Some s) (properties (db w)) (nextId (db w)))
          (clock w) (trace w).

End Mongo.

Declare Scope handler_scope.
Notation "x <- m ;; k" := (Mongo.bind m (fun x => k))
  (at level 61, m at next level, right associativity) : handler_scope.

(* ===================================================================== *)
(** ** Free-ad settings routes                                            *)
(* ===================================================================== *)

Module FreeAds.
Import JS Mongo.
Import Auth(Request, Response, mkResponse, failure).
Local Open Scope handler_scope.

Definition DEFAULT_SETTINGS : Settings :=
  {| maxFreeAdsPerMonth := 2; numberOfDays := 30; isActive := true |}.

Definition ok (data : jsval) : Response :=
  mkResponse 200 (JObj [("success", JBool true); ("data", data)]).

(** Field [k] of the [data] object of an answer. *)
Definition dataField (resp : Response) (k : string) : jsval :=
  get (get (Auth.json resp) "data") k.

(** The settings a decision is taken with when [fallback] replaces an
    absent singleton. *)
Definition settingsOr (fallback : Settings) (w : World) : Settings :=
  match free_ad_settings (db w) with Some s => s | None => fallback end.

Definition getSettings (_ : Request) : M Response :=
  found <- findSettings ;;
  settings <- match found with
              | Some s => ret s
              | None => _ <- insertSettings DEFAULT_SETTINGS ;;
                        ret DEFAULT_SETTINGS
              end ;;
  ret (ok (JObj [("maxFreeAdsPerMonth", JNum (maxFreeAdsPerMonth settings));
                 ("numberOfDays", JNum (numberOfDays settings));
                 ("isActive", JBool (isActive settings))])).

(** [String((req as any).userId)]. *)
Definition userIdString (r : Request) : string :=
  match Auth.userId r with Some s => s | None => "undefined" end.

Definition msPerDay : Z := 24 * 60 * 60 * 1000.

Section CheckLimit.

(** [d.setDate(d.getDate() - n)] on time values: the same local wall-clock
    time [n] calendar days earlier, which depends on the host time zone. *)
Variable setDateBack : Z -> Z -> Z.

Definition freePostFilter (userId : string) (startDate : Z) (p : Property)
  : bool :=
  String.eqb (ownerId p) userId
  && (startDate <=? createdAt p)
  && negb (eqBool true (isPaid p))
  && negb (exists_ (packageId p)).

(** The usage count of the endpoint for request [r] under settings [s]. *)
Definition usedAtCheck (r : Request) (s : Settings) (w : World) : Z :=
  countOf (freePostFilter (userIdString r)
             (setDateBack (clock w) (numberOfDays s))) w.

Definition checkUserFreeAdLimit (r : Request) : M Response :=
  let userId := userIdString r in
  found <- findSettings ;;
  let settings := match found with Some s => s | None => DEFAULT_SETTINGS end in
  if negb (isActive settings) then
    ret (ok (JObj [("canPostFree", JBool true);
                   ("remaining", JInfinity);
                   ("limit", JInfinity);
                   ("periodDays", JNum (numberOfDays settings));
                   ("systemActive", JBool false)]))
  else
    t <- now ;;
    let startDate := setDateBack t (numberOfDays settings) in
    freePostsCount <- countDocuments (freePostFilter userId startDate) ;;
    let remaining := Z.max 0 (maxFreeAdsPerMonth settings - freePostsCount) in
    let canPostFree := 0 <? remaining in
    ret (ok (JObj [("canPostFree", JBool canPostFree);
                   ("remaining", JNum remaining);
                   ("limit", JNum (maxFreeAdsPerMonth settings));
                   ("used", JNum freePostsCount);
                   ("periodDays", JNum (numberOfDays settings));
                   ("nextResetDate",
                      JNum (startDate + numberOfDays settings * msPerDay));
                   ("systemActive", JBool true)])).

End CheckLimit.

End FreeAds.

(* ===================================================================== *)
(** ** server/routes/properties.ts: createProperty                        *)
(* ===================================================================== *)

Module Properties.
Import JS Mongo.
Import Auth(Request, Response, mkResponse, failure).
Local Open Scope handler_scope.

(** [typeof v === "string" && v.trim() ? v.trim() : undefined]. *)
Definition packageIdOf (b : object) : option string :=
  match prop b "packageId" with
  | JStr s => if nonEmpty (trim s) then Some (trim s) else None
  | _ => None
  end.

(** [v === "true"]. *)
Definition isTrueString (v : jsval) : bool :=
  match v with JStr s => String.eqb s "true" | _ => false end.

Definition contactVisibleFlag (b : object) : bool :=
  match prop b "contactVisible" with
  | JStr s => String.eqb s "true"
  | v => truthy v
  end.

Definition isSome {A : Type} (o : option A) : bool :=
  match o with Some _ => true | None => false end.

(** The object literal [propertyData], stamped at time [t]. *)
Definition propertyData (r : Request) (userId : string) (t : Z) : Property :=
  let b := Auth.body r in
  let packageId := packageIdOf b in
  let approvalStatus := if isSome packageId then "pending_approval"
                        else "pending" in
  let status := "inactive" in
  {| title := prop b "title";
     description := prop b "description";
     priceType := prop b "priceType";
     ownerId := userId;
     ownerType := Auth.orStr (Auth.orEmpty (Auth.userType r)) "seller";
     status := status;
     approvalStatus := approvalStatus;
     isApproved := false;
     featured := false;
     premium := isTrueString (prop b "premium") || isSome packageId;
     contactVisible := contactVisibleFlag b;
     isPaid := Val false;
     paymentStatus := "unpaid";
     views := 0;
     inquiries := 0;
     createdAt := t;
     updatedAt := t;
     packageId := match packageId with Some p => Val p | None => Missing end
  |}.

(** The [$or] filter of the count query. *)
Definition freePostFilter (userIdStr : string) (periodStart : Z) (p : Property)
  : bool :=
  String.eqb (ownerId p) userIdStr
  && (periodStart <=? createdAt p)
  && (negb (exists_ (packageId p))
      || eqNull (packageId p)
      || eqBool false (isPaid p)).

(** The usage count of the creation gate for user [uid] under [s]. *)
Definition usedAtCreate (uid : string) (s : Settings) (w : World) : Z :=
  countOf (freePostFilter uid
             (clock w - numberOfDays s * (24 * 60 * 60 * 1000))) w.

Definition limitMessage (max days : Z) : string :=
  "Free listing limit reached: You can post " ++ numberToString max
  ++ " free ads every " ++ numberToString days
  ++ " days. Please upgrade to a paid package to post more.".

Definition limitReached (max days used : Z) : Response :=
  mkResponse 403
    (JObj [("success", JBool false);
           ("error", JStr (limitMessage max days));
           ("limitReached", JBool true);
           ("freeAdLimit", JObj [("max", JNum max);
                                 ("days", JNum days);
                                 ("used", JNum used)])]).

Section Create.

(** [JSON.parse(text)]: the parsed value, or [None] when it throws a
    SyntaxError. *)
Variable JSON_parse : string -> option jsval.

(** [safeParse(v, fallback)]. *)
Definition safeParse (v fallback : jsval) : jsval :=
  match v with
  | JStr s => match JSON_parse s with Some x => x | None => fallback end
  | _ => coalesce v fallback
  end.

(** Building [propertyData] throws a TypeError: [normSlug] or [toInt]
    is handed a value that cannot be converted, or [specifications] is the
    string of a JSON [null], on which [specifications.bedrooms] throws.
    (The files multer stored are objects with a string [filename].) *)
Definition formThrows (b : object) : bool :=
  let specifications := safeParse (prop b "specifications") (JObj []) in
  unconvertible (or_ (prop b "propertyType") (JStr ""))
  || numberThrows (prop b "price")
  || unconvertible (or_ (prop b "subCategory") (JStr ""))
  || nullish specifications
  || existsb (fun k => numberThrows (get specifications k))
       ["bedrooms"; "bathrooms"; "area"; "floor"; "totalFloors"].

(** [Number(process.env.FREE_POST_LIMIT)] and
    [Number(process.env.FREE_POST_PERIOD_DAYS)] where the variable is set
    to a non-empty integer literal, [None] where it is unset or empty. *)
Variable FREE_POST_LIMIT : option Z.
Variable FREE_POST_PERIOD_DAYS : option Z.

(** The fixed text of the 201 answer (it has characters above 255). *)
Variable submittedMessage : string.

Definition fallbackSettings : Settings :=
  {| maxFreeAdsPerMonth :=
       match FREE_POST_LIMIT with Some n => n | None => 5 end;
     numberOfDays :=
       match FREE_POST_PERIOD_DAYS with Some n => n | None => 30 end;
     isActive := true |}.

Definition created (propertyId : string) : Response :=
  mkResponse 201
    (JObj [("success", JBool true);
           ("data", JObj [("_id", JStr propertyId)]);
           ("message", JStr submittedMessage)]).

(** The two best-effort e-mails sent after the insert read collections
    [users] and [admin_settings] only and never reach the answer; they are
    left out.  A TypeError thrown while the document is built is answered
    by the handler's [catch], before any store call. *)
Definition createProperty (r : Request) : M Response :=
  match Auth.userId r with
  | None => ret (failure 401 "User not authenticated")
  | Some userId =>
    if negb (nonEmpty userId)
    then ret (failure 401 "User not authenticated")
    else if formThrows (Auth.body r)
    then ret (failure 500 "Failed to create property")
    else
      t <- now ;;
      let data := propertyData r userId t in
      found <- findSettings ;;
      let freeAdSettings :=
        match found with Some s => s | None => fallbackSettings end in
      let insert :=
        insertedId <- insertProperty data ;;
        ret (created (showZ insertedId)) in
      if isActive freeAdSettings && negb (exists_ (packageId data)) then
        let periodStart := t - numberOfDays freeAdSettings * (24 * 60 * 60 * 1000) in
        freePostsCount <- countDocuments (freePostFilter userId periodStart) ;;
        if maxFreeAdsPerMonth freeAdSettings <=? freePostsCount
        then ret (limitReached (maxFreeAdsPerMonth freeAdSettings)
                               (numberOfDays freeAdSettings)
                               freePostsCount)
        else insert
      else insert
  end.

End Create.

End Properties.

(* ===================================================================== *)
(** ** The specification's wording, as definitions                        *)
(* ===================================================================== *)

Module Spec.
Import JS Auth Mongo.

Fixpoint firstPresent {A : Type} (l : list (option A)) : option A :=
  match l with
  | [] => None
  | Some a :: _ => Some a
  | None :: tl => firstPresent tl
  end.

Definition present (s : string) : option string :=
  if nonEmpty s then Some s else None.

(** "Authorization header, case-insensitive Bearer prefix": the remainder
    after the seven characters of the prefix. *)
Definition bearerRemainder (r : Request) : option string :=
  let auth := header r "authorization" in
  if startsWith (toLowerCase auth) "bearer " then Some (slice 7 auth)
  else None.

Definition otherCandidates (r : Request) : list (option string) :=
  [ option_map trim (present (header r "x-auth-token"));
    option_map trim (present (header r "x-admin-token"));
    option_map trim (present (cookie r "token"));
    option_map trim (present (cookie r "authToken"));
    option_map trim (present (cookie r "adminToken")) ].

(** The extraction order with "token = remainder". *)
Definition credential (r : Request) : option string :=
  firstPresent (bearerRemainder r :: otherCandidates r).

(** The same order with the remainder trimmed. *)
Definition credentialTrimmed (r : Request) : option string :=
  firstPresent (option_map trim (bearerRemainder r) :: otherCandidates r).

(** A claim value is present when it is neither [undefined] nor [null]. *)
Definition presentVal (v : jsval) : option jsval :=
  if nullish v then None else Some v.

(** The six recognised identity paths, in order. *)
Inductive IdPath : Type :=
| P_userId | P_id | P__id | P_user_id | P_user__id | P_sub.

Definition idPaths : list IdPath :=
  [P_userId; P_id; P__id; P_user_id; P_user__id; P_sub].

Definition readPath (p : object) (k : IdPath) : jsval :=
  match k with
  | P_userId => prop p "userId"
  | P_id => prop p "id"
  | P__id => prop p "_id"
  | P_user_id => get (prop p "user") "id"
  | P_user__id => get (prop p "user") "_id"
  | P_sub => prop p "sub"
  end.

(** The payload that carries [v] under path [k] and nothing else. *)
Definition place (k : IdPath) (v : jsval) : object :=
  match k with
  | P_userId => [("userId", v)]
  | P_id => [("id", v)]
  | P__id => [("_id", v)]
  | P_user_id => [("user", JObj [("id", v)])]
  | P_user__id => [("user", JObj [("_id", v)])]
  | P_sub => [("sub", v)]
  end.

Definition firstIdClaim (p : object) : option jsval :=
  firstPresent (map (fun k => presentVal (readPath p k)) idPaths).

(** "first of p.userId, ..., p.sub, coerced to string". *)
Definition subjectId (p : object) : option string :=
  option_map String_ (firstIdClaim p).

(** The same, where a falsy first claim counts as no identity and the
    coercion may throw. *)
Definition subjectIdTruthy (p : object) : Outcome (option string) :=
  match firstIdClaim p with
  | Some v => if truthy v then mapOutcome Some (ToString v) else Returns None
  | None => Returns None
  end.

(** The resolver's answers when it refuses a token. *)
Definition noUserId : Response := failure 401 "Invalid token (no user id)".
Definition invalidToken : Response := failure 401 "Invalid or expired token".

(** "Not attached to a paid package and not marked paid": no package id
    and a falsy isPaid. *)
Definition isFree (p : Property) : bool :=
  eqNull (packageId p) && negb (eqBool true (isPaid p)).

(** The free usage of [subjectId] since [windowStart]. *)
Definition freeUsage (subjectId : string) (windowStart : Z) (w : World) : Z :=
  countOf (fun p => String.eqb (ownerId p) subjectId
                    && (windowStart <=? createdAt p)
                    && isFree p) w.

(** A looser reading of "first present": the first truthy claim. *)
Definition truthyVal (v : jsval) : option jsval :=
  if truthy v then Some v else None.

Definition subjectIdFirstTruthy (p : object) : option string :=
  option_map String_
    (firstPresent (map (fun k => truthyVal (readPath p k)) idPaths)).

End Spec.

(* ===================================================================== *)
(** ** Concrete requests and stores used by the examples                  *)
(* ===================================================================== *)

Module Fixtures.
Import JS Auth Mongo.

Definition bare : Request :=
  {| headers := []; cookies := None; body := [];
     userId := None; userType := None; role := None;
     email := JUndefined; isAdmin := None |}.

Definition withHeaders (h : list (string * string)) : Request :=
  {| headers := h; cookies := None; body := [];
     userId := None; userType := None; role := None;
     email := JUndefined; isAdmin := None |}.

(** A request that passed the resolver as user [u], with form body [b]. *)
Definition asUser (u : string) (b : object) : Request :=
  {| headers := []; cookies := None; body := b;
     userId := Some u; userType := Some "seller"; role := None;
     email := JUndefined; isAdmin := Some false |}.

Definition noEnv : string -> option string := fun _ => None.

(** A verifier that knows three tokens. *)
Definition verifier (token secret : string) : option object :=
  if negb (String.eqb secret "your-secret-key") then None
  else if String.eqb token "tok-admin" then
    Some [("userId", JStr "a1"); ("userType", JStr "Admin")]
  else if String.eqb token "tok-sales" then
    Some [("id", JStr "s1"); ("userType", JStr "staff");
          ("role", JStr "sales_manager")]
  else if String.eqb token "tok-anon" then
    Some [("userId", JStr ""); ("id", JStr "u1")]
  else None.

(** A verifier whose payloads carry claims that are not strings. *)
Definition oddVerifier (token secret : string) : option object :=
  if String.eqb token "tok-array" then
    Some [("userId", JArr [])]
  else if String.eqb token "tok-object" then
    Some [("userId", JObj [("toString", JNum 1)])]
  else if String.eqb token "tok-type" then
    Some [("userId", JStr "u1"); ("userType", JObj [("toString", JNum 1)])]
  else if String.eqb token "tok-ctor" then
    Some [("userId", JStr "s2"); ("userType", JStr "staff");
          ("role", JStr "constructor")]
  else None.

(** A JSON parser that knows three texts. *)
Definition parseJson (text : string) : option jsval :=
  if String.eqb text "null" then Some JNull
  else if String.eqb text "{}" then Some (JObj [])
  else if String.eqb text "[]" then Some (JArr [])
  else None.

Definition utcDaysBack (t n : Z) : Z := t - n * FreeAds.msPerDay.

Definition listing (owner : string) (at_ : Z) (paid : field bool)
  (pkg : field string) : Property :=
  {| title := JStr "Flat"; description := JUndefined; priceType := JUndefined;
     ownerId := owner; ownerType := "seller";
     status := "inactive"; approvalStatus := "pending";
     isApproved := false; featured := false; premium := false;
     contactVisible := false;
     isPaid := paid; paymentStatus := "unpaid";
     views := 0; inquiries := 0;
     createdAt := at_; updatedAt := at_;
     packageId := pkg |}.

(** Requests and payloads of the examples. *)
Definition bearerTwoSpaces : Request :=
  withHeaders [("authorization", "Bearer  abc")].

Definition emptyUserIdPayload : object :=
  [("userId", JStr ""); ("id", JStr "u1")].

Definition salesRequest : Request :=
  withHeaders [("x-auth-token", "tok-sales")].

Definition salesIdentity : Request :=
  {| headers := [("x-auth-token", "tok-sales")]; cookies := None; body := [];
     userId := Some "s1"; userType := Some "staff";
     role := Some "sales_manager";
     email := JUndefined; isAdmin := Some true |}.

Definition forgedRequest : Request :=
  withHeaders [("authorization", "Bearer forged")].

Definition anonRequest : Request :=
  withHeaders [("authorization", "Bearer tok-anon")].

Definition arrayIdRequest : Request :=
  withHeaders [("x-auth-token", "tok-array")].

Definition objectIdRequest : Request :=
  withHeaders [("x-auth-token", "tok-object")].

Definition objectTypeRequest : Request :=
  withHeaders [("x-auth-token", "tok-type")].

(** A staff member whose role is the name of an inherited member. *)
Definition constructorRequest : Request :=
  withHeaders [("x-auth-token", "tok-ctor")].

Definition constructorIdentity : Request :=
  {| headers := [("x-auth-token", "tok-ctor")]; cookies := None; body := [];
     userId := Some "s2"; userType := Some "staff";
     role := Some "constructor";
     email := JUndefined; isAdmin := Some true |}.

Definition submitted : string := "Property submitted.".

Definition world (s : option Settings) (ps : list Property) : World :=
  {| db := {| free_ad_settings := s; properties := ps; nextId := 100 |};
     clock := 5000000000;
     trace := [] |}.

(** Limit 2 over 30 days, and two free listings of user u1 in the window. *)
Definition limitTwo : Settings := mkSettings 2 30 true.

Definition disabled : Settings := mkSettings 2 30 false.

Definition twoFree : list Property :=
  [listing "u1" 4999999000 (Val false) Missing;
   listing "u1" 4999999500 Missing Missing].

Definition freeForm : Request := asUser "u1" [("title", JStr "Plot")].

Definition packagedForm : Request :=
  asUser "u1" [("title", JStr "Plot"); ("packageId", JStr " gold ")].

(** A form with a package id whose specifications field is the text of a
    JSON null. *)
Definition nullSpecificationsForm : Request :=
  asUser "u1" [("title", JStr "Plot"); ("packageId", JStr "gold");
               ("specifications", JStr "null")].

(** A form without a package id whose specifications field is the text
    of a JSON null. *)
Definition nullSpecificationsFreeForm : Request :=
  asUser "u1" [("title", JStr "Plot"); ("specifications", JStr "null")].

(** The same package id sent without an authenticated user. *)
Definition anonymousPackagedForm : Request :=
  {| headers := []; cookies := None;
     body := [("title", JStr "Plot"); ("packageId", JStr "gold")];
     userId := None; userType := None; role := None;
     email := JUndefined; isAdmin := None |}.

(** Two unpaid listings of user u1 in the window whose package field is
    present and null. *)
Definition twoNullPackage : list Property :=
  [listing "u1" 4999999000 (Val false) Null;
   listing "u1" 4999999500 (Val false) Null].

End Fixtures.

(* ===================================================================== *)
(** ** server/routes/properties.ts: helpers and read-only feeds           *)
(* ===================================================================== *)

Module Helpers.
Import JS.

(** [normSlug]: [String(v || "").trim().toLowerCase()], for a [v] that
    [String] converts; on the others it throws, which [createProperty]
    answers with its 500 ([Properties.formThrows]). *)
Definition normSlug (v : jsval) : string :=
  toLowerCase (trim (String_ (or_ v (JStr "")))).

(** [norm] of [getProperties]: [String(v ?? "").trim().toLowerCase()], for
    a [v] that [String] converts. *)
Definition norm (v : jsval) : string :=
  toLowerCase (trim (String_ (coalesce v (JStr "")))).

(** The object literal [TYPE_ALIASES] of [createProperty]. *)
Definition TYPE_ALIASES : list (string * string) :=
  [ ("co-living", "pg"); ("coliving", "pg"); ("pg", "pg");
    ("agricultural-land", "agricultural"); ("agri", "agricultural");
    ("agricultural", "agricultural");
    ("commercial", "commercial"); ("showroom", "commercial");
    ("office", "commercial");
    ("residential", "residential"); ("flat", "flat"); ("apartment", "flat");
    ("plot", "plot") ].

(** The object literal [TYPE_ALIASES] of [getProperties]. *)
Definition QUERY_TYPE_ALIASES : list (string * string) :=
  [ ("co-living", "pg"); ("coliving", "pg"); ("pg", "pg");
    ("agricultural-land", "agricultural"); ("agri", "agricultural");
    ("agricultural", "agricultural");
    ("commercial", "commercial"); ("showroom", "commercial");
    ("office", "commercial");
    ("residential", "residential"); ("flat", "flat"); ("apartment", "flat");
    ("plot", "plot") ].

(** What [table[k]] reads: an own entry, a member inherited from
    [Object.prototype] (truthy, not a string), or [undefined]. *)
Inductive Slot : Type :=
| Own (v : string)
| InheritedMember
| NoSlot.

Definition slot (table : list (string * string)) (k : string) : Slot :=
  match assoc k table with
  | Some v => Own v
  | None => if includes Auth.objectPrototypeKeys k then InheritedMember
            else NoSlot
  end.

(** The value the property type ends up with. *)
Inductive TypeValue : Type :=
| TypeName (s : string)
| TypeInherited.

(** [if (table[k]) k = table[k]] (every own entry is a non-empty string). *)
Definition resolveAlias (table : list (string * string)) (k : string)
  : TypeValue :=
  match slot table k with
  | Own v => TypeName v
  | InheritedMember => TypeInherited
  | NoSlot => TypeName k
  end.

(** [normalizedPropertyType] of [createProperty]. *)
Definition normalizedPropertyType (b : object) : TypeValue :=
  resolveAlias TYPE_ALIASES (normSlug (prop b "propertyType")).

(** The property type [getProperties] derives from the query (its step 1):
    taken from [category] when no type was sent and the category is an
    alias, then resolved through the alias table when it is non-empty. *)
Definition queryPropertyType (query : object) : TypeValue :=
  let category := norm (prop query "category") in
  let propertyType := norm (prop query "propertyType") in
  let derived :=
    if negb (nonEmpty propertyType) && nonEmpty category then
      match slot QUERY_TYPE_ALIASES category with
      | Own v => TypeName v
      | InheritedMember => TypeInherited
      | NoSlot => TypeName propertyType
      end
    else TypeName propertyType in
  match derived with
  | TypeInherited => TypeInherited
  | TypeName p =>
      if nonEmpty p then resolveAlias QUERY_TYPE_ALIASES p else TypeName p
  end.

End Helpers.

Module Feeds.
Import JS Mongo.
Import Auth(Request, Response, mkResponse, failure).

(** The answer of a listing feed: an error envelope, or status 200 with
    [{success: true, data: <the documents>}]. *)
Inductive Feed : Type :=
| FeedError (r : Response)
| FeedData (ps : list Property).

Definition isFeatured (p : Property) : bool :=
  String.eqb (status p) "active"
  && Bool.eqb (featured p) true
  && String.eqb (approvalStatus p) "approved".

Definition isPending (p : Property) : bool :=
  includes ["pending"; "pending_approval"] (approvalStatus p).

Definition ownedBy (u : string) (p : Property) : bool :=
  String.eqb (ownerId p) u.

Section Sorted.

(** [cursor.sort({ createdAt: -1 })]: the store orders the documents by
    decreasing creation time; the order among equal times is its own. *)
Variable sortByCreatedAtDesc : list Property -> list Property.

Definition getFeaturedProperties (d : Db) : Feed :=
  FeedData
    (firstn 10 (sortByCreatedAtDesc (List.filter isFeatured (properties d)))).

Definition getUserProperties (r : Request) (d : Db) : Feed :=
  match Auth.userId r with
  | None => FeedError (failure 401 "User not authenticated")
  | Some userId =>
      if negb (nonEmpty userId)
      then FeedError (failure 401 "User not authenticated")
      else FeedData
             (sortByCreatedAtDesc (List.filter (ownedBy userId) (properties d)))
  end.

Definition getPendingProperties (d : Db) : Feed :=
  FeedData (sortByCreatedAtDesc (List.filter isPending (properties d))).

End Sorted.

End Feeds.

(* ===================================================================== *)
(** ** server/routes/blog.ts: slugs and post creation                     *)
(* ===================================================================== *)

Module Blog.
Import JS.
Import Auth(Request, Response, mkResponse, failure).

(** [v.toString()] for a value that is neither [undefined] nor [null];
    [None] when the call throws a TypeError: an object of the parsed body
    that has a key "toString" carries a value that is not a function, and
    an array joins the strings of its elements. *)
Fixpoint toStringOpt (v : jsval) : option string :=
  match v with
  | JObj o =>
      match assoc "toString" o with
      | Some _ => None
      | None => Some "[object Object]"
      end
  | JArr l =>
      option_map (join ",")
        ((fix each (l : list jsval) : option (list string) :=
            match l with
            | [] => Some []
            | x :: tl =>
                match (if nullish x then Some "" else toStringOpt x),
                      each tl with
                | Some a, Some b => Some (a :: b)
                | _, _ => None
                end
            end) l)
  | _ => Some (String_ v)
  end.

Definition isLowerAlnum (c : ascii) : bool :=
  let n := N_of_ascii c in
  ((97 <=? n) && (n <=? 122) || (48 <=? n) && (n <=? 57))%N.

Definition isHyphen (c : ascii) : bool := (N_of_ascii c =? 45)%N.

(** The class [[a-z0-9\s-]]. *)
Definition isSlugInput (c : ascii) : bool :=
  isLowerAlnum c || isWhite c || isHyphen c.

(** [s.replace(/[^...]/g, "")]: the characters of the class are kept. *)
Fixpoint keepChars (keep : ascii -> bool) (s : string) : string :=
  match s with
  | EmptyString => EmptyString
  | String c s' =>
      if keep c then String c (keepChars keep s') else keepChars keep s'
  end.

(** [s.replace(/p+/g, "-")]: every maximal run of characters of class [p]
    becomes one hyphen. *)
Fixpoint replaceRuns (p : ascii -> bool) (s : string) : string :=
  match s with
  | EmptyString => EmptyString
  | String c s' =>
      if p c then
        match s' with
        | String c' _ =>
            if p c' then replaceRuns p s'
            else String "-" (replaceRuns p s')
        | EmptyString => String "-" EmptyString
        end
      else String c (replaceRuns p s')
  end.

(** The chain of [makeSlug] after [toString()]. *)
Definition slugOf (s : string) : string :=
  replaceRuns isHyphen
    (replaceRuns isWhite (keepChars isSlugInput (trim (toLowerCase s)))).

(** [makeSlug(s)]; [None] when [toString()] throws. *)
Definition makeSlug (v : jsval) : option string :=
  option_map slugOf (toStringOpt (or_ v (JStr ""))).

(** [email.split("@")[0]]. *)
Fixpoint beforeAt (s : string) : string :=
  match s with
  | EmptyString => EmptyString
  | String c s' =>
      if (N_of_ascii c =? 64)%N then EmptyString else String c (beforeAt s')
  end.

(** A document of collection [blog_posts]. *)
Record BlogPost : Type := mkBlogPost {
  title : jsval;
  slug : string;
  content : jsval;
  excerpt : jsval;
  featuredImage : jsval;
  authorId : option string;
  authorName : string;
  authorEmail : string;
  category : jsval;
  tags : jsval;
  status : jsval;
  featured : jsval;
  seo : option (jsval * jsval);      (* title, description *)
  publishedAt : option Z;
  views : Z;
  createdAt : Z;
  updatedAt : Z
}.

Record BlogDb : Type := mkBlogDb {
  blog_posts : list BlogPost;
  nextPostId : Z
}.

(** [findOne({ slug })] finds a document. *)
Definition slugTaken (d : BlogDb) (s : string) : bool :=
  existsb (fun p => String.eqb (slug p) s) (blog_posts d).

(** The loop [while (await findOne({slug: finalSlug}))
    finalSlug = `${base}-${counter++}`], run for at most [fuel] tests;
    [None] when the fuel is used up. *)
Fixpoint freeSlug (fuel : nat) (d : BlogDb) (base finalSlug : string)
  (counter : Z) : option string :=
  match fuel with
  | O => None
  | S fuel' =>
      if slugTaken d finalSlug
      then freeSlug fuel' d base (base ++ "-" ++ showZ counter) (counter + 1)
      else Some finalSlug
  end.

Definition insertPost (p : BlogPost) (d : BlogDb) : Z * BlogDb :=
  (nextPostId d, mkBlogDb (blog_posts d ++ [p]) (nextPostId d + 1)).

Definition inserted (id : Z) : Response :=
  mkResponse 200
    (JObj [("success", JBool true);
           ("data", JObj [("_id", JStr (showZ id))])]).

(** A destructuring default: [x = dflt] replaces [undefined] only. *)
Definition orDefault (v dflt : jsval) : jsval :=
  match v with JUndefined => dflt | _ => v end.

(** The slug asked for: [raw && raw.trim() ? makeSlug(raw) : makeSlug(title)];
    [None] when a call throws ([raw] truthy and not a string, or
    [toString()] throwing). *)
Definition requestedSlug (raw title : jsval) : option string :=
  if truthy raw then
    match raw with
    | JStr s => if nonEmpty (trim s) then makeSlug raw else makeSlug title
    | _ => None
    end
  else makeSlug title.

(** [email ? email.split("@")[0] : anonymous]; [None] when [email] is
    truthy and not a string. *)
Definition authorNameOf (email : jsval) (anonymous : string) : option string :=
  if truthy email then
    match email with
    | JStr s => Some (beforeAt s)
    | _ => None
    end
  else Some anonymous.

(** [email || ""], for an [email] that is falsy or a string. *)
Definition authorEmailOf (email : jsval) : string :=
  match email with JStr s => s | _ => "" end.

(** [createBlogPost] (admin).  The result is [None] only when [fuel] runs
    out inside the slug loop; an exception caught by the handler is the
    500 answer. *)
Definition createBlogPost (fuel : nat) (r : Request) (now : Z) (d : BlogDb)
  : option (Response * BlogDb) :=
  let b := Auth.body r in
  let title := prop b "title" in
  let rawSlug := prop b "slug" in
  let content := prop b "content" in
  let tags := orDefault (prop b "tags") (JArr []) in
  let status := orDefault (prop b "status") (JStr "draft") in
  let featured := orDefault (prop b "featured") (JBool false) in
  let failed := failure 500 "Failed to create blog post" in
  if negb (truthy title) || negb (truthy content) then
    Some (failure 400 "Title and content are required", d)
  else
    match requestedSlug rawSlug title with
    | None => Some (failed, d)
    | Some made =>
        let baseSlug :=
          if nonEmpty made then made else "post-" ++ showZ now in
        match freeSlug fuel d baseSlug baseSlug 1 with
        | None => None
        | Some finalSlug =>
            let authorId :=
              Auth.orStr (Auth.orEmpty (Auth.userId r)) "admin" in
            match authorNameOf (Auth.email r) "Admin" with
            | None => Some (failed, d)
            | Some authorName =>
                let post :=
                  {| title := title;
                     slug := finalSlug;
                     content := content;
                     excerpt := prop b "excerpt";
                     featuredImage := prop b "featuredImage";
                     authorId := Some authorId;
                     authorName := authorName;
                     authorEmail := authorEmailOf (Auth.email r);
                     category := prop b "category";
                     tags := tags;
                     status := status;
                     featured := featured;
                     seo := None;
                     publishedAt :=
                       match status with
                       | JStr s => if String.eqb s "published"
                                   then Some now else None
                       | _ => None
                       end;
                     views := 0;
                     createdAt := now;
                     updatedAt := now |} in
                let (id, d') := insertPost post d in
                Some (inserted id, d')
            end
        end
    end.

(** [createSellerBlogPost]. *)
Definition createSellerBlogPost (fuel : nat) (r : Request) (now : Z)
  (d : BlogDb) : option (Response * BlogDb) :=
  let b := Auth.body r in
  let title := prop b "title" in
  let incomingSlug := prop b "slug" in
  let excerpt := prop b "excerpt" in
  let tags := orDefault (prop b "tags") (JArr []) in
  let submit := orDefault (prop b "submit") (JBool false) in
  let seo := orDefault (prop b "seo") (JObj []) in
  let failed := failure 500 "Failed to create post" in
  match requestedSlug incomingSlug title with
  | None => Some (failed, d)
  | Some slug =>
      let first := if nonEmpty slug then slug else "post-" ++ showZ now in
      match freeSlug fuel d slug first 1 with
      | None => None
      | Some finalSlug =>
          match authorNameOf (Auth.email r) "Seller", seo with
          | None, _ => Some (failed, d)
          | Some _, JNull => Some (failed, d)
          | Some authorName, _ =>
              let post :=
                {| title := title;
                   slug := finalSlug;
                   content := prop b "content";
                   excerpt := excerpt;
                   featuredImage := prop b "featuredImage";
                   authorId := Auth.userId r;
                   authorName := authorName;
                   authorEmail := authorEmailOf (Auth.email r);
                   category := prop b "category";
                   tags := tags;
                   status := if truthy submit then JStr "pending_review"
                             else JStr "draft";
                   featured := JBool false;
                   seo := Some (or_ (get seo "title") title,
                                or_ (get seo "description") excerpt);
                   publishedAt := None;
                   views := 0;
                   createdAt := now;
                   updatedAt := now |} in
              let (id, d') := insertPost post d in
              Some (inserted id, d')
          end
      end
  end.

End Blog.

(* ===================================================================== *)
(** ** Predicates on strings and further example data                     *)
(* ===================================================================== *)

Module Text.
Import JS.

(** Every character of [s] is in class [p]. *)
Fixpoint allChars (p : ascii -> bool) (s : string) : bool :=
  match s with
  | EmptyString => true
  | String c s' => p c && allChars p s'
  end.

(** No two neighbouring characters of [s] are both in class [p]. *)
Fixpoint noRun (p : ascii -> bool) (s : string) : bool :=
  match s with
  | EmptyString => true
  | String c s' =>
      match s' with
      | String c' _ => negb (p c && p c') && noRun p s'
      | EmptyString => true
      end
  end.

(** The characters a slug is made of: [a-z0-9-]. *)
Definition isSlugChar (c : ascii) : bool :=
  Blog.isLowerAlnum c || Blog.isHyphen c.

End Text.

Module MoreFixtures.
Import JS Auth Mongo.

(** Insertion sort by decreasing [createdAt], one order the store may
    return. *)
Fixpoint insertDesc (p : Property) (l : list Property) : list Property :=
  match l with
  | [] => [p]
  | q :: tl => if createdAt q <=? createdAt p then p :: l
               else q :: insertDesc p tl
  end.

Fixpoint sortDesc (l : list Property) : list Property :=
  match l with
  | [] => []
  | p :: tl => insertDesc p (sortDesc tl)
  end.

(** An Authorization header "Bearer " followed by a no-break space, sent
    together with a valid x-auth-token. *)
Definition blankBearer : Request :=
  Fixtures.withHeaders
    [("authorization", "Bearer " ++ String (ascii_of_N 160) "");
     ("x-auth-token", "tok-admin")].

Definition adminRequest : Request :=
  Fixtures.withHeaders [("x-auth-token", "tok-admin")].

Definition adminIdentity : Request :=
  {| headers := [("x-auth-token", "tok-admin")]; cookies := None; body := [];
     userId := Some "a1"; userType := Some "admin"; role := None;
     email := JUndefined; isAdmin := Some true |}.

(** A verifier that knows a super_admin staff token and a token whose
    payload carries only the isAdmin flag. *)
Definition staffVerifier (token secret : string) : option object :=
  if String.eqb token "tok-super" then
    Some [("userId", JStr "s9"); ("userType", JStr "STAFF");
          ("role", JStr "Super_Admin")]
  else if String.eqb token "tok-flag" then
    Some [("userId", JStr "f1"); ("userType", JStr "seller");
          ("isAdmin", JBool true)]
  else None.

Definition superRequest : Request :=
  Fixtures.withHeaders [("x-auth-token", "tok-super")].

Definition superIdentity : Request :=
  {| headers := [("x-auth-token", "tok-super")]; cookies := None; body := [];
     userId := Some "s9"; userType := Some "staff";
     role := Some "super_admin";
     email := JUndefined; isAdmin := Some true |}.

Definition flagRequest : Request :=
  Fixtures.withHeaders [("x-auth-token", "tok-flag")].

Definition flagIdentity : Request :=
  {| headers := [("x-auth-token", "tok-flag")]; cookies := None; body := [];
     userId := Some "f1"; userType := Some "seller"; role := None;
     email := JUndefined; isAdmin := Some true |}.

Definition envWithSecret : string -> option string :=
  fun k => if String.eqb k "JWT_SECRET" then Some "s3cret" else None.

Definition oneBlogPost : Blog.BlogDb :=
  {| Blog.blog_posts :=
       [ {| Blog.title := JStr "Hello World"; Blog.slug := "hello-world";
            Blog.content := JStr "text"; Blog.excerpt := JUndefined;
            Blog.featuredImage := JUndefined;
            Blog.authorId := Some "admin"; Blog.authorName := "Admin";
            Blog.authorEmail := "";
            Blog.category := JUndefined; Blog.tags := JArr [];
            Blog.status := JStr "draft"; Blog.featured := JBool false;
            Blog.seo := None; Blog.publishedAt := None; Blog.views := 0;
            Blog.createdAt := 1; Blog.updatedAt := 1 |} ];
     Blog.nextPostId := 7 |}.

Definition helloForm : Request :=
  Fixtures.asUser "u1"
    [("title", JStr "Hello,  World!"); ("content", JStr "text");
     ("submit", JBool true)].

Definition oneFree : list Property :=
  [Fixtures.listing "u1" 4999999000 (Val false) Missing].

Definition activeListing : Property :=
  {| title := JStr "Villa"; description := JUndefined;
     priceType := JUndefined;
     ownerId := "u2"; ownerType := "seller";
     status := "active"; approvalStatus := "approved";
     isApproved := true; featured := true; premium := false;
     contactVisible := false;
     isPaid := Val true; paymentStatus := "paid";
     views := 3; inquiries := 0;
     createdAt := 4000000000; updatedAt := 4000000000;
     packageId := Val "gold" |}.

End MoreFixtures.

(* ===================================================================== *)
(** ** Properties of the claims resolver and the access gate              *)
(* ===================================================================== *)

Module AuthFacts.
Import JS Auth.

Lemma lowerChar_idem (c : ascii) : lowerChar (lowerChar c) = lowerChar c.
Proof. destruct c as [[] [] [] [] [] [] [] []]; reflexivity. Qed.

Lemma toLowerCase_idem (s : string) :
  toLowerCase (toLowerCase s) = toLowerCase s.
Proof.
  induction s as [|c s IH]; simpl; [reflexivity|].
  now rewrite lowerChar_idem, IH.
Qed.

Lemma eqb_neq_false (a b : string) : a <> b -> String.eqb a b = false.
Proof. intro H. now apply String.eqb_neq. Qed.

Lemma pickToken_credentialTrimmed (r : Request) :
  pickToken r = Spec.credentialTrimmed r.
Proof.
  unfold pickToken, Spec.credentialTrimmed, Spec.bearerRemainder,
    Spec.otherCandidates, Spec.present, orStr.
  destruct (startsWith (toLowerCase (header r "authorization")) "bearer ");
    simpl; [reflexivity|].
  destruct (nonEmpty (header r "x-auth-token")); simpl; [reflexivity|].
  destruct (nonEmpty (header r "x-admin-token")); simpl; [reflexivity|].
  destruct (nonEmpty (cookie r "token")) eqn:E1; simpl.
  { now rewrite E1. }
  destruct (nonEmpty (cookie r "authToken")) eqn:E2; simpl.
  { now rewrite E2. }
  destruct (nonEmpty (cookie r "adminToken")); reflexivity.
Qed.

Lemma idFromPayload_subjectIdTruthy (p : object) :
  idFromPayload p = Spec.subjectIdTruthy p.
Proof.
  unfold idFromPayload, Spec.subjectIdTruthy, Spec.firstIdClaim,
    Spec.presentVal, coalesce; simpl.
  destruct (nullish (prop p "userId")); simpl; [|reflexivity].
  destruct (nullish (prop p "id")); simpl; [|reflexivity].
  destruct (nullish (prop p "_id")); simpl; [|reflexivity].
  destruct (nullish (get (prop p "user") "id")); simpl; [|reflexivity].
  destruct (nullish (get (prop p "user") "_id")); simpl; [|reflexivity].
  destruct (nullish (prop p "sub")); reflexivity.
Qed.

Lemma idFromPayload_place (k : Spec.IdPath) (v : jsval) :
  idFromPayload (Spec.place k v)
  = if truthy v then mapOutcome Some (ToString v) else Returns None.
Proof. destruct k, v; reflexivity. Qed.

(** A claim converted by [String(..).toLowerCase()] is lower-case. *)
Lemma lowered_claim (v : jsval) (t : option string) :
  (if truthy v then mapOutcome (fun s => Some (toLowerCase s)) (ToString v)
   else Returns None) = Returns t ->
  toLowerCase (orEmpty t) = orEmpty t.
Proof.
  unfold ToString. destruct (truthy v); [destruct (unconvertible v)|]; simpl;
    intro H; try discriminate H; injection H as <-; simpl;
    [apply toLowerCase_idem | reflexivity].
Qed.

Lemma userType_lower (p : object) (t : option string) :
  getUserTypeFromPayload p = Returns t ->
  toLowerCase (orEmpty t) = orEmpty t.
Proof. apply lowered_claim. Qed.

Lemma role_lower (p : object) (t : option string) :
  getRoleFromPayload p = Returns t ->
  toLowerCase (orEmpty t) = orEmpty t.
Proof. apply lowered_claim. Qed.

(** Once the account type was read, reading the admin flag cannot throw. *)
Lemma getIsAdminBool_returns (p : object) (t : option string) :
  getUserTypeFromPayload p = Returns t ->
  getIsAdminBool p
  = Returns (truthy (prop p "isAdmin")
             || strictEqBool (prop p "admin") true
             || strictEqBool (get (prop p "user") "isAdmin") true
             || includes ["admin"; "staff"] (toLowerCase (orEmpty t))).
Proof.
  intro H. unfold getIsAdminBool. rewrite H.
  destruct (truthy (prop p "isAdmin")
            || strictEqBool (prop p "admin") true
            || strictEqBool (get (prop p "user") "isAdmin") true);
    reflexivity.
Qed.

Section Resolver.

Variable env : string -> option string.
Variable jwt_verify : string -> string -> option object.

Local Abbreviation verifyAndAttach := (verifyAndAttach env jwt_verify).
Local Abbreviation authenticateToken := (authenticateToken env jwt_verify).
Local Abbreviation requirePermission := (requirePermission env jwt_verify).

(** What a successful run attached comes from one decoded payload. *)
Lemma verifyAndAttach_success (r r' : Request) :
  verifyAndAttach r = (r', None) ->
  exists token decoded uid t ro b,
    pickToken r = Some token /\
    nonEmpty token = true /\
    jwt_verify token (JWT_SECRET env) = Some decoded /\
    idFromPayload decoded = Returns (Some uid) /\
    nonEmpty uid = true /\
    getUserTypeFromPayload decoded = Returns t /\
    getRoleFromPayload decoded = Returns ro /\
    getIsAdminBool decoded = Returns b /\
    r' = attached r decoded uid t ro b.
Proof.
  unfold Auth.verifyAndAttach.
  destruct (pickToken r) as [token|] eqn:Et; [|discriminate].
  destruct (nonEmpty token) eqn:En; [|discriminate]. cbn [negb].
  destruct (jwt_verify token (JWT_SECRET env)) as [decoded|] eqn:Ev;
    [|discriminate].
  destruct (idFromPayload decoded) as [|[uid|]] eqn:Ei; try discriminate.
  destruct (nonEmpty uid) eqn:Eu; [|discriminate]. cbn [negb].
  destruct (getUserTypeFromPayload decoded) as [|t] eqn:Ety; [discriminate|].
  destruct (getRoleFromPayload decoded) as [|ro] eqn:Er; [discriminate|].
  destruct (getIsAdminBool decoded) as [|b] eqn:Eb; [discriminate|].
  intro H. injection H as <-.
  exists token, decoded, uid, t, ro, b. auto 10.
Qed.

Lemma verifyAndAttach_ok (r r' : Request) :
  verifyAndAttach r = (r', None) ->
  exists token decoded uid,
    pickToken r = Some token /\
    jwt_verify token (JWT_SECRET env) = Some decoded /\
    idFromPayload decoded = Returns (Some uid) /\
    userId r' = Some uid /\
    getUserTypeFromPayload decoded = Returns (userType r') /\
    getRoleFromPayload decoded = Returns (role r').
Proof.
  intro H.
  destruct (verifyAndAttach_success _ _ H)
    as (token & decoded & uid & t & ro & b
        & Ht & _ & Hv & Hi & _ & Hty & Hr & _ & ->).
  exists token, decoded, uid. simpl. auto 10.
Qed.

Lemma attached_userType_lower (r r' : Request) :
  verifyAndAttach r = (r', None) ->
  toLowerCase (orEmpty (userType r')) = orEmpty (userType r').
Proof.
  intro H. destruct (verifyAndAttach_ok _ _ H)
    as (? & d & ? & _ & _ & _ & _ & E & _).
  exact (userType_lower d _ E).
Qed.

Lemma attached_role_lower (r r' : Request) :
  verifyAndAttach r = (r', None) ->
  toLowerCase (orEmpty (role r')) = orEmpty (role r').
Proof.
  intro H. destruct (verifyAndAttach_ok _ _ H)
    as (? & d & ? & _ & _ & _ & _ & _ & E).
  exact (role_lower d _ E).
Qed.

Lemma verifyAndAttach_missing (r : Request) :
  pickToken r = None ->
  verifyAndAttach r = (r, Some (failure 401 "Access token required")).
Proof. unfold Auth.verifyAndAttach. now intros ->. Qed.

(** One run of the resolver on a verified payload, by cases on the
    identity claim. *)
Lemma verifyAndAttach_decoded (r : Request) (token : string) (p : object) :
  pickToken r = Some token ->
  nonEmpty token = true ->
  jwt_verify token (JWT_SECRET env) = Some p ->
  match idFromPayload p with
  | Returns (Some uid) =>
      if nonEmpty uid then
        exists r',
          userId r' = Some uid /\
          verifyAndAttach r
            = (r', if throws (getUserTypeFromPayload p)
                      || throws (getRoleFromPayload p)
                   then Some Spec.invalidToken else None)
      else verifyAndAttach r = (r, Some Spec.noUserId)
  | Returns None => verifyAndAttach r = (r, Some Spec.noUserId)
  | Throws => verifyAndAttach r = (r, Some Spec.invalidToken)
  end.
Proof.
  intros Ht Hn Hv. unfold Auth.verifyAndAttach. rewrite Ht, Hn, Hv.
  cbn [negb].
  destruct (idFromPayload p) as [|[uid|]]; try reflexivity.
  destruct (nonEmpty uid); [|reflexivity]. cbn [negb].
  destruct (getUserTypeFromPayload p) as [|t] eqn:Ety.
  { eexists. split; [|reflexivity]. reflexivity. }
  rewrite (getIsAdminBool_returns p t Ety).
  destruct (getRoleFromPayload p) as [|ro].
  { eexists. split; [|reflexivity]. reflexivity. }
  eexists. split; [|reflexivity]. reflexivity.
Qed.

(** C6, amended.  The credential is the first present of: the remainder of
    an Authorization header with a case-insensitive "Bearer " prefix, the
    x-auth-token header, the x-admin-token header, and the cookies token,
    authToken and adminToken in that order, each trimmed (the Bearer
    remainder too); when none is present the resolver answers 401 with
    [{success:false, error:"Access token required"}], leaves the request
    as it was and does not call the next handler. *)
Theorem C6_credential_order (r : Request) :
  pickToken r = Spec.credentialTrimmed r /\
  (Spec.credentialTrimmed r = None ->
   authenticateToken r = (r, Sent (failure 401 "Access token required"))).
Proof.
  split; [apply pickToken_credentialTrimmed|].
  rewrite <- pickToken_credentialTrimmed. intro H.
  unfold Auth.authenticateToken. now rewrite (verifyAndAttach_missing _ H).
Qed.

(** C7, amended.  For a verified payload the identity claim is the first
    present of p.userId, p.id, p._id, p.user.id, p.user._id, p.sub, and
    the subject id is that value coerced to string, provided the value is
    truthy and its string is not empty; a value placed under any single
    one of the six paths resolves the same whichever the path.  When no
    path is present, or the first present value is falsy, or its string is
    empty (an empty array), the resolver answers 401 with
    [{success:false, error:"Invalid token (no user id)"}] and leaves the
    request as it was.  When coercing the value throws (an object with its
    own toString key), the answer is 401 "Invalid or expired token" with
    the request as it was.  Otherwise the subject id is attached, and the
    run succeeds unless coercing the account type or the role throws, in
    which case the answer is again 401 "Invalid or expired token". *)
Theorem C7_subject_id :
  (forall p, idFromPayload p = Spec.subjectIdTruthy p) /\
  (forall k k' v,
     idFromPayload (Spec.place k v) = idFromPayload (Spec.place k' v)) /\
  (forall r token p,
     pickToken r = Some token ->
     nonEmpty token = true ->
     jwt_verify token (JWT_SECRET env) = Some p ->
     match Spec.subjectIdTruthy p with
     | Returns (Some uid) =>
         if nonEmpty uid then
           exists r',
             userId r' = Some uid /\
             verifyAndAttach r
               = (r', if throws (getUserTypeFromPayload p)
                         || throws (getRoleFromPayload p)
                      then Some Spec.invalidToken else None)
         else verifyAndAttach r = (r, Some Spec.noUserId)
     | Returns None => verifyAndAttach r = (r, Some Spec.noUserId)
     | Throws => verifyAndAttach r = (r, Some Spec.invalidToken)
     end).
Proof.
  split; [exact idFromPayload_subjectIdTruthy|].
  split; [intros; now rewrite !idFromPayload_place|].
  intros r token p Ht Hn Hv. rewrite <- idFromPayload_subjectIdTruthy.
  now apply (verifyAndAttach_decoded r token p).
Qed.

Lemma requirePermission_ok (name : string) (r r' : Request) :
  verifyAndAttach r = (r', None) ->
  requirePermission name r =
    let deny := (r', Sent (failure 403 ("Permission required: " ++ name))) in
    if String.eqb (orEmpty (userType r')) "admin" then (r', CalledNext)
    else if String.eqb (orEmpty (userType r')) "staff" then
      match lookupPerms (orEmpty (role r')) with
      | Inherited => (r', ThrewTypeError)
      | PermList perms =>
          if includes perms "*" || includes perms name
          then (r', CalledNext) else deny
      end
    else deny.
Proof.
  intro H. unfold Auth.requirePermission. rewrite H.
  now rewrite (attached_userType_lower _ _ H), (attached_role_lower _ _ H).
Qed.

Lemma requirePermission_staff (name : string) (r r' : Request) :
  verifyAndAttach r = (r', None) ->
  userType r' = Some "staff" ->
  requirePermission name r =
    match lookupPerms (orEmpty (role r')) with
    | Inherited => (r', ThrewTypeError)
    | PermList perms =>
        if includes perms "*" || includes perms name
        then (r', CalledNext)
        else (r', Sent (failure 403 ("Permission required: " ++ name)))
    end.
Proof.
  intros H Hu. rewrite (requirePermission_ok _ _ _ H), Hu. reflexivity.
Qed.

(** The permission gate for a verified identity: account type "admin" is
    allowed every permission name; staff with role "sales_manager" is
    allowed "sellers.manage" and refused "content.manage" with 403 and
    "Permission required: content.manage"; a staff role that is not in the
    table is never allowed any permission, and is answered the 403 unless
    the role names a member every object inherits; an account type that is
    neither admin nor staff is refused every permission with the 403. *)
Lemma permission_gate_cases (r r' : Request) :
  verifyAndAttach r = (r', None) ->
  (userType r' = Some "admin" ->
   forall name, requirePermission name r = (r', CalledNext)) /\
  (userType r' = Some "staff" -> role r' = Some "sales_manager" ->
   requirePermission "sellers.manage" r = (r', CalledNext) /\
   requirePermission "content.manage" r =
     (r', Sent (failure 403 "Permission required: content.manage"))) /\
  (userType r' = Some "staff" ->
   assoc (orEmpty (role r')) rolePermissions = None ->
   forall name,
     allows (snd (requirePermission name r)) = false /\
     (includes objectPrototypeKeys (orEmpty (role r')) = false ->
      requirePermission name r =
        (r', Sent (failure 403 ("Permission required: " ++ name)))) /\
     (includes objectPrototypeKeys (orEmpty (role r')) = true ->
      requirePermission name r = (r', ThrewTypeError))) /\
  (userType r' <> Some "admin" -> userType r' <> Some "staff" ->
   forall name,
     requirePermission name r =
       (r', Sent (failure 403 ("Permission required: " ++ name)))).
Proof.
  intro H. split; [|split; [|split]].
  - intros Hu name. rewrite (requirePermission_ok name _ _ H), Hu.
    reflexivity.
  - intros Hu Hr. rewrite !(requirePermission_ok _ _ _ H), Hu, Hr.
    split; reflexivity.
  - intros Hu Hr name. rewrite (requirePermission_staff _ _ _ H Hu).
    unfold lookupPerms. rewrite Hr.
    destruct (includes objectPrototypeKeys (orEmpty (role r')));
      (split; [reflexivity | split; intro Hk; try discriminate Hk;
                             reflexivity]).
  - intros Ha Hs name. rewrite (requirePermission_ok _ _ _ H). simpl.
    assert (orEmpty (userType r') <> "admin" /\
            orEmpty (userType r') <> "staff") as [Na Ns].
    { destruct (userType r') as [t|]; simpl; split; congruence. }
    now rewrite (eqb_neq_false _ _ Na), (eqb_neq_false _ _ Ns).
Qed.

(** C9.  When the verifier rejects the extracted token (bad signature,
    malformed, expired), the resolver answers 401 with
    [{success:false, error:"Invalid or expired token"}], the request is
    left as it was (no identity field is attached) and the next handler is
    not called. *)
Theorem C9_rejected_token (r : Request) (token : string) :
  pickToken r = Some token ->
  nonEmpty token = true ->
  jwt_verify token (JWT_SECRET env) = None ->
  verifyAndAttach r = (r, Some (failure 401 "Invalid or expired token")) /\
  authenticateToken r = (r, Sent (failure 401 "Invalid or expired token")) /\
  allows (snd (authenticateToken r)) = false.
Proof.
  intros Ht Hn Hv.
  assert (verifyAndAttach r =
          (r, Some (failure 401 "Invalid or expired token"))) as E.
  { unfold Auth.verifyAndAttach. now rewrite Ht, Hn, Hv. }
  unfold Auth.authenticateToken. rewrite E. auto.
Qed.

End Resolver.

(** C8.  A staff identity whose role is "constructor": the role is not in
    the permission table, so the gate should refuse "ads.view" with
    403 "Permission required: ads.view"; instead [rolePermissions[role]]
    reads the member every object inherits, the [|| []] fallback is not
    taken, and the guard throws without answering.  The same happens
    for the role "__proto__". *)
Theorem C8_inherited_role_throws :
  verifyAndAttach Fixtures.noEnv Fixtures.oddVerifier
    Fixtures.constructorRequest = (Fixtures.constructorIdentity, None) /\
  assoc "constructor" rolePermissions = None /\
  requirePermission Fixtures.noEnv Fixtures.oddVerifier "ads.view"
    Fixtures.constructorRequest
    = (Fixtures.constructorIdentity, ThrewTypeError) /\
  requirePermission Fixtures.noEnv Fixtures.oddVerifier "ads.view"
    Fixtures.constructorRequest
    <> (Fixtures.constructorIdentity,
        Sent (failure 403 "Permission required: ads.view")) /\
  lookupPerms "__proto__" = Inherited /\
  lookupPerms "no_such_role" = PermList [].
Proof. repeat split; vm_compute; try reflexivity; discriminate. Qed.

End AuthFacts.

(* ===================================================================== *)
(** ** Properties of the free-listing quota gate                          *)
(* ===================================================================== *)

Module QuotaFacts.
Import JS Mongo.
Import Auth(Request, Response, mkResponse, failure).

Lemma nonEmpty_false (s : string) : nonEmpty s = false -> s = "".
Proof. destruct s; simpl; congruence. Qed.

Lemma issued_app (w w' : World) (ops : list Op) :
  trace w' = (trace w ++ ops)%list -> issued w w' = ops.
Proof.
  unfold issued. intros ->.
  rewrite skipn_app, skipn_all, Nat.sub_diag. reflexivity.
Qed.

Lemma issued_mk (w : World) (d : Db) (c : Z) (ops : list Op) :
  issued w (mkWorld d c (trace w ++ ops)) = ops.
Proof. now apply issued_app. Qed.

Lemma issued_same (w : World) : issued w w = [].
Proof. apply issued_app. now rewrite app_nil_r. Qed.

(** The count query of the check-limit endpoint keeps a listing only when
    it has no package field and is not marked paid. *)
Lemma checkLimit_filter_excludes_paid (uid : string) (start : Z) (p : Property) :
  FreeAds.freePostFilter uid start p = true ->
  packageId p = Missing /\ isPaid p <> Val true.
Proof.
  unfold FreeAds.freePostFilter. intro H.
  apply andb_prop in H as [H Hk]. apply andb_prop in H as [_ Hp].
  split.
  - destruct (packageId p); simpl in Hk; congruence.
  - intro E. rewrite E in Hp. discriminate.
Qed.

Lemma countOf_mono (f g : Property -> bool) (w : World) :
  (forall p, f p = true -> g p = true) -> countOf f w <= countOf g w.
Proof.
  intro Hfg. unfold countOf. apply Nat2Z.inj_le.
  induction (properties (db w)) as [|p ps IH]; simpl; [lia|].
  destruct (f p) eqn:Ef.
  - rewrite (Hfg p Ef). simpl. lia.
  - destruct (g p); simpl; lia.
Qed.

(** Every free listing is counted by the creation gate. *)
Lemma freeUsage_le_usedAtCreate (uid : string) (s : Settings) (w : World) :
  Spec.freeUsage uid (clock w - numberOfDays s * (24 * 60 * 60 * 1000)) w
  <= Properties.usedAtCreate uid s w.
Proof.
  apply countOf_mono. intros p H.
  unfold Properties.freePostFilter, Spec.isFree in *.
  apply andb_prop in H as [H Hf]. rewrite H. simpl.
  apply andb_prop in Hf as [Hk _]. rewrite Hk. now rewrite orb_true_r.
Qed.

(** Two filters that agree on the stored listings count the same. *)
Lemma countOf_ext (f g : Property -> bool) (w : World) :
  (forall p, In p (properties (db w)) -> f p = g p) ->
  countOf f w = countOf g w.
Proof.
  intro H. unfold countOf. f_equal. f_equal.
  induction (properties (db w)) as [|p ps IH]; simpl; [reflexivity|].
  rewrite (H p) by (now left).
  rewrite IH by (intros q Hq; apply H; now right). reflexivity.
Qed.

Section Gate.

Variable setDateBack : Z -> Z -> Z.
Variable JSON_parse : string -> option jsval.
Variable FREE_POST_LIMIT : option Z.
Variable FREE_POST_PERIOD_DAYS : option Z.
Variable submittedMessage : string.

Local Abbreviation checkUserFreeAdLimit :=
  (FreeAds.checkUserFreeAdLimit setDateBack).
Local Abbreviation createProperty :=
  (Properties.createProperty JSON_parse FREE_POST_LIMIT FREE_POST_PERIOD_DAYS
     submittedMessage).
Local Abbreviation formThrows := (Properties.formThrows JSON_parse).
Local Abbreviation fallbackSettings :=
  (Properties.fallbackSettings FREE_POST_LIMIT FREE_POST_PERIOD_DAYS).
Local Abbreviation created := (Properties.created submittedMessage).

Local Abbreviation usedAtCheck := (FreeAds.usedAtCheck setDateBack).
Local Abbreviation usedAtCreate := Properties.usedAtCreate.

(** Where no stored listing has a null package field, the count of the
    check-limit endpoint is the free usage of the subject. *)
Lemma usedAtCheck_freeUsage (r : Request) (s : Settings) (w : World) :
  noNullPackage w = true ->
  usedAtCheck r s w
  = Spec.freeUsage (FreeAds.userIdString r)
      (setDateBack (clock w) (numberOfDays s)) w.
Proof.
  intro H. apply countOf_ext. intros p Hp.
  unfold FreeAds.freePostFilter, Spec.isFree.
  unfold noNullPackage in H. rewrite forallb_forall in H.
  specialize (H p Hp). destruct (packageId p); try discriminate H; simpl.
  - now rewrite andb_true_r.
  - now rewrite !andb_false_r.
Qed.

(** One run of the check-limit endpoint, by cases on the settings. *)
Lemma checkLimit_run (r : Request) (w : World) :
  let s := FreeAds.settingsOr FreeAds.DEFAULT_SETTINGS w in
  let used := usedAtCheck r s w in
  let remaining := Z.max 0 (maxFreeAdsPerMonth s - used) in
  checkUserFreeAdLimit r w =
    if isActive s then
      (FreeAds.ok
         (JObj [("canPostFree", JBool (0 <? remaining));
                ("remaining", JNum remaining);
                ("limit", JNum (maxFreeAdsPerMonth s));
                ("used", JNum used);
                ("periodDays", JNum (numberOfDays s));
                ("nextResetDate",
                   JNum (setDateBack (clock w) (numberOfDays s)
                         + numberOfDays s * FreeAds.msPerDay));
                ("systemActive", JBool true)]),
       mkWorld (db w) (clock w)
         (trace w ++
          [FindSettings;
           CountProperties
             (FreeAds.freePostFilter (FreeAds.userIdString r)
                (setDateBack (clock w) (numberOfDays s)))]))
    else
      (FreeAds.ok
         (JObj [("canPostFree", JBool true);
                ("remaining", JInfinity);
                ("limit", JInfinity);
                ("periodDays", JNum (numberOfDays s));
                ("systemActive", JBool false)]),
       mkWorld (db w) (clock w) (trace w ++ [FindSettings])).
Proof.
  unfold FreeAds.checkUserFreeAdLimit, FreeAds.settingsOr,
    FreeAds.usedAtCheck, countOf, bind, findSettings, countDocuments, now, ret, log; simpl.
  destruct (free_ad_settings (db w)) as [s|]; simpl.
  - destruct (isActive s); simpl; rewrite <- ?app_assoc; reflexivity.
  - rewrite <- app_assoc; reflexivity.
Qed.

(** One run of [createProperty] for an authenticated user whose form is
    converted without an exception. *)
Lemma create_run (r : Request) (w : World) (uid : string) :
  Auth.userId r = Some uid ->
  nonEmpty uid = true ->
  formThrows (Auth.body r) = false ->
  let s := FreeAds.settingsOr fallbackSettings w in
  let data := Properties.propertyData r uid (clock w) in
  let used := usedAtCreate uid s w in
  let filter :=
    Properties.freePostFilter uid
      (clock w - numberOfDays s * (24 * 60 * 60 * 1000)) in
  let stored (ops : list Op) :=
    (created (showZ (nextId (db w))),
     mkWorld (mkDb (free_ad_settings (db w)) (properties (db w) ++ [data])
                   (nextId (db w) + 1))
             (clock w) (trace w ++ ops)) in
  createProperty r w =
    if isActive s && negb (exists_ (packageId data)) then
      if maxFreeAdsPerMonth s <=? used then
        (Properties.limitReached (maxFreeAdsPerMonth s) (numberOfDays s) used,
         mkWorld (db w) (clock w)
                 (trace w ++ [FindSettings; CountProperties filter]))
      else stored [FindSettings; CountProperties filter; InsertProperty data]
    else stored [FindSettings; InsertProperty data].
Proof.
  intros Hu Hn Hf.
  unfold Properties.createProperty, FreeAds.settingsOr,
    Properties.usedAtCreate, countOf, bind, findSettings, countDocuments, insertProperty, now, ret,
    log.
  rewrite Hu, Hn, Hf. simpl.
  destruct (free_ad_settings (db w)) as [s|] eqn:E; simpl;
    repeat match goal with
           | |- context [if ?b then _ else _] => destruct b; simpl
           end;
    rewrite <- ?app_assoc, ?E; simpl; reflexivity.
Qed.

Lemma create_unauthenticated (r : Request) (w : World) :
  (Auth.userId r = None \/ Auth.userId r = Some "") ->
  createProperty r w = (failure 401 "User not authenticated", w).
Proof.
  unfold Properties.createProperty. now intros [-> | ->].
Qed.

(** A form that cannot be converted is answered 500 before any store
    call. *)
Lemma create_throws (r : Request) (w : World) (uid : string) :
  Auth.userId r = Some uid ->
  nonEmpty uid = true ->
  formThrows (Auth.body r) = true ->
  createProperty r w = (failure 500 "Failed to create property", w).
Proof.
  intros Hu Hn Hf. unfold Properties.createProperty.
  now rewrite Hu, Hn, Hf.
Qed.

(** A run of [createProperty] either answers 401 or 500 whatever the
    store holds and leaves the world as it was, or is the run of an
    authenticated user whose form is converted. *)
Lemma create_cases (r : Request) :
  (exists resp,
     (Auth.status resp = 401 \/ Auth.status resp = 500) /\
     forall w, createProperty r w = (resp, w)) \/
  (exists uid,
     Auth.userId r = Some uid /\ nonEmpty uid = true /\
     formThrows (Auth.body r) = false).
Proof.
  destruct (Auth.userId r) as [uid|] eqn:Hu;
    [destruct (nonEmpty uid) eqn:Hn;
     [destruct (formThrows (Auth.body r)) eqn:Hf|]|].
  - left. exists (failure 500 "Failed to create property").
    split; [right; reflexivity|].
    intro w. now apply (create_throws r w uid).
  - right. eauto.
  - left. apply nonEmpty_false in Hn. subst uid.
    exists (failure 401 "User not authenticated").
    split; [left; reflexivity|].
    intro w. apply create_unauthenticated. auto.
  - left. exists (failure 401 "User not authenticated").
    split; [left; reflexivity|].
    intro w. apply create_unauthenticated. auto.
Qed.

Lemma packageId_data (r : Request) (uid : string) (t : Z) :
  exists_ (packageId (Properties.propertyData r uid t))
  = Properties.isSome (Properties.packageIdOf (Auth.body r)).
Proof.
  unfold Properties.propertyData. simpl.
  now destruct (Properties.packageIdOf (Auth.body r)).
Qed.

(** C1.  With limit 1 and one listing of the user in the window that
    carries a package id (and is not yet paid), the check-limit endpoint
    reports no free usage, as the exclusion of packaged listings asks,
    while the quota gate of [createProperty] counts that listing and
    rejects the request; the same gate also counts a listing marked paid
    that has no package field. *)
Theorem C1_creation_gate_counts_packaged_listing :
  let packaged := Fixtures.listing "u1" 4999999999 (Val false) (Val "gold") in
  let paid := Fixtures.listing "u1" 4999999999 (Val true) Missing in
  let w := Fixtures.world (Some (mkSettings 1 30 true)) [packaged] in
  let r := Fixtures.asUser "u1" [] in
  FreeAds.dataField
    (fst (FreeAds.checkUserFreeAdLimit Fixtures.utcDaysBack r w)) "used"
    = JNum 0 /\
  fst (Properties.createProperty Fixtures.parseJson None None
         Fixtures.submitted r w)
    = Properties.limitReached 1 30 1 /\
  Properties.freePostFilter "u1" 0 packaged = true /\
  Properties.freePostFilter "u1" 0 paid = true /\
  FreeAds.freePostFilter "u1" 0 packaged = false /\
  FreeAds.freePostFilter "u1" 0 paid = false.
Proof. repeat split; vm_compute; reflexivity. Qed.

(** C2, amended.  Neither the check-limit endpoint nor [createProperty]
    writes the settings singleton: the stored settings are the same after
    the call and no settings write is issued.  When the singleton is
    absent each of them decides with defaults held in memory only
    (max 2, 30 days, active in the endpoint; the configured or 5 / 30
    fallback, active, in the creation gate).  Persisting the defaults is
    done by the settings read endpoint [getSettings], by an insert. *)
Theorem C2_defaults_in_memory (r : Request) (w : World) :
  (free_ad_settings (db (snd (checkUserFreeAdLimit r w)))
     = free_ad_settings (db w) /\
   existsb isSettingsWrite (issued w (snd (checkUserFreeAdLimit r w)))
     = false) /\
  (free_ad_settings (db (snd (createProperty r w)))
     = free_ad_settings (db w) /\
   existsb isSettingsWrite (issued w (snd (createProperty r w))) = false) /\
  (free_ad_settings (db w) = None ->
   fst (checkUserFreeAdLimit r w)
     = fst (checkUserFreeAdLimit r (withSettings FreeAds.DEFAULT_SETTINGS w))
   /\
   fst (createProperty r w)
     = fst (createProperty r (withSettings fallbackSettings w))
   /\
   free_ad_settings (db (snd (FreeAds.getSettings r w)))
     = Some FreeAds.DEFAULT_SETTINGS).
Proof.
  split; [|split].
  - rewrite checkLimit_run.
    destruct (isActive _); simpl; rewrite issued_mk; auto.
  - destruct (create_cases r) as [(resp & _ & E) | (uid & Hu & Hn & Hf)].
    + rewrite E. simpl. rewrite issued_same. auto.
    + rewrite (create_run r w uid Hu Hn Hf).
      repeat match goal with
             | |- context [if ?b then _ else _] => destruct b
             end; simpl; rewrite issued_mk; auto.
  - intro Habs. split; [|split].
    + rewrite !checkLimit_run. unfold FreeAds.settingsOr, FreeAds.usedAtCheck,
        countOf. rewrite Habs. reflexivity.
    + destruct (create_cases r) as [(resp & _ & E) | (uid & Hu & Hn & Hf)].
      * now rewrite !E.
      * rewrite !(create_run _ _ uid Hu Hn Hf).
        unfold FreeAds.settingsOr, Properties.usedAtCreate, countOf.
        rewrite Habs. simpl.
        repeat match goal with
               | |- context [if ?b then _ else _] => destruct b
               end; reflexivity.
    + unfold FreeAds.getSettings, bind, findSettings, insertSettings, ret,
        log. simpl. now rewrite Habs.
Qed.

(** C3, amended.  For an authenticated creation request: when a form field
    cannot be converted (the specifications field is the text of a JSON
    null, or a numeric or type field holds an object with its own toString
    key) the handler answers 500 "Failed to create property" and the world
    is as it was, package id or not.  Otherwise: without a package id,
    when the gate is active and the user's free-usage count in the window
    has reached the maximum, the handler answers 403 with success false,
    limitReached true and freeAdLimit {max, days, used}, and the store is
    unchanged (no listing is inserted); the count the gate compares is at
    least the number of the user's free listings in the window; and with a
    package id, no count query is issued and the listing is inserted
    (answer 201). *)
Theorem C3_quota_gate_enforcement (r : Request) (w : World) (uid : string) :
  Auth.userId r = Some uid ->
  nonEmpty uid = true ->
  let s := FreeAds.settingsOr fallbackSettings w in
  let used := usedAtCreate uid s w in
  let resp := fst (createProperty r w) in
  let w' := snd (createProperty r w) in
  (formThrows (Auth.body r) = true ->
   resp = failure 500 "Failed to create property" /\ w' = w) /\
  (formThrows (Auth.body r) = false ->
   (Properties.packageIdOf (Auth.body r) = None ->
    isActive s = true ->
    maxFreeAdsPerMonth s <= used ->
    Auth.status resp = 403 /\
    get (Auth.json resp) "success" = JBool false /\
    get (Auth.json resp) "limitReached" = JBool true /\
    get (Auth.json resp) "freeAdLimit"
      = JObj [("max", JNum (maxFreeAdsPerMonth s));
              ("days", JNum (numberOfDays s));
              ("used", JNum used)] /\
    db w' = db w /\
    existsb isPropertyInsert (issued w w') = false) /\
   Spec.freeUsage uid (clock w - numberOfDays s * (24 * 60 * 60 * 1000)) w
     <= used /\
   (forall pk,
      Properties.packageIdOf (Auth.body r) = Some pk ->
      existsb isCount (issued w w') = false /\
      resp = created (showZ (nextId (db w))) /\
      Auth.status resp = 201 /\
      properties (db w')
        = (properties (db w)
           ++ [Properties.propertyData r uid (clock w)])%list)).
Proof.
  intros Hu Hn s used resp w'. subst resp w'. split.
  - intro Hf. rewrite (create_throws r w uid Hu Hn Hf). auto.
  - intro Hf. rewrite (create_run r w uid Hu Hn Hf). fold s. fold used.
    rewrite packageId_data. split; [|split].
    + intros Hp Ha Hm. rewrite Hp, Ha. simpl.
      apply Z.leb_le in Hm. rewrite Hm. simpl.
      rewrite issued_mk. auto 10.
    + apply freeUsage_le_usedAtCreate.
    + intros pk Hp. rewrite Hp, andb_false_r. simpl.
      rewrite issued_mk. auto.
Qed.

(** C4, amended.  While the system is enabled, and for a store in which no
    listing has a null package field, the check-limit endpoint reports as
    used the number of qualifying listings (owned by the subject, created
    since the start of the window, without a package and not marked paid),
    remaining = max(0, maximum - used) and canPostFree = (remaining > 0);
    with maximum 2, two qualifying listings give canPostFree false and
    remaining 0, and one gives remaining 1. *)
Theorem C4_remaining_and_canPostFree (r : Request) (w : World) :
  let s := FreeAds.settingsOr FreeAds.DEFAULT_SETTINGS w in
  let qualifying :=
    Spec.freeUsage (FreeAds.userIdString r)
      (setDateBack (clock w) (numberOfDays s)) w in
  let resp := fst (checkUserFreeAdLimit r w) in
  isActive s = true ->
  noNullPackage w = true ->
  FreeAds.dataField resp "used" = JNum qualifying /\
  FreeAds.dataField resp "remaining"
    = JNum (Z.max 0 (maxFreeAdsPerMonth s - qualifying)) /\
  FreeAds.dataField resp "canPostFree"
    = JBool (0 <? Z.max 0 (maxFreeAdsPerMonth s - qualifying)) /\
  (maxFreeAdsPerMonth s = 2 -> qualifying = 2 ->
   FreeAds.dataField resp "canPostFree" = JBool false /\
   FreeAds.dataField resp "remaining" = JNum 0) /\
  (maxFreeAdsPerMonth s = 2 -> qualifying = 1 ->
   FreeAds.dataField resp "remaining" = JNum 1).
Proof.
  intros s qualifying resp Ha Hnull. subst resp.
  rewrite checkLimit_run. fold s. rewrite Ha.
  rewrite (usedAtCheck_freeUsage r s w Hnull). fold qualifying.
  unfold FreeAds.dataField. simpl.
  split; [reflexivity|]. split; [reflexivity|]. split; [reflexivity|].
  split; intros Hm Hq; rewrite Hm, Hq; auto.
Qed.

(** C5.  When the stored settings have the system disabled, the
    check-limit endpoint answers canPostFree true and systemActive false
    without counting, whatever the listings are, and [createProperty]
    issues no count query and never answers 403. *)
Theorem C5_disabled_system (r : Request) (w : World) (s : Settings) :
  free_ad_settings (db w) = Some s ->
  isActive s = false ->
  (FreeAds.dataField (fst (checkUserFreeAdLimit r w)) "canPostFree"
     = JBool true /\
   FreeAds.dataField (fst (checkUserFreeAdLimit r w)) "systemActive"
     = JBool false /\
   existsb isCount (issued w (snd (checkUserFreeAdLimit r w))) = false) /\
  (existsb isCount (issued w (snd (createProperty r w))) = false /\
   Auth.status (fst (createProperty r w)) <> 403).
Proof.
  intros Hs Ha. split.
  - rewrite checkLimit_run. unfold FreeAds.settingsOr. rewrite Hs, Ha.
    unfold FreeAds.dataField. simpl. rewrite issued_mk. auto.
  - destruct (create_cases r) as [(resp & Hst & E) | (uid & Hu & Hn & Hf)].
    + rewrite E. simpl. rewrite issued_same.
      split; [reflexivity|]. destruct Hst as [-> | ->]; discriminate.
    + rewrite (create_run r w uid Hu Hn Hf).
      unfold FreeAds.settingsOr. rewrite Hs, Ha. simpl.
      rewrite issued_mk. split; [reflexivity | discriminate].
Qed.


End Gate.

End QuotaFacts.

(* ===================================================================== *)
(** ** Worked instances                                                   *)
(* ===================================================================== *)

Module Examples.
Import JS Auth Mongo Fixtures.

(** "Bearer  abc" (two spaces): the remainder is " abc", the token picked
    is "abc". *)
Lemma C6_bearer_remainder_is_trimmed :
  Spec.bearerRemainder bearerTwoSpaces = Some " abc" /\
  pickToken bearerTwoSpaces = Some "abc" /\
  pickToken bearerTwoSpaces <> Spec.credential bearerTwoSpaces.
Proof. repeat split. vm_compute. discriminate. Qed.

Lemma C6_credential_order_witness :
  Spec.credentialTrimmed bare = None /\
  authenticateToken noEnv verifier bare
    = (bare, Sent (failure 401 "Access token required")).
Proof.
  split; [reflexivity|].
  apply (proj2 (AuthFacts.C6_credential_order noEnv verifier bare)).
  reflexivity.
Defined.

(** A payload {userId: "", id: "u1"}: an identity path is present (the
    first present value coerces to "", the first truthy one to "u1"), yet
    no subject id is resolved and the token is refused.  A payload
    {userId: []} is refused the same way, its identity being truthy with
    an empty string; and for {userId: {toString: 1}} the coercion throws
    and the answer is the one for an invalid token. *)
Lemma C7_falsy_first_claim_is_refused :
  Spec.subjectId emptyUserIdPayload = Some "" /\
  Spec.subjectIdFirstTruthy emptyUserIdPayload = Some "u1" /\
  idFromPayload emptyUserIdPayload = Returns None /\
  verifyAndAttach noEnv verifier anonRequest
    = (anonRequest, Some (failure 401 "Invalid token (no user id)")) /\
  idFromPayload [("userId", JArr [])] = Returns (Some "") /\
  verifyAndAttach noEnv oddVerifier arrayIdRequest
    = (arrayIdRequest, Some (failure 401 "Invalid token (no user id)")) /\
  idFromPayload [("userId", JObj [("toString", JNum 1)])] = Throws /\
  verifyAndAttach noEnv oddVerifier objectIdRequest
    = (objectIdRequest, Some (failure 401 "Invalid or expired token")).
Proof. repeat split. Qed.

Lemma C7_subject_id_witness :
  pickToken salesRequest = Some "tok-sales" /\
  exists r', userId r' = Some "s1" /\
             verifyAndAttach noEnv verifier salesRequest = (r', None).
Proof.
  split; [reflexivity|].
  apply (proj2 (proj2 (AuthFacts.C7_subject_id noEnv verifier))
           salesRequest "tok-sales"
           [("id", JStr "s1"); ("userType", JStr "staff");
            ("role", JStr "sales_manager")]);
    reflexivity.
Defined.

(** The sales manager of the permission table. *)
Lemma permission_gate_sales_manager :
  verifyAndAttach noEnv verifier salesRequest = (salesIdentity, None) /\
  requirePermission noEnv verifier "sellers.manage" salesRequest
    = (salesIdentity, CalledNext) /\
  requirePermission noEnv verifier "content.manage" salesRequest
    = (salesIdentity,
       Sent (failure 403 "Permission required: content.manage")).
Proof.
  split; [reflexivity|].
  apply (AuthFacts.permission_gate_cases noEnv verifier salesRequest
           salesIdentity); reflexivity.
Qed.

Lemma C9_rejected_token_witness :
  pickToken forgedRequest = Some "forged" /\
  authenticateToken noEnv verifier forgedRequest
    = (forgedRequest, Sent (failure 401 "Invalid or expired token")).
Proof.
  split; [reflexivity|].
  apply (AuthFacts.C9_rejected_token noEnv verifier forgedRequest "forged");
    reflexivity.
Defined.

(** With no settings document, neither handler creates one. *)
Lemma C2_settings_stay_absent :
  let w := world None [] in
  free_ad_settings (db w) = None /\
  free_ad_settings
    (db (snd (FreeAds.checkUserFreeAdLimit utcDaysBack freeForm w))) = None /\
  free_ad_settings
    (db (snd (Properties.createProperty parseJson None None submitted
                freeForm w)))
    = None /\
  trace (snd (FreeAds.checkUserFreeAdLimit utcDaysBack freeForm w))
    = [FindSettings;
       CountProperties (FreeAds.freePostFilter "u1" 2408000000)] /\
  existsb isSettingsWrite
    (trace (snd (Properties.createProperty parseJson None None submitted
                   freeForm w)))
    = false.
Proof. repeat split. Qed.

Lemma C2_defaults_in_memory_witness :
  let w := world None twoFree in
  free_ad_settings (db w) = None /\
  fst (FreeAds.checkUserFreeAdLimit utcDaysBack freeForm w)
    = fst (FreeAds.checkUserFreeAdLimit utcDaysBack freeForm
             (withSettings FreeAds.DEFAULT_SETTINGS w)) /\
  fst (Properties.createProperty parseJson None None submitted freeForm w)
    = fst (Properties.createProperty parseJson None None submitted freeForm
             (withSettings (Properties.fallbackSettings None None) w)) /\
  free_ad_settings (db (snd (FreeAds.getSettings freeForm w)))
    = Some FreeAds.DEFAULT_SETTINGS.
Proof.
  split; [reflexivity|].
  apply (QuotaFacts.C2_defaults_in_memory utcDaysBack parseJson None None
           submitted freeForm (world None twoFree)).
  reflexivity.
Defined.

(** A request that carries a package id is not always inserted: when its
    specifications field is the text of a JSON null the handler answers
    500 and stores nothing, and without an authenticated user it answers
    401.  A request without a package id sent at the limit with such a
    specifications field is answered 500 as well, not 403. *)
Lemma C3_unconvertible_form_is_refused :
  let w := world (Some limitTwo) twoFree in
  Properties.packageIdOf (body nullSpecificationsForm) = Some "gold" /\
  Properties.createProperty parseJson None None submitted
    nullSpecificationsForm w
    = (failure 500 "Failed to create property", w) /\
  Properties.packageIdOf (body nullSpecificationsFreeForm) = None /\
  Properties.usedAtCreate "u1" limitTwo w = 2 /\
  Properties.createProperty parseJson None None submitted
    nullSpecificationsFreeForm w
    = (failure 500 "Failed to create property", w) /\
  Properties.packageIdOf (body anonymousPackagedForm) = Some "gold" /\
  Properties.createProperty parseJson None None submitted
    anonymousPackagedForm w
    = (failure 401 "User not authenticated", w).
Proof. repeat split. Qed.

Lemma C3_quota_gate_enforcement_witness :
  let w := world (Some limitTwo) twoFree in
  let denied :=
    fst (Properties.createProperty parseJson None None submitted freeForm w) in
  let w1 :=
    snd (Properties.createProperty parseJson None None submitted freeForm w) in
  let w2 :=
    snd (Properties.createProperty parseJson None None submitted
           packagedForm w) in
  (Auth.status denied = 403 /\
   get (Auth.json denied) "success" = JBool false /\
   get (Auth.json denied) "limitReached" = JBool true /\
   get (Auth.json denied) "freeAdLimit"
     = JObj [("max", JNum 2); ("days", JNum 30); ("used", JNum 2)] /\
   db w1 = db w /\
   existsb isPropertyInsert (issued w w1) = false) /\
  (existsb isCount (issued w w2) = false /\
   List.length (properties (db w2)) = 3%nat) /\
  Properties.createProperty parseJson None None submitted
    nullSpecificationsForm w
    = (failure 500 "Failed to create property", w).
Proof.
  split; [|split].
  - apply (proj2 (QuotaFacts.C3_quota_gate_enforcement parseJson None None
                    submitted freeForm (world (Some limitTwo) twoFree) "u1"
                    eq_refl eq_refl));
      reflexivity.
  - destruct (proj2 (proj2 (proj2 (QuotaFacts.C3_quota_gate_enforcement
                       parseJson None None submitted packagedForm
                       (world (Some limitTwo) twoFree) "u1"
                       eq_refl eq_refl) eq_refl)) "gold" eq_refl)
      as (Hc & _ & _ & Hp).
    split; [exact Hc|]. cbv zeta. rewrite Hp. reflexivity.
  - destruct (proj1 (QuotaFacts.C3_quota_gate_enforcement parseJson None None
                       submitted nullSpecificationsForm
                       (world (Some limitTwo) twoFree) "u1"
                       eq_refl eq_refl) eq_refl) as [Hr Hw].
    cbv zeta in Hr, Hw.
    rewrite (surjective_pairing
               (Properties.createProperty parseJson None None submitted
                  nullSpecificationsForm (world (Some limitTwo) twoFree))).
    now rewrite Hr, Hw.
Defined.

(** With the system disabled, two qualifying listings and limit 2 the
    endpoint reports an unbounded remainder and canPostFree; and with the
    system enabled, two unpaid listings whose package field is null are
    not counted: used 0, remaining 2, canPostFree. *)
Lemma C4_disabled_or_null_package :
  let off := world (Some disabled) twoFree in
  let nulls := world (Some limitTwo) twoNullPackage in
  let answer w := fst (FreeAds.checkUserFreeAdLimit utcDaysBack freeForm w) in
  Spec.freeUsage "u1" (utcDaysBack (clock off) 30) off = 2 /\
  FreeAds.dataField (answer off) "remaining" = JInfinity /\
  FreeAds.dataField (answer off) "canPostFree" = JBool true /\
  Spec.freeUsage "u1" (utcDaysBack (clock nulls) 30) nulls = 2 /\
  FreeAds.dataField (answer nulls) "used" = JNum 0 /\
  FreeAds.dataField (answer nulls) "remaining" = JNum 2 /\
  FreeAds.dataField (answer nulls) "canPostFree" = JBool true.
Proof. repeat split. Qed.

Lemma C4_remaining_and_canPostFree_witness :
  let w := world (Some limitTwo) twoFree in
  let resp := fst (FreeAds.checkUserFreeAdLimit utcDaysBack freeForm w) in
  Spec.freeUsage "u1" (utcDaysBack (clock w) 30) w = 2 /\
  FreeAds.dataField resp "used" = JNum 2 /\
  FreeAds.dataField resp "remaining" = JNum 0 /\
  FreeAds.dataField resp "canPostFree" = JBool false.
Proof.
  split; [reflexivity|].
  destruct (QuotaFacts.C4_remaining_and_canPostFree utcDaysBack freeForm
              (world (Some limitTwo) twoFree) eq_refl eq_refl)
    as (Hu & _ & _ & H2 & _).
  destruct (H2 eq_refl eq_refl) as (Hc & Hr).
  exact (conj Hu (conj Hr Hc)).
Defined.

Lemma C5_disabled_system_witness :
  let w := world (Some disabled) twoFree in
  FreeAds.dataField
    (fst (FreeAds.checkUserFreeAdLimit utcDaysBack freeForm w)) "canPostFree"
    = JBool true /\
  FreeAds.dataField
    (fst (FreeAds.checkUserFreeAdLimit utcDaysBack freeForm w)) "systemActive"
    = JBool false /\
  Auth.status
    (fst (Properties.createProperty parseJson None None submitted freeForm w))
    <> 403.
Proof.
  destruct (QuotaFacts.C5_disabled_system utcDaysBack parseJson None None
              submitted freeForm (world (Some disabled) twoFree) disabled
              eq_refl eq_refl)
    as ((Hc & Hs & _) & (_ & Hn)).
  exact (conj Hc (conj Hs Hn)).
Defined.

End Examples.

(* ===================================================================== *)
(** ** Properties of the string operations                                *)
(* ===================================================================== *)

Module StringFacts.
Import JS.

Lemma isWhite_lowerChar (c : ascii) : isWhite (lowerChar c) = isWhite c.
Proof. destruct c as [[] [] [] [] [] [] [] []]; reflexivity. Qed.

Lemma append_nil_r (s : string) : s ++ "" = s.
Proof. induction s; simpl; congruence. Qed.

Lemma append_assoc (a b c : string) : (a ++ b) ++ c = a ++ (b ++ c).
Proof. induction a; simpl; congruence. Qed.

Lemma string_of_list_app (l1 l2 : list ascii) :
  string_of_list_ascii (l1 ++ l2)
  = string_of_list_ascii l1 ++ string_of_list_ascii l2.
Proof. induction l1; simpl; congruence. Qed.

Lemma list_of_string_app (a b : string) :
  list_ascii_of_string (a ++ b)
  = (list_ascii_of_string a ++ list_ascii_of_string b)%list.
Proof. induction a; simpl; congruence. Qed.

Lemma reverse_cons (c : ascii) (s : string) :
  reverse (String c s) = reverse s ++ String c "".
Proof. unfold reverse. simpl. now rewrite string_of_list_app. Qed.

Lemma reverse_snoc (c : ascii) (s : string) :
  reverse (s ++ String c "") = String c (reverse s).
Proof.
  unfold reverse. rewrite list_of_string_app, rev_app_distr. reflexivity.
Qed.

Lemma reverse_empty (s : string) : reverse s = "" -> s = "".
Proof.
  destruct s; [reflexivity|]. rewrite reverse_cons.
  destruct (reverse s); discriminate.
Qed.

(** [trimStart] over a concatenation. *)
Lemma trimStart_app (a b : string) :
  trimStart (a ++ b)
  = match trimStart a with
    | "" => trimStart b
    | t => t ++ b
    end.
Proof.
  induction a as [|c a IH]; simpl; [reflexivity|].
  destruct (isWhite c); [exact IH | reflexivity].
Qed.

(** [trimEnd] read from the front of the string. *)
Lemma trimEnd_cons (c : ascii) (s : string) :
  trimEnd (String c s)
  = match trimEnd s with
    | "" => if isWhite c then "" else String c ""
    | t => String c t
    end.
Proof.
  unfold trimEnd. rewrite reverse_cons, trimStart_app.
  destruct (trimStart (reverse s)) as [|d t] eqn:E.
  - simpl. destruct (isWhite c); reflexivity.
  - rewrite reverse_snoc.
    destruct (reverse (String d t)) eqn:R; [|reflexivity].
    apply reverse_empty in R. discriminate.
Qed.

Lemma trimEnd_nil : trimEnd "" = "".
Proof. reflexivity. Qed.

Lemma trimEnd_idem (s : string) : trimEnd (trimEnd s) = trimEnd s.
Proof.
  induction s as [|c s IH]; [reflexivity|].
  rewrite trimEnd_cons.
  destruct (trimEnd s) as [|d t] eqn:E.
  - destruct (isWhite c) eqn:W; [reflexivity|].
    rewrite trimEnd_cons, trimEnd_nil, W. reflexivity.
  - rewrite trimEnd_cons, IH. reflexivity.
Qed.

Lemma trimStart_idem (s : string) : trimStart (trimStart s) = trimStart s.
Proof.
  induction s as [|c s IH]; simpl; [reflexivity|].
  destruct (isWhite c) eqn:W; [exact IH|]. simpl. now rewrite W.
Qed.

(** What [trimStart] returns is empty or begins with a character that is
    not white space. *)
Lemma trimStart_head (s : string) (c : ascii) (t : string) :
  trimStart s = String c t -> isWhite c = false.
Proof.
  induction s as [|d s IH]; simpl; [discriminate|].
  destruct (isWhite d) eqn:W; [exact IH|]. now intros [= <- _].
Qed.

Lemma trimEnd_keeps_head (c : ascii) (s : string) :
  isWhite c = false -> exists t, trimEnd (String c s) = String c t.
Proof.
  intro W. rewrite trimEnd_cons, W. destruct (trimEnd s); eauto.
Qed.

Lemma trimStart_trimEnd (s : string) :
  trimStart (trimEnd (trimStart s)) = trimEnd (trimStart s).
Proof.
  destruct (trimStart s) as [|c t] eqn:E; [reflexivity|].
  pose proof (trimStart_head _ _ _ E) as W.
  destruct (trimEnd_keeps_head c t W) as [u ->]. simpl. now rewrite W.
Qed.

Lemma trim_idem (s : string) : trim (trim s) = trim s.
Proof.
  unfold trim. now rewrite trimStart_trimEnd, trimEnd_idem.
Qed.

Lemma trim_head (s : string) (c : ascii) (t : string) :
  trim s = String c t -> isWhite c = false.
Proof.
  unfold trim. rewrite <- trimStart_trimEnd. apply trimStart_head.
Qed.

Lemma trimEnd_last (s pre : string) (c : ascii) :
  trimEnd s = pre ++ String c "" -> isWhite c = false.
Proof.
  revert pre. induction s as [|d s IH]; intro pre.
  - destruct pre; discriminate.
  - rewrite trimEnd_cons. destruct (trimEnd s) as [|e t] eqn:E.
    + destruct (isWhite d) eqn:W.
      * destruct pre; discriminate.
      * destruct pre as [|p pre]; simpl.
        -- now intros [= <-].
        -- intros [= _ H]. destruct pre; discriminate.
    + destruct pre as [|p pre]; simpl.
      * discriminate.
      * intros [= _ H]. now apply (IH pre).
Qed.

Lemma trim_last (s pre : string) (c : ascii) :
  trim s = pre ++ String c "" -> isWhite c = false.
Proof. apply trimEnd_last. Qed.

Lemma trimStart_lower (s : string) :
  trimStart (toLowerCase s) = toLowerCase (trimStart s).
Proof.
  induction s as [|c s IH]; simpl; [reflexivity|].
  rewrite isWhite_lowerChar. now destruct (isWhite c).
Qed.

Lemma trimEnd_lower (s : string) :
  trimEnd (toLowerCase s) = toLowerCase (trimEnd s).
Proof.
  induction s as [|c s IH]; [reflexivity|].
  simpl toLowerCase at 1. rewrite !trimEnd_cons, IH, isWhite_lowerChar.
  destruct (trimEnd s); simpl; [destruct (isWhite c)|]; reflexivity.
Qed.

Lemma trim_lower (s : string) : trim (toLowerCase s) = toLowerCase (trim s).
Proof. unfold trim. now rewrite trimStart_lower, trimEnd_lower. Qed.

Lemma nonEmpty_lower (s : string) : nonEmpty (toLowerCase s) = nonEmpty s.
Proof. now destruct s. Qed.

(** *** The text of a number *)

Lemma bits_small (a : Z) :
  0 <= a < 2 ^ 53 -> ((if a =? 0 then 0 else Z.log2 a + 1) <=? 53) = true.
Proof.
  intros [H0 H1]. apply Z.leb_le.
  destruct (Z.eqb_spec a 0) as [_|Hne]; [lia|].
  assert (Z.log2 a < 53) by (apply Z.log2_lt_pow2; lia). lia.
Qed.

Lemma roundDouble_safe (n : Z) :
  Z.abs n < 2 ^ 53 -> roundDouble n = Some n.
Proof.
  intro H. unfold roundDouble. cbv zeta.
  rewrite bits_small by lia.
  assert ((2 ^ 1024 <=? Z.abs n) = false) as ->.
  { apply Z.leb_gt. apply Z.lt_trans with (2 ^ 53); [exact H|].
    apply Z.pow_lt_mono_r; lia. }
  f_equal. rewrite Z.mul_comm. apply Z.abs_sgn.
Qed.

Lemma roundDouble_large (a y : Z) :
  2 ^ 53 <= a -> roundDouble a = Some y -> 2 ^ 53 <= y.
Proof.
  intros Ha. unfold roundDouble. cbv zeta.
  assert (0 < a) as Hpos by (pose proof (Z.pow_pos_nonneg 2 53); lia).
  rewrite (Z.abs_eq a) by lia.
  destruct (Z.eqb_spec a 0) as [E|_]; [lia|].
  assert (53 <= Z.log2 a) as Hl by (apply Z.log2_le_pow2; lia).
  destruct (Z.leb_spec (Z.log2 a + 1) 53) as [C|_]; [lia|].
  set (sh := Z.log2 a + 1 - 53).
  set (q := Z.shiftr a sh).
  match goal with
  | |- context [Z.shiftl ?e sh] =>
      lazymatch e with
      | q => fail
      | _ => set (q' := e)
      end
  end.
  assert (q <= q') as Hq.
  { subst q'. destruct (_ || _); lia. }
  assert (2 ^ 52 <= q) as H52.
  { subst q. rewrite Z.shiftr_div_pow2 by (subst sh; lia).
    destruct (Z.log2_spec a Hpos) as [Hlo _].
    replace (2 ^ 52) with (2 ^ Z.log2 a / 2 ^ sh).
    - apply Z.div_le_mono; [apply Z.pow_pos_nonneg; subst sh; lia | exact Hlo].
    - rewrite <- Z.pow_sub_r by (subst sh; lia). f_equal. subst sh. lia. }
  destruct (2 ^ 1024 <=? Z.shiftl q' sh); [discriminate|].
  intros [= <-]. rewrite Z.sgn_pos by lia. rewrite Z.mul_1_l.
  rewrite Z.shiftl_mul_pow2 by (subst sh; lia).
  replace (2 ^ 53) with (2 ^ 52 * 2 ^ 1) by reflexivity.
  apply Z.mul_le_mono_nonneg; try lia.
  apply Z.pow_le_mono_r; subst sh; lia.
Qed.

Lemma roundsTo_below (v x : Z) :
  0 <= v -> v <= x -> x < 2 ^ 53 -> roundsTo v x = (v =? x).
Proof.
  intros H0 H1 H2. unfold roundsTo. rewrite roundDouble_safe; [reflexivity|].
  rewrite Z.abs_eq; lia.
Qed.

Lemma roundsTo_above (v x : Z) :
  x < v -> 0 <= x < 2 ^ 53 -> roundsTo v x = false.
Proof.
  intros H1 H2. unfold roundsTo.
  destruct (Z.lt_ge_cases v (2 ^ 53)) as [Hs|Hl].
  - rewrite roundDouble_safe by (rewrite Z.abs_eq; lia).
    apply Z.eqb_neq. lia.
  - destruct (roundDouble v) as [y|] eqn:E; [|reflexivity].
    apply (roundDouble_large v y Hl) in E. apply Z.eqb_neq. lia.
Qed.

Lemma shortest_safe (fuel : nat) (x d k : Z) :
  0 < x < 2 ^ 53 -> shortest fuel x d k = x.
Proof.
  intro Hx. revert k. induction fuel as [|fuel IH]; intro k; [reflexivity|].
  cbn [shortest]. destruct (Z.leb_spec d k) as [_|Hdk]; [reflexivity|].
  cbv zeta. set (p := 10 ^ (d - k)).
  assert (0 < p) as Hp by (apply Z.pow_pos_nonneg; lia).
  pose proof (Z.mul_div_le x p Hp) as Hlo.
  pose proof (Z.mod_pos_bound x p Hp) as Hmod.
  pose proof (Z.div_mod x p ltac:(lia)) as Hdm.
  assert (0 <= x / p) by (apply Z.div_pos; lia).
  rewrite (roundsTo_below (x / p * p) x) by nia.
  rewrite (roundsTo_above (x / p * p + p) x) by nia.
  destruct (Z.eqb_spec (x / p * p) x) as [E|_]; [exact E | apply IH].
Qed.

Lemma showZ_neg (x : Z) : 0 < x -> showZ (- x) = "-" ++ showZ x.
Proof. destruct x; try lia. reflexivity. Qed.

Lemma numberToString_safe (n : Z) :
  Z.abs n < 2 ^ 53 -> numberToString n = showZ n.
Proof.
  intro H. unfold numberToString. rewrite (roundDouble_safe n H).
  assert (forall x, 0 < x < 2 ^ 53 -> positiveToString x = showZ x) as Hpos.
  { intros x Hx. unfold positiveToString. cbv zeta.
    rewrite (shortest_safe _ x _ 1 Hx).
    assert ((x <? 10 ^ 21) = true) as ->; [|reflexivity].
    apply Z.ltb_lt. apply Z.lt_trans with (2 ^ 53); [lia | reflexivity]. }
  destruct (Z.eqb_spec n 0) as [->|Hne]; [reflexivity|].
  destruct (Z.ltb_spec n 0) as [Hneg|Hge].
  - rewrite Hpos by lia. rewrite <- showZ_neg by lia. f_equal. lia.
  - apply Hpos. lia.
Qed.

(** Beyond 2^53 the text is the shortest one that denotes the double. *)
Lemma numberToString_large :
  numberToString (2 ^ 53) = "9007199254740992" /\
  numberToString (2 ^ 53 + 1) = "9007199254740992" /\
  numberToString (2 ^ 60) = "1152921504606847000" /\
  numberToString (10 ^ 21 - 1) = "1e+21" /\
  numberToString (2 ^ 70) = "1.1805916207174113e+21" /\
  numberToString (- 2 ^ 64) = "-18446744073709552000" /\
  numberToString (2 ^ 1024) = "Infinity".
Proof. repeat split; vm_compute; reflexivity. Qed.

(** On a plain number [String] gives its decimal text. *)
Lemma String_safe_number (n : Z) :
  Z.abs n < 2 ^ 53 -> String_ (JNum n) = showZ n.
Proof. exact (numberToString_safe n). Qed.

End StringFacts.

(* ===================================================================== *)
(** ** Further properties of the resolver and the guards                  *)
(* ===================================================================== *)

Module AuthExtra.
Import JS Auth.

Lemma includes_In (l : list string) (x : string) :
  includes l x = true <-> In x l.
Proof.
  unfold includes. rewrite existsb_exists. split.
  - intros (y & Hy & E). apply String.eqb_eq in E. now subst.
  - intro H. exists x. split; [exact H | apply String.eqb_refl].
Qed.

Lemma pickToken_is_trim (r : Request) (t : string) :
  pickToken r = Some t -> exists x, t = trim x.
Proof.
  unfold pickToken.
  repeat match goal with
         | |- context [if ?b then _ else _] => destruct b
         end; intros [= <-]; eauto.
Qed.

(** X1.  The secret handed to the verifier is never empty: JWT_SECRET when it is
    set and non-empty, else JWT_PRIVATE_KEY when that is, else the literal
    "your-secret-key". *)
Theorem jwt_secret_fallback (env : string -> option string) :
  nonEmpty (JWT_SECRET env) = true /\
  (forall s, env "JWT_SECRET" = Some s -> nonEmpty s = true ->
     JWT_SECRET env = s) /\
  (nonEmpty (orEmpty (env "JWT_SECRET")) = false ->
   forall s, env "JWT_PRIVATE_KEY" = Some s -> nonEmpty s = true ->
     JWT_SECRET env = s) /\
  (nonEmpty (orEmpty (env "JWT_SECRET")) = false ->
   nonEmpty (orEmpty (env "JWT_PRIVATE_KEY")) = false ->
   JWT_SECRET env = "your-secret-key").
Proof.
  unfold JWT_SECRET, orStr. split; [|split; [|split]].
  - destruct (nonEmpty (orEmpty (env "JWT_SECRET"))) eqn:A; [exact A|].
    destruct (nonEmpty (orEmpty (env "JWT_PRIVATE_KEY"))) eqn:B;
      [exact B | reflexivity].
  - intros s -> Hs. simpl. now rewrite Hs.
  - intros -> s -> Hs. simpl. now rewrite Hs.
  - now intros -> ->.
Qed.

(** X2.  A token picked from the request never begins or ends with white
    space, wherever it was found. *)
Theorem picked_token_is_trimmed (r : Request) (t : string) :
  pickToken r = Some t ->
  trim t = t /\
  (forall c u, t = String c u -> isWhite c = false) /\
  (forall pre c, t = pre ++ String c "" -> isWhite c = false).
Proof.
  intro H. destruct (pickToken_is_trim r t H) as [x ->].
  split; [apply StringFacts.trim_idem|]. split.
  - intros c u E. exact (StringFacts.trim_head x c u E).
  - intros pre c E. exact (StringFacts.trim_last x pre c E).
Qed.

Section Resolver.

Variable env : string -> option string.
Variable jwt_verify : string -> string -> option object.

Local Abbreviation verifyAndAttach := (verifyAndAttach env jwt_verify).
Local Abbreviation authenticateToken := (authenticateToken env jwt_verify).
Local Abbreviation requireAdmin := (requireAdmin env jwt_verify).
Local Abbreviation requireSellerOrAgent :=
  (requireSellerOrAgent env jwt_verify).
Local Abbreviation requireBuyer := (requireBuyer env jwt_verify).
Local Abbreviation requirePermission := (requirePermission env jwt_verify).

(** X3.  A credential location that is present but blank is not skipped: when
    the token picked is empty the answer is the 401 for a missing token,
    whatever the lower-priority headers and cookies hold; and with a
    Bearer Authorization header the token depends on that header alone. *)
Theorem blank_credential_is_not_skipped :
  (forall r t, pickToken r = Some t -> nonEmpty t = false ->
     authenticateToken r = (r, Sent (failure 401 "Access token required")))
  /\
  (forall r r',
     header r "authorization" = header r' "authorization" ->
     startsWith (toLowerCase (header r "authorization")) "bearer " = true ->
     pickToken r = pickToken r').
Proof.
  split.
  - intros r t Ht Hn. unfold Auth.authenticateToken, Auth.verifyAndAttach.
    now rewrite Ht, Hn.
  - intros r r' E Hp. unfold pickToken. rewrite <- E, Hp. reflexivity.
Qed.

(** A failed resolution, by cases: the request is as it was, or a
    conversion threw after the user id (and possibly the account type) was
    assigned. *)
Lemma verifyAndAttach_failure (r r' : Request) (resp : Response) :
  verifyAndAttach r = (r', Some resp) ->
  status resp = 401 /\
  (r' = r \/
   resp = Spec.invalidToken /\
   exists uid, nonEmpty uid = true /\
     (r' = setUserId r uid \/
      exists t, r' = setUserType (setUserId r uid) t)).
Proof.
  unfold Auth.verifyAndAttach.
  destruct (pickToken r) as [token|];
    [|intros [= <- <-]; split; [reflexivity | now left]].
  destruct (negb (nonEmpty token));
    [intros [= <- <-]; split; [reflexivity | now left]|].
  destruct (jwt_verify token (JWT_SECRET env)) as [decoded|];
    [|intros [= <- <-]; split; [reflexivity | now left]].
  destruct (idFromPayload decoded) as [|[uid|]];
    try (intros [= <- <-]; split; [reflexivity | now left]).
  destruct (nonEmpty uid) eqn:Eu; cbn [negb];
    [|intros [= <- <-]; split; [reflexivity | now left]].
  destruct (getUserTypeFromPayload decoded) as [|t] eqn:Ety.
  { intros [= <- <-]. split; [reflexivity|]. right. split; [reflexivity|].
    exists uid. auto. }
  rewrite (AuthFacts.getIsAdminBool_returns decoded t Ety).
  destruct (getRoleFromPayload decoded) as [|ro]; [|discriminate].
  intros [= <- <-]. split; [reflexivity|]. right. split; [reflexivity|].
  exists uid. eauto.
Qed.

(** After a failed resolution every guard answers with the resolver's
    response and hands on the resolver's request. *)
Lemma failed_guards (r r' : Request) (resp : Response) :
  verifyAndAttach r = (r', Some resp) ->
  authenticateToken r = (r', Sent resp) /\
  requireAdmin r = (r', Sent resp) /\
  requireSellerOrAgent r = (r', Sent resp) /\
  requireBuyer r = (r', Sent resp) /\
  (forall name, requirePermission name r = (r', Sent resp)).
Proof.
  intro H.
  unfold Auth.authenticateToken, Auth.requireAdmin, Auth.requireSellerOrAgent,
    Auth.requireBuyer, Auth.requirePermission.
  rewrite H. auto 10.
Qed.

(** X4.  A failed resolution is a 401, and every guard answers with that same
    response, without going further, and hands on the request the
    resolver left.  That request is the one received, except when the
    conversion of the account type or of the role threw: the answer is
    then "Invalid or expired token" and the request already carries the
    user id of the token (and its account type, when the role threw);
    headers, cookies, body, e-mail and the isAdmin flag are never touched
    by a failed resolution. *)
Theorem guards_short_circuit (r r' : Request) (resp : Response) :
  verifyAndAttach r = (r', Some resp) ->
  status resp = 401 /\
  (resp <> Spec.invalidToken -> r' = r) /\
  (r' = r \/
   exists uid, nonEmpty uid = true /\
     (r' = setUserId r uid \/
      exists t, r' = setUserType (setUserId r uid) t)) /\
  (headers r' = headers r /\ cookies r' = cookies r /\ body r' = body r /\
   email r' = email r /\ isAdmin r' = isAdmin r) /\
  authenticateToken r = (r', Sent resp) /\
  requireAdmin r = (r', Sent resp) /\
  requireSellerOrAgent r = (r', Sent resp) /\
  requireBuyer r = (r', Sent resp) /\
  (forall name, requirePermission name r = (r', Sent resp)).
Proof.
  intro H. destruct (verifyAndAttach_failure _ _ _ H) as [Hs Hr].
  split; [exact Hs|]. split; [|split; [|split]].
  - intro Hne. destruct Hr as [-> | [E _]]; [reflexivity | contradiction].
  - destruct Hr as [-> | (_ & uid & Hn & Hc)]; [now left | right; eauto].
  - destruct Hr as [-> | (_ & uid & _ & [-> | [t ->]])]; simpl; auto.
  - exact (failed_guards _ _ _ H).
Qed.

(** What a successful resolution attaches. *)
Lemma verifyAndAttach_attached (r r' : Request) :
  verifyAndAttach r = (r', None) ->
  exists decoded uid t ro b,
    getUserTypeFromPayload decoded = Returns t /\
    getIsAdminBool decoded = Returns b /\
    r' = attached r decoded uid t ro b.
Proof.
  intro H.
  destruct (AuthFacts.verifyAndAttach_success env jwt_verify _ _ H)
    as (token & decoded & uid & t & ro & b
        & _ & _ & _ & _ & _ & Hty & _ & Hb & ->).
  exists decoded, uid, t, ro, b. auto.
Qed.

(** X5.  A successful resolution keeps headers, cookies and body, attaches a
    user id, lower-case account type and role, and an isAdmin flag that is
    set whenever the account type is admin or staff. *)
Theorem attached_identity (r r' : Request) :
  verifyAndAttach r = (r', None) ->
  headers r' = headers r /\ cookies r' = cookies r /\ body r' = body r /\
  (exists uid, userId r' = Some uid) /\
  toLowerCase (orEmpty (userType r')) = orEmpty (userType r') /\
  toLowerCase (orEmpty (role r')) = orEmpty (role r') /\
  (exists b, isAdmin r' = Some b) /\
  ((userType r' = Some "admin" \/ userType r' = Some "staff") ->
   isAdmin r' = Some true).
Proof.
  intro H.
  pose proof (AuthFacts.attached_userType_lower env jwt_verify _ _ H) as Lt.
  pose proof (AuthFacts.attached_role_lower env jwt_verify _ _ H) as Lr.
  destruct (verifyAndAttach_attached _ _ H)
    as (d & uid & t & ro & b & Hty & Hb & E).
  rewrite E in *. simpl in *.
  split; [reflexivity|]. split; [reflexivity|]. split; [reflexivity|].
  split; [eauto|]. split; [exact Lt|]. split; [exact Lr|].
  split; [eauto|].
  intros Hu. f_equal.
  rewrite (AuthFacts.getIsAdminBool_returns d t Hty) in Hb.
  injection Hb as <-.
  destruct Hu as [[= ->] | [= ->]]; simpl; now rewrite !orb_true_r.
Qed.

(** X6.  Who passes [requireAdmin]: exactly the identities whose isAdmin flag
    is set (which covers the admin and staff account types) or whose role
    is super_admin or admin; the others get 403 "Admin access required". *)
Theorem requireAdmin_iff (r r' : Request) :
  verifyAndAttach r = (r', None) ->
  (allows (snd (requireAdmin r)) = true <->
   isAdmin r' = Some true \/ role r' = Some "super_admin"
   \/ role r' = Some "admin") /\
  (allows (snd (requireAdmin r)) = false ->
   requireAdmin r = (r', Sent (failure 403 "Admin access required"))).
Proof.
  intro H.
  destruct (attached_identity _ _ H)
    as (_ & _ & _ & _ & Lt & Lr & [b Hb] & Hadm).
  unfold Auth.requireAdmin. rewrite H, Lt, Lr, Hb.
  assert (includes ["super_admin"; "admin"] (orEmpty (role r')) = true <->
          role r' = Some "super_admin" \/ role r' = Some "admin") as Hrole.
  { rewrite includes_In. simpl. destruct (role r') as [ro|]; simpl.
    - split; [intros [<- | [<- | []]]; auto | intros [[= ->] | [= ->]]; auto].
    - split; [intros [E | [E | []]]; discriminate | intros [E | E]; discriminate]. }
  destruct (includes ["super_admin"; "admin"] (orEmpty (role r'))) eqn:Hi.
  - cbn [negb andb snd allows]. rewrite andb_false_r. simpl.
    split; [|discriminate].
    split; [intros _; right; now apply Hrole | reflexivity].
  - destruct (String.eqb (orEmpty (userType r')) "admin"
              || String.eqb (orEmpty (userType r')) "staff") eqn:Ht.
    + assert (b = true) as ->.
      { apply orb_prop in Ht.
        assert (Some b = Some true) as [= ->]; [|reflexivity].
        rewrite <- Hb. apply Hadm.
        destruct (userType r') as [t|]; simpl in Ht;
          destruct Ht as [E | E]; try discriminate E;
          apply String.eqb_eq in E; subst; auto. }
      simpl. split; [split; auto | discriminate].
    + destruct b; simpl.
      * split; [split; auto | discriminate].
      * split; [|reflexivity]. split; [discriminate|].
        intros [E | E]; [discriminate|]. apply Hrole in E. discriminate.
Qed.

(** X7.  The guards are nested: whoever passes [requirePermission] passes
    [requireAdmin], whoever passes [requireSellerOrAgent] passes
    [requireBuyer], and whoever passes any guard passes
    [authenticateToken]; every guard hands on the same request. *)
Theorem guard_hierarchy (r : Request) :
  (forall name, allows (snd (requirePermission name r)) = true ->
     allows (snd (requireAdmin r)) = true) /\
  (allows (snd (requireSellerOrAgent r)) = true ->
   allows (snd (requireBuyer r)) = true) /\
  (forall name,
     allows (snd (requireAdmin r)) = true \/
     allows (snd (requireSellerOrAgent r)) = true \/
     allows (snd (requireBuyer r)) = true \/
     allows (snd (requirePermission name r)) = true ->
     allows (snd (authenticateToken r)) = true) /\
  (forall name,
     fst (requireAdmin r) = fst (authenticateToken r) /\
     fst (requireSellerOrAgent r) = fst (authenticateToken r) /\
     fst (requireBuyer r) = fst (authenticateToken r) /\
     fst (requirePermission name r) = fst (authenticateToken r)).
Proof.
  destruct (verifyAndAttach r) as [r' [resp|]] eqn:H.
  - destruct (failed_guards _ _ _ H) as (Ha & Hb & Hc & Hd & He).
    rewrite Ha, Hb, Hc, Hd. simpl.
    repeat split; try (intros; rewrite ?He in *; simpl in *; intuition discriminate).
    all: intros; rewrite He; reflexivity.
  - pose proof (AuthFacts.attached_userType_lower env jwt_verify _ _ H) as Lt.
    pose proof (AuthFacts.attached_role_lower env jwt_verify _ _ H) as Lr.
    assert (authenticateToken r = (r', CalledNext)) as Hauth.
    { unfold Auth.authenticateToken. now rewrite H. }
    assert (forall name, fst (requirePermission name r) = r') as Hperm.
    { intro name.
      rewrite (AuthFacts.requirePermission_ok env jwt_verify name _ _ H).
      cbv zeta.
      repeat match goal with
             | |- context [if ?b then _ else _] => destruct b
             | |- context [match ?x with _ => _ end] => destruct x
             end; reflexivity. }
    split; [|split; [|split]].
    + intro name.
      rewrite (AuthFacts.requirePermission_ok env jwt_verify name _ _ H).
      cbv zeta. unfold Auth.requireAdmin. rewrite H, Lt, Lr.
      destruct (String.eqb (orEmpty (userType r')) "admin");
        [intros _; reflexivity|].
      destruct (String.eqb (orEmpty (userType r')) "staff");
        [intros _; reflexivity|].
      simpl. discriminate.
    + unfold Auth.requireSellerOrAgent, Auth.requireBuyer. rewrite H, Lt.
      destruct (includes ["seller"; "agent"; "admin"; "staff"]
                  (orEmpty (userType r'))) eqn:Hs; [|simpl; discriminate].
      intros _. apply includes_In in Hs.
      assert (includes
                ["seller"; "user"; "agent"; "customer"; "admin"; "staff"]
                (orEmpty (userType r')) = true) as ->; [|reflexivity].
      apply includes_In. simpl in *. intuition.
    + intros _ _. rewrite Hauth. reflexivity.
    + intro name. rewrite Hauth, Hperm.
      unfold Auth.requireAdmin, Auth.requireSellerOrAgent, Auth.requireBuyer.
      rewrite H.
      repeat match goal with
             | |- context [if ?b then _ else _] => destruct b
             end; auto.
Qed.

Lemma orEmpty_eq (o : option string) (s : string) :
  nonEmpty s = true -> orEmpty o = s -> o = Some s.
Proof. destruct o; simpl; intros Hn E; subst; [reflexivity | discriminate]. Qed.

(** X8.  The wildcard: staff with role super_admin is allowed every permission
    name, and only the admin account type and super_admin staff are ever
    allowed the permission named "*". *)
Theorem wildcard_permission (r r' : Request) :
  verifyAndAttach r = (r', None) ->
  (userType r' = Some "staff" -> role r' = Some "super_admin" ->
   forall name, requirePermission name r = (r', CalledNext)) /\
  (allows (snd (requirePermission "*" r)) = true ->
   userType r' = Some "admin" \/
   (userType r' = Some "staff" /\ role r' = Some "super_admin")).
Proof.
  intro H. split.
  - intros Hu Hr name.
    rewrite (AuthFacts.requirePermission_staff env jwt_verify _ _ _ H Hu), Hr.
    reflexivity.
  - rewrite (AuthFacts.requirePermission_ok env jwt_verify _ _ _ H). cbv zeta.
    destruct (String.eqb_spec (orEmpty (userType r')) "admin") as [Ea|_].
    { intros _. left. now apply orEmpty_eq. }
    destruct (String.eqb_spec (orEmpty (userType r')) "staff") as [Es|_];
      [|discriminate].
    unfold lookupPerms, rolePermissions. cbn [assoc].
    destruct (String.eqb_spec (orEmpty (role r')) "super_admin") as [Er|_].
    { intros _. right. split; now apply orEmpty_eq. }
    repeat match goal with
           | |- context [String.eqb ?a ?b] =>
               destruct (String.eqb a b); [discriminate|]
           end.
    destruct (includes objectPrototypeKeys (orEmpty (role r')));
      discriminate.
Qed.

End Resolver.
End AuthExtra.

(* ===================================================================== *)
(** ** Further properties of the quota gate and the settings              *)
(* ===================================================================== *)

Module QuotaExtra.
Import JS Mongo.
Import Auth(Request, Response, mkResponse, failure).

Lemma countOf_app (f : Property -> bool) (w : World) (s : option Settings)
  (n c : Z) (t : list Op) (p : Property) :
  countOf f (mkWorld (mkDb s (properties (db w) ++ [p]) n) c t)
  = countOf f w + (if f p then 1 else 0).
Proof.
  unfold countOf. simpl.
  rewrite filter_app, length_app, Nat2Z.inj_add. simpl.
  destruct (f p); reflexivity.
Qed.

Lemma countOf_nonneg (f : Property -> bool) (w : World) : 0 <= countOf f w.
Proof. unfold countOf. lia. Qed.

(** X9.  A longer window never counts fewer listings, in the check-limit
    endpoint and in the creation gate alike. *)
Theorem longer_window_counts_more (uid : string) (start start' : Z)
  (w : World) :
  start' <= start ->
  countOf (FreeAds.freePostFilter uid start) w
    <= countOf (FreeAds.freePostFilter uid start') w /\
  countOf (Properties.freePostFilter uid start) w
    <= countOf (Properties.freePostFilter uid start') w.
Proof.
  intro Hle. split; apply QuotaFacts.countOf_mono; intros p;
    unfold FreeAds.freePostFilter, Properties.freePostFilter;
    rewrite !andb_true_iff, !Z.leb_le; intuition lia.
Qed.

(** X10.  A package id that is not a string, or is only white space, counts as
    no package id; one that is accepted is non-empty and trimmed. *)
Theorem packageId_is_normalised (b : object) :
  (forall pk, Properties.packageIdOf b = Some pk ->
     nonEmpty pk = true /\ trim pk = pk /\
     exists s, prop b "packageId" = JStr s /\ pk = trim s) /\
  (forall s, prop b "packageId" = JStr s -> trim s = "" ->
     Properties.packageIdOf b = None) /\
  ((forall s, prop b "packageId" <> JStr s) ->
   Properties.packageIdOf b = None).
Proof.
  unfold Properties.packageIdOf. split; [|split].
  - intros pk. destruct (prop b "packageId"); try discriminate.
    destruct (nonEmpty (trim s)) eqn:Hn; [|discriminate].
    intros [= <-]. split; [exact Hn|].
    split; [apply StringFacts.trim_idem | eauto].
  - intros s -> E. now rewrite E.
  - intro H. destruct (prop b "packageId"); try reflexivity.
    now destruct (H s).
Qed.

Section Gate.

Variable setDateBack : Z -> Z -> Z.
Variable JSON_parse : string -> option jsval.
Variable FREE_POST_LIMIT : option Z.
Variable FREE_POST_PERIOD_DAYS : option Z.
Variable submittedMessage : string.

Local Abbreviation checkUserFreeAdLimit :=
  (FreeAds.checkUserFreeAdLimit setDateBack).
Local Abbreviation createProperty :=
  (Properties.createProperty JSON_parse FREE_POST_LIMIT FREE_POST_PERIOD_DAYS
     submittedMessage).
Local Abbreviation formThrows := (Properties.formThrows JSON_parse).
Local Abbreviation fallbackSettings :=
  (Properties.fallbackSettings FREE_POST_LIMIT FREE_POST_PERIOD_DAYS).
Local Abbreviation usedAtCheck := (FreeAds.usedAtCheck setDateBack).
Local Abbreviation usedAtCreate := Properties.usedAtCreate.
Local Abbreviation checkLimit_run := (QuotaFacts.checkLimit_run setDateBack).
Local Abbreviation create_run :=
  (QuotaFacts.create_run JSON_parse FREE_POST_LIMIT FREE_POST_PERIOD_DAYS
     submittedMessage).
Local Abbreviation create_throws :=
  (QuotaFacts.create_throws JSON_parse FREE_POST_LIMIT FREE_POST_PERIOD_DAYS
     submittedMessage).
Local Abbreviation create_cases :=
  (QuotaFacts.create_cases JSON_parse FREE_POST_LIMIT FREE_POST_PERIOD_DAYS
     submittedMessage).

(** An answer 201 comes from a form that was converted. *)
Lemma created_form_converts (r : Request) (w : World) (uid : string) :
  Auth.userId r = Some uid ->
  nonEmpty uid = true ->
  Auth.status (fst (createProperty r w)) = 201 ->
  formThrows (Auth.body r) = false.
Proof.
  intros Hu Hn Hst. destruct (formThrows (Auth.body r)) eqn:Hf;
    [|reflexivity].
  rewrite (create_throws r w uid Hu Hn Hf) in Hst. discriminate.
Qed.

(** X11.  The check-limit endpoint only reads: the store and the clock are as
    before, its answer depends on them alone, and asking again gives the
    same answer. *)
Theorem checkLimit_is_read_only (r : Request) (w : World) :
  db (snd (checkUserFreeAdLimit r w)) = db w /\
  clock (snd (checkUserFreeAdLimit r w)) = clock w /\
  (forall w2, db w2 = db w -> clock w2 = clock w ->
     fst (checkUserFreeAdLimit r w2) = fst (checkUserFreeAdLimit r w)) /\
  fst (checkUserFreeAdLimit r (snd (checkUserFreeAdLimit r w)))
    = fst (checkUserFreeAdLimit r w).
Proof.
  assert (forall w1 w2, db w2 = db w1 -> clock w2 = clock w1 ->
            fst (checkUserFreeAdLimit r w2) = fst (checkUserFreeAdLimit r w1))
    as Hdep.
  { intros w1 w2 Hd Hc. rewrite !checkLimit_run.
    unfold FreeAds.settingsOr, FreeAds.usedAtCheck, countOf.
    rewrite Hd, Hc.
    destruct (isActive _); reflexivity. }
  assert (db (snd (checkUserFreeAdLimit r w)) = db w /\
          clock (snd (checkUserFreeAdLimit r w)) = clock w) as [Hd Hc].
  { rewrite checkLimit_run. destruct (isActive _); auto. }
  repeat split; auto.
Qed.

(** X12.  The numbers of an answer of the enabled check-limit endpoint: used and
    remaining are never negative, remaining never exceeds a non-negative
    limit, used and remaining add up to the limit while the limit is not
    exceeded, and canPostFree holds exactly when used is below the limit. *)
Theorem checkLimit_numbers (r : Request) (w : World) :
  let s := FreeAds.settingsOr FreeAds.DEFAULT_SETTINGS w in
  let used := usedAtCheck r s w in
  let resp := fst (checkUserFreeAdLimit r w) in
  isActive s = true ->
  exists remaining,
    FreeAds.dataField resp "remaining" = JNum remaining /\
    FreeAds.dataField resp "used" = JNum used /\
    FreeAds.dataField resp "limit" = JNum (maxFreeAdsPerMonth s) /\
    0 <= used /\ 0 <= remaining /\
    (0 <= maxFreeAdsPerMonth s -> remaining <= maxFreeAdsPerMonth s) /\
    (used <= maxFreeAdsPerMonth s ->
     used + remaining = maxFreeAdsPerMonth s) /\
    (FreeAds.dataField resp "canPostFree" = JBool true
     <-> used < maxFreeAdsPerMonth s).
Proof.
  intros s used resp Ha. subst resp.
  rewrite checkLimit_run. fold s. fold used. rewrite Ha.
  exists (Z.max 0 (maxFreeAdsPerMonth s - used)).
  pose proof (countOf_nonneg
    (FreeAds.freePostFilter (FreeAds.userIdString r)
       (setDateBack (clock w) (numberOfDays s))) w) as Hu.
  change (0 <= used) in Hu.
  unfold FreeAds.dataField. simpl.
  repeat split; try lia.
  - intro E.
    change (JBool (0 <? Z.max 0 (maxFreeAdsPerMonth s - used)) = JBool true)
      in E.
    injection E as E. apply Z.ltb_lt in E. lia.
  - intro E.
    change (JBool (0 <? Z.max 0 (maxFreeAdsPerMonth s - used)) = JBool true).
    f_equal. apply Z.ltb_lt. lia.
Qed.


Lemma usedAtCheck_le_usedAtCreate (r : Request) (uid : string)
  (s : Settings) (w : World) :
  Auth.userId r = Some uid ->
  setDateBack (clock w) (numberOfDays s)
    = clock w - numberOfDays s * FreeAds.msPerDay ->
  usedAtCheck r s w <= usedAtCreate uid s w.
Proof.
  intros Hu Hw. unfold FreeAds.usedAtCheck, Properties.usedAtCreate.
  rewrite Hw. unfold FreeAds.userIdString. rewrite Hu.
  apply QuotaFacts.countOf_mono. intros p.
  unfold FreeAds.freePostFilter, Properties.freePostFilter.
  rewrite !andb_true_iff, !orb_true_iff. intuition.
Qed.

(** X14.  Whenever the creation gate accepts a request without a package, the
    check-limit endpoint asked at the same instant by the same user, under
    the same stored settings and a window of whole 24-hour days, reports
    canPostFree. *)
Theorem accepted_creation_was_announced (r : Request) (w : World)
  (uid : string) (s : Settings) :
  Auth.userId r = Some uid ->
  nonEmpty uid = true ->
  Properties.packageIdOf (Auth.body r) = None ->
  free_ad_settings (db w) = Some s ->
  isActive s = true ->
  setDateBack (clock w) (numberOfDays s)
    = clock w - numberOfDays s * FreeAds.msPerDay ->
  Auth.status (fst (createProperty r w)) = 201 ->
  FreeAds.dataField (fst (checkUserFreeAdLimit r w)) "canPostFree"
    = JBool true.
Proof.
  intros Hu Hn Hp Hs Ha Hw Hst.
  pose proof (usedAtCheck_le_usedAtCreate r uid s w Hu Hw) as Hle.
  pose proof (created_form_converts r w uid Hu Hn Hst) as Hf.
  revert Hst.
  rewrite (create_run r w uid Hu Hn Hf), checkLimit_run.
  unfold FreeAds.settingsOr. rewrite Hs, Ha.
  rewrite QuotaFacts.packageId_data, Hp. simpl.
  destruct (maxFreeAdsPerMonth s <=? usedAtCreate uid s w) eqn:Hm;
    [discriminate|].
  intros _. apply Z.leb_gt in Hm.
  change (JBool (0 <? Z.max 0 (maxFreeAdsPerMonth s - usedAtCheck r s w))
          = JBool true).
  f_equal. apply Z.ltb_lt. lia.
Qed.

(** X15.  What a created listing costs at the check-limit endpoint: after an
    accepted creation the user's count there is one higher when the
    request had no package id and unchanged when it had one. *)
Theorem creation_consumes_free_quota (r : Request) (w : World)
  (uid : string) (s : Settings) :
  Auth.userId r = Some uid ->
  nonEmpty uid = true ->
  Auth.status (fst (createProperty r w)) = 201 ->
  setDateBack (clock w) (numberOfDays s) <= clock w ->
  usedAtCheck r s (snd (createProperty r w))
    = usedAtCheck r s w
      + (if Properties.isSome (Properties.packageIdOf (Auth.body r))
         then 0 else 1).
Proof.
  intros Hu Hn Hst Hw.
  assert (
    FreeAds.freePostFilter (FreeAds.userIdString r)
      (setDateBack (clock w) (numberOfDays s))
      (Properties.propertyData r uid (clock w))
    = negb (Properties.isSome (Properties.packageIdOf (Auth.body r))))
    as Hnew.
  { unfold FreeAds.freePostFilter, FreeAds.userIdString. rewrite Hu.
    rewrite QuotaFacts.packageId_data.
    unfold Properties.propertyData at 1 2 3. simpl.
    rewrite String.eqb_refl.
    assert ((setDateBack (clock w) (numberOfDays s) <=? clock w) = true)
      as -> by (now apply Z.leb_le).
    reflexivity. }
  pose proof (created_form_converts r w uid Hu Hn Hst) as Hf.
  revert Hst. rewrite (create_run r w uid Hu Hn Hf).
  unfold FreeAds.usedAtCheck.
  repeat match goal with
         | |- context [if ?b then _ else _] =>
             lazymatch b with
             | Properties.isSome _ => fail
             | _ => destruct b
             end
         end; cbn [fst snd clock Auth.status Properties.limitReached];
    try discriminate; intros _;
    rewrite countOf_app, Hnew;
    destruct (Properties.isSome _); reflexivity.
Qed.

(** X16.  The settings endpoint creates the singleton once: after a call the
    stored settings are the ones it reported (the defaults 2 / 30 / active
    when there were none), stored settings are never overwritten, the
    listings are untouched, and a second call writes nothing and reports
    the same. *)
Theorem getSettings_initialises_once (r : Request) (w : World) :
  let s := FreeAds.settingsOr FreeAds.DEFAULT_SETTINGS w in
  let w1 := snd (FreeAds.getSettings r w) in
  free_ad_settings (db w1) = Some s /\
  properties (db w1) = properties (db w) /\
  FreeAds.dataField (fst (FreeAds.getSettings r w)) "maxFreeAdsPerMonth"
    = JNum (maxFreeAdsPerMonth s) /\
  FreeAds.dataField (fst (FreeAds.getSettings r w)) "numberOfDays"
    = JNum (numberOfDays s) /\
  FreeAds.dataField (fst (FreeAds.getSettings r w)) "isActive"
    = JBool (isActive s) /\
  fst (FreeAds.getSettings r w1) = fst (FreeAds.getSettings r w) /\
  db (snd (FreeAds.getSettings r w1)) = db w1 /\
  existsb isSettingsWrite (issued w1 (snd (FreeAds.getSettings r w1)))
    = false.
Proof.
  unfold FreeAds.getSettings, FreeAds.settingsOr, bind, findSettings,
    insertSettings, ret, log, FreeAds.dataField.
  destruct w as [[st ps n] c t]. simpl.
  destruct st as [s|]; simpl; rewrite QuotaFacts.issued_mk;
    repeat split; reflexivity.
Qed.

Lemma createProperty_depends (r : Request) (w1 w2 : World) :
  db w1 = db w2 -> clock w1 = clock w2 ->
  fst (createProperty r w1) = fst (createProperty r w2).
Proof.
  intros Hd Hc.
  destruct (create_cases r) as [(resp & _ & E) | (uid & Hu & Hn & Hf)].
  - now rewrite !E.
  - rewrite !(create_run r _ uid Hu Hn Hf).
    unfold FreeAds.settingsOr, Properties.usedAtCreate, countOf.
    rewrite Hd, Hc.
    repeat match goal with
           | |- context [if ?b then _ else _] => destruct b
           end; reflexivity.
Qed.

Lemma getSettings_world (r0 : Request) (w : World) :
  db (snd (FreeAds.getSettings r0 w))
    = db (withSettings (FreeAds.settingsOr FreeAds.DEFAULT_SETTINGS w) w) /\
  clock (snd (FreeAds.getSettings r0 w)) = clock w.
Proof.
  unfold FreeAds.getSettings, FreeAds.settingsOr, bind, findSettings,
    insertSettings, ret, log, withSettings.
  destruct w as [[st ps n] c t]. simpl. destruct st; simpl; auto.
Qed.

(** X17.  Reading the settings never changes what the check-limit endpoint
    answers, nor what the creation gate answers when settings were stored.
    When there was no settings document the creation gate is affected: after
    the read it decides with the persisted defaults (limit 2, 30 days) and
    no longer with its own fallback. *)
Theorem settings_read_and_decisions (r0 r : Request) (w : World) :
  let w1 := snd (FreeAds.getSettings r0 w) in
  fst (checkUserFreeAdLimit r w1) = fst (checkUserFreeAdLimit r w) /\
  (forall s, free_ad_settings (db w) = Some s ->
     fst (createProperty r w1) = fst (createProperty r w)) /\
  (free_ad_settings (db w) = None ->
   fst (createProperty r w1)
     = fst (createProperty r (withSettings FreeAds.DEFAULT_SETTINGS w))).
Proof.
  intro w1. subst w1. destruct (getSettings_world r0 w) as [Hd Hc].
  split; [|split].
  - rewrite !checkLimit_run.
    unfold FreeAds.settingsOr, FreeAds.usedAtCheck, countOf.
    rewrite Hd, Hc. unfold withSettings, FreeAds.settingsOr. simpl.
    destruct (free_ad_settings (db w)) as [s|];
      destruct (isActive _); reflexivity.
  - intros s Hs. apply createProperty_depends; [|exact Hc].
    rewrite Hd. unfold withSettings, FreeAds.settingsOr. rewrite Hs.
    destruct w as [[st ps n] c t]. simpl in *. now subst.
  - intros Hs. apply createProperty_depends; [|exact Hc].
    rewrite Hd. unfold FreeAds.settingsOr. now rewrite Hs.
Qed.

End Gate.
End QuotaExtra.

(* ===================================================================== *)
(** ** Properties of the slug and property-type helpers                   *)
(* ===================================================================== *)

Module HelperFacts.
Import JS Helpers.

Lemma normSlug_string (s : string) :
  normSlug (JStr s) = toLowerCase (trim s).
Proof. unfold normSlug, or_. simpl. now destruct s. Qed.

Lemma norm_string (s : string) : norm (JStr s) = toLowerCase (trim s).
Proof. reflexivity. Qed.

Lemma lower_trim_fixed (s : string) :
  toLowerCase (trim (toLowerCase (trim s))) = toLowerCase (trim s).
Proof.
  now rewrite StringFacts.trim_lower, StringFacts.trim_idem,
    AuthFacts.toLowerCase_idem.
Qed.

(** X18.  [normSlug] gives a lower-case string without white space at either
    end, and normalising again changes nothing. *)
Theorem normSlug_idempotent (v : jsval) :
  normSlug (JStr (normSlug v)) = normSlug v /\
  toLowerCase (normSlug v) = normSlug v /\
  trim (normSlug v) = normSlug v.
Proof.
  rewrite normSlug_string. unfold normSlug.
  split; [apply lower_trim_fixed|].
  split; [apply AuthFacts.toLowerCase_idem|].
  now rewrite StringFacts.trim_lower, StringFacts.trim_idem.
Qed.

Lemma own_alias_is_canonical (k v : string) :
  assoc k TYPE_ALIASES = Some v ->
  normSlug (JStr v) = v /\ resolveAlias TYPE_ALIASES v = TypeName v.
Proof.
  unfold TYPE_ALIASES. cbn [assoc].
  repeat match goal with
         | |- context [String.eqb k ?a] => destruct (String.eqb k a)
         end; intros [= <-]; split; reflexivity.
Qed.

(** X19.  Alias resolution is done in one step: the stored property type of any
    form value is a fixed point of the normalisation. *)
Theorem propertyType_normalisation_idempotent (b : object) (t : string) :
  normalizedPropertyType b = TypeName t ->
  normalizedPropertyType [("propertyType", JStr t)] = TypeName t.
Proof.
  unfold normalizedPropertyType, resolveAlias, slot.
  change (prop [("propertyType", JStr t)] "propertyType") with (JStr t).
  set (k := normSlug (prop b "propertyType")).
  destruct (assoc k TYPE_ALIASES) as [v|] eqn:Ha.
  - intros [= <-]. destruct (own_alias_is_canonical k v Ha) as [E1 E2].
    rewrite E1. exact E2.
  - destruct (includes Auth.objectPrototypeKeys k) eqn:Hi; [discriminate|].
    intros [= <-].
    assert (normSlug (JStr k) = k) as ->
      by (apply (normSlug_idempotent (prop b "propertyType"))).
    now rewrite Ha, Hi.
Qed.

(** X20.  Creation and query normalise alike: for any text sent as property
    type the query filters on the value creation stores, and a category
    page named by an alias filters on the value stored for that alias. *)
Theorem query_matches_stored_type (s : string) :
  queryPropertyType [("propertyType", JStr s)]
    = normalizedPropertyType [("propertyType", JStr s)] /\
  (forall v, assoc (normSlug (JStr s)) TYPE_ALIASES = Some v ->
     queryPropertyType [("category", JStr s)]
       = normalizedPropertyType [("propertyType", JStr s)]).
Proof.
  split.
  - unfold queryPropertyType, normalizedPropertyType.
    change (prop [("propertyType", JStr s)] "category") with JUndefined.
    change (prop [("propertyType", JStr s)] "propertyType") with (JStr s).
    rewrite normSlug_string, norm_string.
    change (nonEmpty (norm JUndefined)) with false.
    rewrite andb_false_r.
    destruct (nonEmpty (toLowerCase (trim s))) eqn:Hn; [reflexivity|].
    apply QuotaFacts.nonEmpty_false in Hn. rewrite Hn. reflexivity.
  - intros v Ha. unfold queryPropertyType, normalizedPropertyType.
    change (prop [("category", JStr s)] "category") with (JStr s).
    change (prop [("category", JStr s)] "propertyType") with JUndefined.
    change (prop [("propertyType", JStr s)] "propertyType") with (JStr s).
    rewrite normSlug_string in *. rewrite norm_string.
    change (norm JUndefined) with "".
    destruct (own_alias_is_canonical _ v Ha) as [_ E].
    assert (nonEmpty (toLowerCase (trim s)) = true) as Hk.
    { destruct (toLowerCase (trim s)); [discriminate Ha | reflexivity]. }
    assert (nonEmpty v = true) as Hv.
    { revert Ha. unfold TYPE_ALIASES. cbn [assoc].
      repeat match goal with
             | |- context [String.eqb ?k ?a] => destruct (String.eqb k a)
             end; intros [= <-]; reflexivity. }
    rewrite Hk. change (nonEmpty "") with false. cbn [negb andb].
    unfold slot. change QUERY_TYPE_ALIASES with TYPE_ALIASES.
    rewrite Ha, Hv, E.
    unfold resolveAlias, slot. now rewrite Ha.
Qed.

End HelperFacts.

(* ===================================================================== *)
(** ** Properties of the listing feeds                                    *)
(* ===================================================================== *)

Module FeedFacts.
Import JS Mongo Feeds.
Import Auth(Request, Response, mkResponse, failure).

Lemma firstn_In (A : Type) (n : nat) (l : list A) (x : A) :
  In x (firstn n l) -> In x l.
Proof.
  revert l. induction n as [|n IH]; intros [|a l]; simpl; try tauto.
  intros [-> | H]; auto.
Qed.

Lemma insertDesc_In (p q : Property) (l : list Property) :
  In q (MoreFixtures.insertDesc p l) <-> q = p \/ In q l.
Proof.
  induction l as [|a l IH]; simpl.
  - intuition.
  - destruct (createdAt a <=? createdAt p); simpl; rewrite ?IH; intuition.
Qed.

(** The example order keeps exactly the documents it is given. *)
Lemma sortDesc_members (l : list Property) (p : Property) :
  In p (MoreFixtures.sortDesc l) <-> In p l.
Proof.
  induction l as [|a l IH]; simpl; [tauto|].
  rewrite insertDesc_In, IH. intuition.
Qed.

Section Sorted.

Variable sortByCreatedAtDesc : list Property -> list Property.
Hypothesis sort_members :
  forall l p, In p (sortByCreatedAtDesc l) <-> In p l.

Variable JSON_parse : string -> option jsval.
Variable FREE_POST_LIMIT : option Z.
Variable FREE_POST_PERIOD_DAYS : option Z.
Variable submittedMessage : string.

Local Abbreviation createProperty :=
  (Properties.createProperty JSON_parse FREE_POST_LIMIT FREE_POST_PERIOD_DAYS
     submittedMessage).
Local Abbreviation getFeaturedProperties :=
  (getFeaturedProperties sortByCreatedAtDesc).
Local Abbreviation getUserProperties :=
  (getUserProperties sortByCreatedAtDesc).
Local Abbreviation getPendingProperties :=
  (getPendingProperties sortByCreatedAtDesc).

(** X21.  The featured feed holds at most ten listings, all of them stored,
    active, featured and approved. *)
Theorem featured_feed_is_moderated (d : Db) (ps : list Property) :
  getFeaturedProperties d = FeedData ps ->
  (length ps <= 10)%nat /\
  forall p, In p ps ->
    In p (properties d) /\ status p = "active" /\ featured p = true /\
    approvalStatus p = "approved".
Proof.
  unfold Feeds.getFeaturedProperties. intro H.
  assert (ps = firstn 10
                 (sortByCreatedAtDesc (filter isFeatured (properties d))))
    as -> by (injection H; auto).
  clear H. split.
  - apply firstn_le_length.
  - intros p Hp. apply firstn_In, sort_members, filter_In in Hp.
    destruct Hp as [Hin Hf]. unfold isFeatured in Hf.
    apply andb_prop in Hf as [Hf Ha]. apply andb_prop in Hf as [Hs Hf].
    apply String.eqb_eq in Hs, Ha. apply Bool.eqb_prop in Hf. auto.
Qed.

(** X22.  The owner's list is the 401 for an unauthenticated request, and
    otherwise holds exactly the stored listings whose owner is the
    requester. *)
Theorem user_feed_is_own_listings (r : Request) (d : Db) :
  ((Auth.userId r = None \/ Auth.userId r = Some "") ->
   getUserProperties r d = FeedError (failure 401 "User not authenticated"))
  /\
  (forall uid, Auth.userId r = Some uid -> nonEmpty uid = true ->
     exists ps, getUserProperties r d = FeedData ps /\
       forall p, In p ps <-> In p (properties d) /\ ownerId p = uid).
Proof.
  unfold Feeds.getUserProperties. split.
  - now intros [-> | ->].
  - intros uid -> ->. simpl. eexists. split; [reflexivity|].
    intro p. rewrite sort_members, filter_In. unfold ownedBy.
    now rewrite String.eqb_eq.
Qed.

(** X23.  A listing just created waits for moderation: it is in the pending
    queue and in its owner's list, and the featured feed is the same as
    before the creation. *)
Theorem new_listing_awaits_moderation (r : Request) (w : World)
  (uid : string) :
  Auth.userId r = Some uid ->
  nonEmpty uid = true ->
  Auth.status (fst (createProperty r w)) = 201 ->
  let d' := db (snd (createProperty r w)) in
  let p := Properties.propertyData r uid (clock w) in
  getFeaturedProperties d' = getFeaturedProperties (db w) /\
  (exists ps, getPendingProperties d' = FeedData ps /\ In p ps) /\
  (exists ps, getUserProperties r d' = FeedData ps /\ In p ps).
Proof.
  intros Hu Hn Hst d' p.
  assert (properties d' = (properties (db w) ++ [p])%list) as Hp.
  { subst d' p.
    pose proof (QuotaExtra.created_form_converts JSON_parse FREE_POST_LIMIT
                  FREE_POST_PERIOD_DAYS submittedMessage r w uid Hu Hn Hst)
      as Hf.
    revert Hst.
    rewrite (QuotaFacts.create_run JSON_parse FREE_POST_LIMIT
               FREE_POST_PERIOD_DAYS submittedMessage r w uid Hu Hn Hf).
    repeat match goal with
           | |- context [if ?b then _ else _] => destruct b
           end; simpl; intro; try discriminate; reflexivity. }
  assert (isFeatured p = false) as Hs by reflexivity.
  split; [|split].
  - unfold Feeds.getFeaturedProperties. rewrite Hp, filter_app.
    cbn [filter]. rewrite Hs. now rewrite app_nil_r.
  - unfold Feeds.getPendingProperties. eexists. split; [reflexivity|].
    apply sort_members, filter_In. rewrite Hp. split.
    + apply in_or_app. right. now left.
    + subst p. unfold isPending, Properties.propertyData. simpl.
      now destruct (Properties.packageIdOf (Auth.body r)).
  - unfold Feeds.getUserProperties. rewrite Hu, Hn. simpl.
    eexists. split; [reflexivity|].
    apply sort_members, filter_In. rewrite Hp. split.
    + apply in_or_app. right. now left.
    + subst p. unfold ownedBy. simpl. apply String.eqb_refl.
Qed.

End Sorted.
End FeedFacts.

(* ===================================================================== *)
(** ** Properties of blog slugs and post creation                         *)
(* ===================================================================== *)

Module BlogFacts.
Import JS Blog Text.
Import Auth(Request, Response, mkResponse, failure).

Lemma isHyphen_eq (c : ascii) : isHyphen c = true -> c = "-"%char.
Proof.
  destruct c as [[] [] [] [] [] [] [] []]; try discriminate; reflexivity.
Qed.

Lemma slugChar_lower (c : ascii) : isSlugChar c = true -> lowerChar c = c.
Proof.
  destruct c as [[] [] [] [] [] [] [] []]; try discriminate; reflexivity.
Qed.

Lemma slugChar_not_white (c : ascii) :
  isSlugChar c = true -> isWhite c = false.
Proof.
  destruct c as [[] [] [] [] [] [] [] []]; try discriminate; reflexivity.
Qed.

Lemma slugChar_input (c : ascii) :
  isSlugChar c = true -> isSlugInput c = true.
Proof.
  unfold isSlugChar, isSlugInput.
  destruct (isLowerAlnum c), (isHyphen c), (isWhite c); auto.
Qed.

Lemma input_not_white (c : ascii) :
  isSlugInput c = true -> isWhite c = false -> isSlugChar c = true.
Proof.
  unfold isSlugChar, isSlugInput. intros H W. rewrite W in H.
  destruct (isLowerAlnum c), (isHyphen c); auto.
Qed.

Lemma allChars_keep (p : ascii -> bool) (s : string) :
  allChars p (keepChars p s) = true.
Proof.
  induction s as [|c s IH]; simpl; [reflexivity|].
  destruct (p c) eqn:E; simpl; [now rewrite E|exact IH].
Qed.

Lemma allChars_impl (p q : ascii -> bool) (s : string) :
  (forall c, p c = true -> q c = true) ->
  allChars p s = true -> allChars q s = true.
Proof.
  intro H. induction s as [|c s IH]; simpl; [reflexivity|].
  intro E. apply andb_prop in E as [E1 E2]. now rewrite (H c E1), IH.
Qed.

Lemma replaceRuns_cons (p : ascii -> bool) (c : ascii) (s : string) :
  replaceRuns p (String c s)
  = if p c then
      match s with
      | String c' _ =>
          if p c' then replaceRuns p s else String "-" (replaceRuns p s)
      | EmptyString => String "-" EmptyString
      end
    else String c (replaceRuns p s).
Proof. destruct s; reflexivity. Qed.

(** After the runs of class [p] are replaced, the characters left are the
    ones that were outside [p], and hyphens. *)
Lemma allChars_replaceRuns (p q : ascii -> bool) (s : string) :
  q "-"%char = true ->
  allChars (fun c => p c || q c) s = true ->
  allChars q (replaceRuns p s) = true.
Proof.
  intros Hh. induction s as [|c s IH]; [reflexivity|].
  intro H. cbn [allChars] in H. apply andb_prop in H as [Hc Hs].
  specialize (IH Hs). rewrite replaceRuns_cons.
  destruct (p c) eqn:Pc.
  - destruct s as [|c' s']; [cbn [allChars]; now rewrite Hh|].
    destruct (p c') eqn:Pc'; [exact IH|].
    cbn [allChars]. now rewrite Hh, IH.
  - simpl in Hc. cbn [allChars]. now rewrite Hc, IH.
Qed.

Lemma noRun_replaceRuns (p : ascii -> bool) (s : string) :
  noRun p (replaceRuns p s) = true.
Proof.
  induction s as [|c s IH]; [reflexivity|].
  rewrite replaceRuns_cons. destruct (p c) eqn:Pc.
  - destruct s as [|c' s']; [reflexivity|].
    destruct (p c') eqn:Pc'; [exact IH|].
    rewrite replaceRuns_cons, Pc' in *.
    cbn [noRun]. cbn [noRun] in IH. rewrite Pc' in *.
    rewrite andb_false_r. exact IH.
  - destruct (replaceRuns p s) as [|d t] eqn:E; [reflexivity|].
    cbn [noRun]. cbn [noRun] in IH. rewrite Pc. exact IH.
Qed.

Lemma lower_fixed (s : string) :
  allChars isSlugChar s = true -> toLowerCase s = s.
Proof.
  induction s as [|c s IH]; simpl; [reflexivity|].
  intro H. apply andb_prop in H as [Hc Hs].
  now rewrite (slugChar_lower c Hc), IH.
Qed.

Lemma trimEnd_fixed (s : string) :
  allChars (fun c => negb (isWhite c)) s = true -> trimEnd s = s.
Proof.
  induction s as [|c s IH]; [reflexivity|].
  cbn [allChars]. intro H. apply andb_prop in H as [Hc Hs].
  rewrite StringFacts.trimEnd_cons, (IH Hs).
  apply negb_true_iff in Hc. rewrite Hc. now destruct s.
Qed.

Lemma trim_fixed (s : string) :
  allChars (fun c => negb (isWhite c)) s = true -> trim s = s.
Proof.
  intro H. unfold trim.
  assert (trimStart s = s) as ->; [|now apply trimEnd_fixed].
  destruct s as [|c s]; [reflexivity|]. cbn [allChars] in H.
  apply andb_prop in H as [Hc _]. apply negb_true_iff in Hc.
  simpl. now rewrite Hc.
Qed.

Lemma keepChars_fixed (p : ascii -> bool) (s : string) :
  allChars p s = true -> keepChars p s = s.
Proof.
  induction s as [|c s IH]; simpl; [reflexivity|].
  intro H. apply andb_prop in H as [Hc Hs]. now rewrite Hc, IH.
Qed.

Lemma replaceRuns_none (p : ascii -> bool) (s : string) :
  allChars (fun c => negb (p c)) s = true -> replaceRuns p s = s.
Proof.
  induction s as [|c s IH]; [reflexivity|].
  cbn [allChars]. intro H. apply andb_prop in H as [Hc Hs].
  apply negb_true_iff in Hc. rewrite replaceRuns_cons, Hc. now rewrite IH.
Qed.

Lemma replaceRuns_hyphen_fixed (s : string) :
  noRun isHyphen s = true -> replaceRuns isHyphen s = s.
Proof.
  induction s as [|c s IH]; [reflexivity|].
  intro H. rewrite replaceRuns_cons.
  destruct (isHyphen c) eqn:Hc.
  - apply isHyphen_eq in Hc as Ec. subst c.
    destruct s as [|c' s']; [reflexivity|].
    cbn [noRun] in H. rewrite Hc in H. cbn [andb] in H.
    apply andb_prop in H as [Hc' Hs]. apply negb_true_iff in Hc'.
    rewrite Hc'. f_equal. apply IH.
    cbn [noRun]. exact Hs.
  - f_equal. apply IH. destruct s as [|c' s']; [reflexivity|].
    cbn [noRun] in H. rewrite Hc in H. exact H.
Qed.

Lemma slugOf_shape (s : string) :
  allChars isSlugChar (slugOf s) = true /\
  noRun isHyphen (slugOf s) = true.
Proof.
  unfold slugOf. split; [|apply noRun_replaceRuns].
  apply allChars_replaceRuns; [reflexivity|].
  apply (allChars_impl isSlugChar); [intros c ->; apply orb_true_r|].
  apply allChars_replaceRuns; [reflexivity|].
  apply (allChars_impl isSlugInput); [|apply allChars_keep].
  intros c H. destruct (isWhite c) eqn:W; [reflexivity|].
  simpl. now apply input_not_white.
Qed.

Lemma slugOf_fixed (t : string) :
  allChars isSlugChar t = true -> noRun isHyphen t = true -> slugOf t = t.
Proof.
  intros Hc Hr. unfold slugOf.
  assert (allChars (fun c => negb (isWhite c)) t = true) as Hw.
  { apply (allChars_impl isSlugChar); [|exact Hc].
    intros c H. now rewrite (slugChar_not_white c H). }
  rewrite (lower_fixed t Hc), (trim_fixed t Hw).
  rewrite (keepChars_fixed isSlugInput t)
    by (apply (allChars_impl isSlugChar); [apply slugChar_input | exact Hc]).
  rewrite (replaceRuns_none isWhite t Hw).
  now apply replaceRuns_hyphen_fixed.
Qed.

(** X24.  A slug consists of the characters a-z, 0-9 and hyphen only, has no two
    hyphens in a row, and making a slug of a slug gives it back. *)
Theorem makeSlug_shape (v : jsval) (t : string) :
  makeSlug v = Some t ->
  allChars isSlugChar t = true /\
  noRun isHyphen t = true /\
  makeSlug (JStr t) = Some t.
Proof.
  unfold makeSlug. destruct (toStringOpt (or_ v (JStr ""))) as [s|];
    [|discriminate].
  intros [= <-]. destruct (slugOf_shape s) as [Hc Hr].
  split; [exact Hc|]. split; [exact Hr|].
  assert (toStringOpt (or_ (JStr (slugOf s)) (JStr "")) = Some (slugOf s))
    as ->.
  { unfold or_. simpl. now destruct (slugOf s). }
  simpl. f_equal. now apply slugOf_fixed.
Qed.

Lemma showZ_inj (a b : Z) : showZ a = showZ b -> a = b.
Proof.
  unfold showZ. intro H. apply DecimalZ.to_int_inj.
  assert (forall n, Z.to_int n <> Decimal.Pos Decimal.Nil /\
                    Z.to_int n <> Decimal.Neg Decimal.Nil) as Hn.
  { intros [|p|p]; simpl; split; try discriminate;
      intros [= E]; now apply (DecimalPos.Unsigned.to_uint_nonnil p). }
  destruct (Hn a) as [A1 A2]. destruct (Hn b) as [B1 B2].
  pose proof (NilZero.isi _ A1 A2) as Ea.
  pose proof (NilZero.isi _ B1 B2) as Eb.
  rewrite H in Ea. rewrite Ea in Eb. now injection Eb.
Qed.

Lemma append_cancel (a x y : string) : a ++ x = a ++ y -> x = y.
Proof. induction a as [|c a IH]; simpl; [auto|]. intros [= H]. auto. Qed.

Lemma length_append (a b : string) :
  String.length (a ++ b) = (String.length a + String.length b)%nat.
Proof. induction a; simpl; auto. Qed.

(** The candidates the loop tries after the first one. *)
Local Abbreviation candidate base k := (base ++ "-" ++ showZ k).

Lemma candidate_inj (base : string) (a b : Z) :
  candidate base a = candidate base b -> a = b.
Proof.
  intro H. apply append_cancel in H. injection H as H. now apply showZ_inj.
Qed.

Lemma base_not_candidate (base : string) (k : Z) : base <> candidate base k.
Proof.
  intro H. apply (f_equal String.length) in H.
  rewrite length_append in H. simpl in H. lia.
Qed.

(** The store without the posts whose slug is [s]. *)
Local Abbreviation without s d :=
  (mkBlogDb
     (List.filter (fun p => negb (String.eqb (slug p) s)) (blog_posts d))
     (nextPostId d)).

Lemma slugTaken_without (d : BlogDb) (s x : string) :
  x <> s -> slugTaken (without s d) x = slugTaken d x.
Proof.
  intro Hx. unfold slugTaken. simpl.
  induction (blog_posts d) as [|p ps IH]; simpl; [reflexivity|].
  destruct (String.eqb_spec (slug p) s) as [E|E]; simpl.
  - rewrite IH. destruct (String.eqb_spec (slug p) x) as [E'|_];
      [congruence | reflexivity].
  - now rewrite IH.
Qed.

Lemma without_shorter (d : BlogDb) (s : string) :
  slugTaken d s = true ->
  (List.length (blog_posts (without s d)) < List.length (blog_posts d))%nat.
Proof.
  unfold slugTaken. simpl.
  induction (blog_posts d) as [|p ps IH]; simpl; [discriminate|].
  destruct (String.eqb (slug p) s) eqn:E; simpl.
  - intros _. pose proof (filter_length_le
      (fun p => negb (String.eqb (slug p) s)) ps). lia.
  - intro H. specialize (IH H). lia.
Qed.

Lemma freeSlug_ext (fuel : nat) (d d' : BlogDb) (base cur : string) (k : Z) :
  slugTaken d cur = slugTaken d' cur ->
  (forall j, k <= j ->
     slugTaken d (candidate base j) = slugTaken d' (candidate base j)) ->
  freeSlug fuel d base cur k = freeSlug fuel d' base cur k.
Proof.
  revert cur k. induction fuel as [|fuel IH]; intros cur k Hc Hj;
    [reflexivity|].
  simpl. rewrite <- Hc. destruct (slugTaken d cur); [|reflexivity].
  apply IH; [apply Hj; lia | intros j Hk; apply Hj; lia].
Qed.

(** What the loop returns is a slug no stored post has. *)
Lemma freeSlug_fresh (fuel : nat) (d : BlogDb) (base cur s : string) (k : Z) :
  freeSlug fuel d base cur k = Some s -> slugTaken d s = false.
Proof.
  revert cur k. induction fuel as [|fuel IH]; intros cur k; [discriminate|].
  simpl. destruct (slugTaken d cur) eqn:E; [apply IH|].
  now intros [= <-].
Qed.

(** The loop ends: with more fuel than stored posts it returns. *)
Lemma freeSlug_total (fuel : nat) (d : BlogDb) (base cur : string) (k : Z) :
  (forall j, k <= j -> cur <> candidate base j) ->
  (List.length (blog_posts d) < fuel)%nat ->
  exists s, freeSlug fuel d base cur k = Some s.
Proof.
  revert d cur k. induction fuel as [|fuel IH]; intros d cur k Hne Hlen;
    [lia|].
  simpl. destruct (slugTaken d cur) eqn:E; [|eauto].
  rewrite (freeSlug_ext fuel d (without cur d) base _ (k + 1)).
  - apply IH.
    + intros j Hj Heq. apply candidate_inj in Heq. lia.
    + pose proof (without_shorter d cur E). lia.
  - symmetry. apply slugTaken_without. intro H. apply (Hne k); [lia|].
    now symmetry.
  - intros j Hj. symmetry. apply slugTaken_without. intro H.
    apply (Hne j); [lia|]. now symmetry.
Qed.

Lemma slugTaken_In (d : BlogDb) (s : string) :
  slugTaken d s = false -> ~ In s (map slug (blog_posts d)).
Proof.
  unfold slugTaken. intros H Hin. apply in_map_iff in Hin as (p & E & Hp).
  assert (existsb (fun p => String.eqb (slug p) s) (blog_posts d) = true)
    as C; [|congruence].
  apply existsb_exists. exists p. split; [exact Hp|].
  rewrite E. apply String.eqb_refl.
Qed.

Lemma NoDup_snoc (A : Type) (l : list A) (x : A) :
  NoDup l -> ~ In x l -> NoDup (l ++ [x]).
Proof.
  induction l as [|a l IH]; simpl; intros Hn Hx.
  - constructor; [tauto | constructor].
  - inversion Hn as [|? ? Ha Hl]; subst. constructor.
    + rewrite in_app_iff. simpl. intuition.
    + apply IH; [exact Hl | tauto].
Qed.

(** The outcomes of [createBlogPost] when the fuel exceeds the number of
    stored posts. *)
Lemma createBlogPost_run (fuel : nat) (r : Request) (now : Z) (d : BlogDb) :
  (List.length (blog_posts d) < fuel)%nat ->
  let b := Auth.body r in
  let status_ := orDefault (prop b "status") (JStr "draft") in
  createBlogPost fuel r now d
    = Some (failure 400 "Title and content are required", d) /\
    (truthy (prop b "title") && truthy (prop b "content") = false)
  \/
  createBlogPost fuel r now d
    = Some (failure 500 "Failed to create blog post", d) /\
    (truthy (prop b "title") && truthy (prop b "content") = true)
  \/
  exists post,
    createBlogPost fuel r now d
      = Some (inserted (nextPostId d),
              mkBlogDb (blog_posts d ++ [post]) (nextPostId d + 1)) /\
    (truthy (prop b "title") && truthy (prop b "content") = true) /\
    slugTaken d (slug post) = false /\
    title post = prop b "title" /\
    status post = status_ /\
    (publishedAt post = Some now <-> status_ = JStr "published") /\
    (publishedAt post = None <-> status_ <> JStr "published") /\
    authorId post = Some (Auth.orStr (Auth.orEmpty (Auth.userId r)) "admin").
Proof.
  intros Hlen b status_. unfold createBlogPost. fold b. fold status_.
  destruct (truthy (prop b "title")) eqn:Tt; cbn [negb orb andb];
    [|left; split; reflexivity].
  destruct (truthy (prop b "content")) eqn:Tc; cbn [negb orb andb];
    [|left; split; reflexivity].
  right.
  destruct (requestedSlug (prop b "slug") (prop b "title")) as [made|];
    [|left; split; reflexivity].
  set (baseSlug := if nonEmpty made then made else "post-" ++ showZ now).
  destruct (freeSlug_total fuel d baseSlug baseSlug 1) as [s Hs];
    [intros j _; apply base_not_candidate | exact Hlen |].
  rewrite Hs.
  destruct (authorNameOf (Auth.email r) "Admin") as [name|];
    [|left; split; reflexivity].
  right. eexists. split; [reflexivity|]. simpl.
  split; [reflexivity|].
  split; [exact (freeSlug_fresh _ _ _ _ _ _ Hs)|].
  split; [reflexivity|]. split; [reflexivity|].
  destruct status_ as [| | | | |st| |]; try (repeat split; congruence).
  destruct (String.eqb_spec st "published") as [->|Hne];
    repeat split; congruence.
Qed.

(** X25.  [createBlogPost] always answers once the fuel exceeds the number of
    stored posts; a refusal leaves the store as it was, and a stored post
    gets a slug that no earlier post has, so distinct slugs stay
    distinct. *)
Theorem createBlogPost_slug_is_fresh (fuel : nat) (r : Request) (now : Z)
  (d : BlogDb) :
  (List.length (blog_posts d) < fuel)%nat ->
  exists resp d',
    createBlogPost fuel r now d = Some (resp, d') /\
    ((d' = d /\ Auth.status resp <> 200) \/
     (exists post,
        blog_posts d' = (blog_posts d ++ [post])%list /\
        Auth.status resp = 200 /\
        ~ In (slug post) (map slug (blog_posts d)))) /\
    (NoDup (map slug (blog_posts d)) -> NoDup (map slug (blog_posts d'))).
Proof.
  intro Hlen.
  destruct (createBlogPost_run fuel r now d Hlen)
    as [[E _] | [[E _] | (post & E & _ & Hf & _)]]; rewrite E.
  - eexists _, _. split; [reflexivity|]. split; [left; split; [reflexivity|discriminate] | auto].
  - eexists _, _. split; [reflexivity|]. split; [left; split; [reflexivity|discriminate] | auto].
  - apply slugTaken_In in Hf.
    eexists _, _. split; [reflexivity|]. split.
    + right. exists post. auto.
    + simpl. intro Hn. rewrite map_app. now apply NoDup_snoc.
Qed.

(** X26.  What [createBlogPost] requires and records: the answer is the 400
    exactly when title or content is missing, and a stored post keeps the
    status sent (draft when none was), is dated as published exactly when
    that status is "published", and is attributed to the requester, or to
    "admin" when there is none. *)
Theorem createBlogPost_validation (fuel : nat) (r : Request) (now : Z)
  (d : BlogDb) :
  (List.length (blog_posts d) < fuel)%nat ->
  let b := Auth.body r in
  let status_ := orDefault (prop b "status") (JStr "draft") in
  exists resp d',
    createBlogPost fuel r now d = Some (resp, d') /\
    (Auth.status resp = 400 <->
     truthy (prop b "title") && truthy (prop b "content") = false) /\
    (forall post, blog_posts d' = (blog_posts d ++ [post])%list ->
       status post = status_ /\
       (publishedAt post = Some now <-> status_ = JStr "published") /\
       (publishedAt post = None <-> status_ <> JStr "published") /\
       authorId post
         = Some (Auth.orStr (Auth.orEmpty (Auth.userId r)) "admin")).
Proof.
  intros Hlen b status_.
  destruct (createBlogPost_run fuel r now d Hlen)
    as [[E V] | [[E V] | (post & E & V & _ & _ & F)]];
    fold b in V; rewrite E; eexists _, _; (split; [reflexivity|]).
  - split; [split; auto|].
    intros post H. exfalso. apply (f_equal (@List.length _)) in H.
    rewrite length_app in H. simpl in H. lia.
  - split; [split; [discriminate | congruence]|].
    intros post H. exfalso. apply (f_equal (@List.length _)) in H.
    rewrite length_app in H. simpl in H. lia.
  - split; [split; [discriminate | congruence]|].
    intros post' H. simpl in H. apply app_inj_tail in H as [_ <-].
    exact F.
Qed.

(** X27.  A post a seller creates is never published or featured by the request:
    once the fuel exceeds the number of stored posts the handler answers, a
    refusal writes nothing, and the stored post is a draft, or pending
    review when [submit] is truthy, is not featured, has no publication
    date, is attributed to the requester, and has a slug that no earlier
    post has. *)
Theorem seller_post_is_never_published (fuel : nat) (r : Request) (now : Z)
  (d : BlogDb) :
  (List.length (blog_posts d) < fuel)%nat ->
  exists resp d',
    createSellerBlogPost fuel r now d = Some (resp, d') /\
    ((d' = d /\ resp = failure 500 "Failed to create post") \/
     (exists post,
        blog_posts d' = (blog_posts d ++ [post])%list /\
        resp = inserted (nextPostId d) /\
        ~ In (slug post) (map slug (blog_posts d)) /\
        status post
          = (if truthy (orDefault (prop (Auth.body r) "submit") (JBool false))
             then JStr "pending_review" else JStr "draft") /\
        featured post = JBool false /\
        publishedAt post = None /\
        authorId post = Auth.userId r)).
Proof.
  intro Hlen. unfold createSellerBlogPost.
  destruct (requestedSlug (prop (Auth.body r) "slug")
              (prop (Auth.body r) "title")) as [sl|];
    [|eexists _, _; split; [reflexivity | left; auto]].
  set (first := if nonEmpty sl then sl else "post-" ++ showZ now).
  destruct (freeSlug_total fuel d sl first 1) as [s Hs]; [|exact Hlen|].
  { intros j _. subst first. destruct sl as [|c sl'].
    - simpl. discriminate.
    - apply base_not_candidate. }
  rewrite Hs.
  destruct (authorNameOf (Auth.email r) "Seller") as [name|];
    [|eexists _, _; split; [reflexivity | left; auto]].
  pose proof (slugTaken_In _ _ (freeSlug_fresh _ _ _ _ _ _ Hs)) as Hf.
  destruct (orDefault (prop (Auth.body r) "seo") (JObj []));
    (eexists _, _; split; [reflexivity|]);
    first [ left; split; reflexivity
          | right; eexists; repeat split; try reflexivity; exact Hf ].
Qed.

End BlogFacts.

(* ===================================================================== *)
(** ** Further worked instances                                           *)
(* ===================================================================== *)

Module MoreExamples.
Import JS Auth Mongo Fixtures MoreFixtures.

Lemma jwt_secret_fallback_witness :
  JWT_SECRET envWithSecret = "s3cret" /\ JWT_SECRET noEnv = "your-secret-key".
Proof.
  split.
  - apply (proj1 (proj2 (AuthExtra.jwt_secret_fallback envWithSecret))
             "s3cret"); reflexivity.
  - apply (proj2 (proj2 (proj2 (AuthExtra.jwt_secret_fallback noEnv))));
      reflexivity.
Defined.

Lemma picked_token_is_trimmed_witness :
  pickToken bearerTwoSpaces = Some "abc" /\ trim "abc" = "abc".
Proof.
  split; [reflexivity|].
  apply (AuthExtra.picked_token_is_trimmed bearerTwoSpaces "abc").
  reflexivity.
Defined.

Lemma blank_credential_is_not_skipped_witness :
  header blankBearer "x-auth-token" = "tok-admin" /\
  pickToken blankBearer = Some "" /\
  authenticateToken noEnv verifier blankBearer
    = (blankBearer, Sent (failure 401 "Access token required")).
Proof.
  split; [reflexivity|]. split; [reflexivity|].
  apply (proj1 (AuthExtra.blank_credential_is_not_skipped noEnv verifier)
           blankBearer ""); reflexivity.
Defined.

(** A token whose account type cannot be converted: the answer is the
    401, and the request handed on already carries the user id. *)
Lemma guards_short_circuit_witness :
  verifyAndAttach noEnv oddVerifier objectTypeRequest
    = (setUserId objectTypeRequest "u1",
       Some (failure 401 "Invalid or expired token")) /\
  requireAdmin noEnv oddVerifier objectTypeRequest
    = (setUserId objectTypeRequest "u1",
       Sent (failure 401 "Invalid or expired token")) /\
  requirePermission noEnv oddVerifier "ads.view" objectTypeRequest
    = (setUserId objectTypeRequest "u1",
       Sent (failure 401 "Invalid or expired token")) /\
  headers (setUserId objectTypeRequest "u1") = headers objectTypeRequest.
Proof.
  split; [reflexivity|].
  destruct (AuthExtra.guards_short_circuit noEnv oddVerifier
              objectTypeRequest (setUserId objectTypeRequest "u1")
              (failure 401 "Invalid or expired token") eq_refl)
    as (_ & _ & _ & (Hh & _) & _ & Ha & _ & _ & Hp).
  exact (conj Ha (conj (Hp "ads.view") Hh)).
Defined.

Lemma attached_identity_witness :
  verifyAndAttach noEnv verifier adminRequest = (adminIdentity, None) /\
  headers adminIdentity = headers adminRequest /\
  isAdmin adminIdentity = Some true.
Proof.
  split; [reflexivity|].
  destruct (AuthExtra.attached_identity noEnv verifier adminRequest
              adminIdentity eq_refl)
    as (Hh & _ & _ & _ & _ & _ & _ & Hadm).
  exact (conj Hh (Hadm (or_introl eq_refl))).
Defined.

Lemma requireAdmin_iff_witness :
  verifyAndAttach noEnv staffVerifier flagRequest = (flagIdentity, None) /\
  allows (snd (requireAdmin noEnv staffVerifier flagRequest)) = true.
Proof.
  split; [reflexivity|].
  apply (proj1 (AuthExtra.requireAdmin_iff noEnv staffVerifier flagRequest
                  flagIdentity eq_refl)).
  left. reflexivity.
Defined.

Lemma guard_hierarchy_witness :
  allows (snd (requirePermission noEnv verifier "sellers.manage"
                 salesRequest)) = true /\
  allows (snd (requireAdmin noEnv verifier salesRequest)) = true.
Proof.
  split; [reflexivity|].
  apply (proj1 (AuthExtra.guard_hierarchy noEnv verifier salesRequest)
           "sellers.manage").
  reflexivity.
Defined.

Lemma wildcard_permission_witness :
  verifyAndAttach noEnv staffVerifier superRequest = (superIdentity, None) /\
  requirePermission noEnv staffVerifier "anything.at.all" superRequest
    = (superIdentity, CalledNext).
Proof.
  split; [reflexivity|].
  apply (proj1 (AuthExtra.wildcard_permission noEnv staffVerifier
                  superRequest superIdentity eq_refl));
    reflexivity.
Defined.

Lemma longer_window_counts_more_witness :
  countOf (FreeAds.freePostFilter "u1" 4999999400) (world None twoFree)
  <= countOf (FreeAds.freePostFilter "u1" 4999998000) (world None twoFree).
Proof.
  apply (QuotaExtra.longer_window_counts_more "u1" 4999999400 4999998000
           (world None twoFree)).
  lia.
Defined.

Lemma packageId_is_normalised_witness :
  Properties.packageIdOf (body packagedForm) = Some "gold" /\
  trim "gold" = "gold".
Proof.
  split; [reflexivity|].
  apply (proj1 (QuotaExtra.packageId_is_normalised (body packagedForm))
           "gold").
  reflexivity.
Defined.

Lemma checkLimit_is_read_only_witness :
  let w := world (Some limitTwo) twoFree in
  fst (FreeAds.checkUserFreeAdLimit utcDaysBack freeForm
         (mkWorld (db w) (clock w) [FindSettings]))
  = fst (FreeAds.checkUserFreeAdLimit utcDaysBack freeForm w).
Proof.
  apply (QuotaExtra.checkLimit_is_read_only utcDaysBack freeForm
           (world (Some limitTwo) twoFree)); reflexivity.
Defined.

Lemma checkLimit_numbers_witness :
  let w := world (Some limitTwo) oneFree in
  exists remaining,
    FreeAds.dataField
      (fst (FreeAds.checkUserFreeAdLimit utcDaysBack freeForm w)) "remaining"
      = JNum remaining /\
    1 + remaining = 2.
Proof.
  destruct (QuotaExtra.checkLimit_numbers utcDaysBack freeForm
              (world (Some limitTwo) oneFree) eq_refl)
    as (rem & Hr & _ & _ & _ & _ & _ & Hsum & _).
  exists rem. split; [exact Hr|]. apply Hsum. vm_compute. discriminate.
Defined.


Lemma accepted_creation_was_announced_witness :
  let w := world (Some limitTwo) oneFree in
  Auth.status (fst (Properties.createProperty parseJson None None submitted freeForm w))
    = 201 /\
  FreeAds.dataField
    (fst (FreeAds.checkUserFreeAdLimit utcDaysBack freeForm w)) "canPostFree"
    = JBool true.
Proof.
  split; [reflexivity|].
  apply (QuotaExtra.accepted_creation_was_announced utcDaysBack parseJson
           None None submitted freeForm (world (Some limitTwo) oneFree) "u1" limitTwo);
    reflexivity.
Defined.

Lemma creation_consumes_free_quota_witness :
  let w := world (Some limitTwo) oneFree in
  FreeAds.usedAtCheck utcDaysBack freeForm limitTwo
    (snd (Properties.createProperty parseJson None None submitted freeForm w)) = 2 /\
  FreeAds.usedAtCheck utcDaysBack packagedForm limitTwo
    (snd (Properties.createProperty parseJson None None submitted packagedForm w)) = 1.
Proof.
  split.
  - apply (QuotaExtra.creation_consumes_free_quota utcDaysBack parseJson
             None None submitted freeForm (world (Some limitTwo) oneFree) "u1"
             limitTwo); try reflexivity.
    vm_compute. discriminate.
  - apply (QuotaExtra.creation_consumes_free_quota utcDaysBack parseJson
             None None submitted packagedForm (world (Some limitTwo) oneFree) "u1"
             limitTwo); try reflexivity.
    vm_compute. discriminate.
Defined.

Lemma settings_read_and_decisions_witness :
  let w := world None twoFree in
  let w1 := snd (FreeAds.getSettings freeForm w) in
  Auth.status (fst (Properties.createProperty parseJson None None submitted freeForm w))
    = 201 /\
  fst (Properties.createProperty parseJson None None submitted freeForm w1)
    = fst (Properties.createProperty parseJson None None submitted freeForm
             (withSettings FreeAds.DEFAULT_SETTINGS w)) /\
  Auth.status (fst (Properties.createProperty parseJson None None submitted freeForm w1))
    = 403.
Proof.
  split; [reflexivity|]. split; [|reflexivity].
  apply (QuotaExtra.settings_read_and_decisions utcDaysBack parseJson
           None None submitted freeForm freeForm (world None twoFree)).
  reflexivity.
Defined.

Lemma propertyType_normalisation_idempotent_witness :
  Helpers.normalizedPropertyType [("propertyType", JStr " Co-Living ")]
    = Helpers.TypeName "pg" /\
  Helpers.normalizedPropertyType [("propertyType", JStr "pg")]
    = Helpers.TypeName "pg".
Proof.
  split; [reflexivity|].
  apply (HelperFacts.propertyType_normalisation_idempotent
           [("propertyType", JStr " Co-Living ")] "pg").
  reflexivity.
Defined.

Lemma query_matches_stored_type_witness :
  Helpers.queryPropertyType [("category", JStr "Apartment")]
    = Helpers.normalizedPropertyType [("propertyType", JStr "Apartment")].
Proof.
  apply (proj2 (HelperFacts.query_matches_stored_type "Apartment") "flat").
  reflexivity.
Defined.

Lemma featured_feed_is_moderated_witness :
  let d := mkDb None (activeListing :: twoFree) 1 in
  Feeds.getFeaturedProperties sortDesc d = Feeds.FeedData [activeListing] /\
  forall p, In p [activeListing] -> status p = "active".
Proof.
  split; [reflexivity|]. intros p Hp.
  apply (proj2 (FeedFacts.featured_feed_is_moderated sortDesc
                  FeedFacts.sortDesc_members
                  (mkDb None (activeListing :: twoFree) 1) [activeListing]
                  eq_refl) p Hp).
Defined.

Lemma user_feed_is_own_listings_witness :
  let d := mkDb None (activeListing :: twoFree) 1 in
  exists ps, Feeds.getUserProperties sortDesc freeForm d = Feeds.FeedData ps /\
    forall p, In p ps <-> In p (properties d) /\ ownerId p = "u1".
Proof.
  apply (proj2 (FeedFacts.user_feed_is_own_listings sortDesc
                  FeedFacts.sortDesc_members freeForm
                  (mkDb None (activeListing :: twoFree) 1)) "u1");
    reflexivity.
Defined.

Lemma new_listing_awaits_moderation_witness :
  let w := world (Some limitTwo) [activeListing] in
  let d' := db (snd (Properties.createProperty parseJson None None submitted
                       freeForm w)) in
  Feeds.getFeaturedProperties sortDesc d'
    = Feeds.getFeaturedProperties sortDesc (db w).
Proof.
  apply (FeedFacts.new_listing_awaits_moderation sortDesc
           FeedFacts.sortDesc_members parseJson None None submitted
           freeForm
           (world (Some limitTwo) [activeListing]) "u1");
    reflexivity.
Defined.

Lemma makeSlug_shape_witness :
  Blog.makeSlug (JStr "  Hello --  World!! ") = Some "hello-world" /\
  Blog.makeSlug (JStr "hello-world") = Some "hello-world".
Proof.
  split; [reflexivity|].
  apply (BlogFacts.makeSlug_shape (JStr "  Hello --  World!! ")
           "hello-world").
  reflexivity.
Defined.

Lemma createBlogPost_slug_is_fresh_witness :
  exists resp d',
    Blog.createBlogPost 5 helloForm 1000 oneBlogPost = Some (resp, d') /\
    NoDup (map Blog.slug (Blog.blog_posts d')).
Proof.
  destruct (BlogFacts.createBlogPost_slug_is_fresh 5 helloForm 1000
              oneBlogPost)
    as (resp & d' & E & _ & Hn); [simpl; lia|].
  exists resp, d'. split; [exact E|]. apply Hn.
  simpl. constructor; [simpl; tauto | constructor].
Defined.

Lemma createBlogPost_validation_witness :
  exists resp d',
    Blog.createBlogPost 5 (asUser "u1" [("title", JStr "No text")]) 1000
      oneBlogPost = Some (resp, d') /\
    Auth.status resp = 400.
Proof.
  destruct (BlogFacts.createBlogPost_validation 5
              (asUser "u1" [("title", JStr "No text")]) 1000 oneBlogPost)
    as (resp & d' & E & Hv & _); [simpl; lia|].
  exists resp, d'. split; [exact E|]. apply Hv. reflexivity.
Defined.

Lemma seller_post_is_never_published_witness :
  exists resp d',
    Blog.createSellerBlogPost 5 helloForm 1000 oneBlogPost = Some (resp, d').
Proof.
  destruct (BlogFacts.seller_post_is_never_published 5 helloForm 1000
              oneBlogPost)
    as (resp & d' & E & _); [simpl; lia|].
  now exists resp, d'.
Defined.

End MoreExamples.
